(** * DaNomNoms ordering backend: a shallow embedding and its properties

    The development follows the Python sources module by module:
    - [restaurant_service]: the text parsers, cart / estimate / receipt
      arithmetic and the receipt identifier generator;
    - [models]: the field validators of [RestaurantResponse];
    - [database]: the catalog look-ups of [DatabaseService];
    - [agent]: name resolution, the tool dispatcher, the history trimmer and
      the orchestration loop.

    Python [float] is IEEE-754 binary64 and is modelled by Rocq's primitive
    floats; [str] is modelled by [string] (one-byte characters); exceptions
    are modelled by the error monad [result]. *)

From Stdlib Require Import ZArith List Bool String Ascii Floats Lia.
From Stdlib Require Import DecimalString DecimalNat ListDec.
Import ListNotations.

Set Warnings "-inexact-float,-register-all".
Local Open Scope string_scope.
Local Open Scope Z_scope.

(* ================================================================== *)
(** * Python values, exceptions and helpers *)
(* ================================================================== *)

Module Py.

(** The exceptions the modelled code raises or catches.  [HTTPException]
    carries its status code and detail; every other exception class that is
    not a [ValueError] is an [OtherError] with the name of its class. *)
Inductive exn : Type :=
| HTTPException (status_code : Z) (detail : string)
| ValueError (msg : string)
| OtherError (kind : string) (msg : string).

Inductive result (A : Type) : Type :=
| Return (a : A)
| Raise (e : exn).
Arguments Return {A} a.
Arguments Raise {A} e.

Definition bind {A B} (m : result A) (k : A -> result B) : result B :=
  match m with
  | Return a => k a
  | Raise e => Raise e
  end.

(** [try: m except Exception as e: h e] *)
Definition try_except {A} (m : result A) (h : exn -> result A) : result A :=
  match m with
  | Return a => Return a
  | Raise e => h e
  end.

Declare Scope py_scope.
Delimit Scope py_scope with py.
Notation "x <- m ;; k" := (bind m (fun x => k))
  (at level 61, m at next level, right associativity) : py_scope.

(** A field of a stored document whose type the code inspects at run time
    ([Union[float, str, None]] and whatever else the scraper stored). *)
Inductive pyval : Type :=
| PNone
| PBool (b : bool)
| PInt (n : Z)
| PFloat (f : float)
| PStr (s : string)
| POther.

(** ** Characters and strings *)

Definition is_digit (c : ascii) : bool :=
  let n := nat_of_ascii c in (48 <=? n)%nat && (n <=? 57)%nat.

Definition digit_value (c : ascii) : Z := Z.of_nat (nat_of_ascii c) - 48.

(** A character is a code point below 256, and a string a sequence of
    such characters; texts with other characters are not modelled.

    [str.isspace] on such a character, which is what [\s] matches in a
    pattern on [str]: TAB, LF, VT, FF, CR, FS, GS, RS, US, the space, the
    next-line control U+0085 and the no-break space U+00A0. *)
Definition is_space (c : ascii) : bool :=
  let n := nat_of_ascii c in
  ((9 <=? n)%nat && (n <=? 13)%nat) || ((28 <=? n)%nat && (n <=? 32)%nat)
  || Nat.eqb n 133 || Nat.eqb n 160.

Definition lower_char (c : ascii) : ascii :=
  let n := nat_of_ascii c in
  if (65 <=? n)%nat && (n <=? 90)%nat then ascii_of_nat (n + 32) else c.

Fixpoint lower (s : string) : string :=
  match s with
  | EmptyString => EmptyString
  | String c s' => String (lower_char c) (lower s')
  end.

Fixpoint prefixb (p s : string) : bool :=
  match p, s with
  | EmptyString, _ => true
  | String a p', String b s' => Ascii.eqb a b && prefixb p' s'
  | String _ _, EmptyString => false
  end.

(** [p in s] on strings. *)
Fixpoint contains (p s : string) : bool :=
  prefixb p s ||
  match s with
  | EmptyString => false
  | String _ s' => contains p s'
  end.

Definition mem_char (c : ascii) (cs : string) : bool :=
  existsb (Ascii.eqb c) (list_ascii_of_string cs).

Fixpoint lstrip (cs s : string) : string :=
  match s with
  | String c s' => if mem_char c cs then lstrip cs s' else s
  | EmptyString => EmptyString
  end.

Definition rev_string (s : string) : string :=
  string_of_list_ascii (rev (list_ascii_of_string s)).

(** [s.strip(cs)] *)
Definition strip (cs s : string) : string :=
  rev_string (lstrip cs (rev_string (lstrip cs s))).

(** [str(n)] for a natural number. *)
Definition str_nat (n : nat) : string :=
  NilZero.string_of_uint (Nat.to_uint n).

Fixpoint repeat_string (s : string) (n : nat) : string :=
  match n with
  | O => EmptyString
  | S n' => s ++ repeat_string s n'
  end.

(** [s.zfill(width)] for a string without sign. *)
Definition zfill (width : nat) (s : string) : string :=
  repeat_string "0" (width - String.length s) ++ s.

(** ** Numbers *)

(** The binary64 number nearest to [n / d] (ties to even). *)
Definition float_of_ratio (neg : bool) (n d : positive) : float :=
  SF2Prim (SFdiv prec emax (S754_finite neg n 0) (S754_finite false d 0)).

(** [float(n)] for an integer. *)
Definition float_of_Z (n : Z) : float :=
  match n with
  | Z0 => 0%float
  | Zpos p => float_of_ratio false p 1
  | Zneg p => float_of_ratio true p 1
  end.

Definition pow10 (k : nat) : positive := Nat.iter k (Pos.mul 10) 1%positive.

(** [float(n)] as Python computes it: an integer too large for a float
    (one that would round to 2^1024) raises [OverflowError]. *)
Definition float_of_int (n : Z) : result float :=
  if Z.abs n <? 2 ^ 1024 - 2 ^ 970
  then Return (float_of_Z n)
  else Raise (OtherError "OverflowError" "int too large to convert to float").

(** The digits of a string matched by [\d+\.?\d*]: the integer the digits
    spell with the dot removed, and the number of digits after the dot. *)
Fixpoint decimal_digits (s : string) (seen_dot : bool) (acc : Z) (frac : nat)
  : Z * nat :=
  match s with
  | EmptyString => (acc, frac)
  | String c s' =>
      if is_digit c
      then decimal_digits s' seen_dot (10 * acc + digit_value c)
             (if seen_dot then S frac else frac)
      else decimal_digits s' true acc frac
  end.

(** [float(s)] for a string matched by [\d+\.?\d*]: correctly rounded. *)
Definition float_of_decimal (s : string) : float :=
  let '(n, k) := decimal_digits s false 0 0 in
  match n with
  | Zpos p => float_of_ratio false p (pow10 k)
  | _ => 0%float
  end.

(** [int(x)] for a float: truncation toward zero; infinities and NaN raise. *)
Definition int_of_float (x : float) : result Z :=
  match Prim2SF x with
  | S754_zero _ => Return 0
  | S754_finite s m e =>
      let a := match e with
               | Zneg k => Z.shiftr (Zpos m) (Zpos k)
               | _ => Z.shiftl (Zpos m) e
               end in
      Return (if s then - a else a)
  | S754_infinity _ =>
      Raise (OtherError "OverflowError" "cannot convert float infinity to integer")
  | S754_nan =>
      Raise (ValueError "cannot convert float NaN to integer")
  end.

(** Rounding of the rational [n / d] to the nearest integer, ties to even. *)
Definition round_half_even (n : Z) (d : positive) : Z :=
  let q := Z.div n (Zpos d) in
  let r := Z.modulo n (Zpos d) in
  match Z.compare (2 * r) (Zpos d) with
  | Lt => q
  | Gt => q + 1
  | Eq => if Z.even q then q else q + 1
  end.

(** [round(x, 2)]: the exact value of [x] is rounded to two decimals (ties to
    even) and the decimal is converted back to the nearest float; the sign of
    [x] is kept; infinities and NaN are returned as they are. *)
Definition round2 (x : float) : float :=
  match Prim2SF x with
  | S754_finite s m e =>
      let n := match e with
               | Zneg k => round_half_even (Zpos m * 100) (Pos.pow 2 k)
               | _ => Z.shiftl (Zpos m) e * 100
               end in
      match n with
      | Zpos p => float_of_ratio s p 100
      | _ => if s then (-0)%float else 0%float
      end
  | _ => x
  end.

(** ** The regular expressions of the parsers

    [re.search] tries the pattern at every start position from the left and
    returns the first match; the functions below return group 1. *)

(** The longest prefix of digits (a greedy run of [\d]) and what follows it. *)
Fixpoint span_digits (s : string) : string * string :=
  match s with
  | String c s' =>
      if is_digit c
      then let '(d, r) := span_digits s' in (String c d, r)
      else (EmptyString, s)
  | EmptyString => (EmptyString, EmptyString)
  end.

(** The pattern [\d+\.?\d*] (captured) anchored at the start of [s]. *)
Definition match_decimal (s : string) : option string :=
  let '(d1, r1) := span_digits s in
  match d1 with
  | EmptyString => None
  | _ =>
      match r1 with
      | String "."%char r2 => let '(d2, _) := span_digits r2 in Some (d1 ++ "." ++ d2)
      | _ => Some d1
      end
  end.

(** [re.search] of [\d+\.?\d*] (captured) in [s] *)
Fixpoint search_decimal (s : string) : option string :=
  match match_decimal s with
  | Some g => Some g
  | None =>
      match s with
      | String _ s' => search_decimal s'
      | EmptyString => None
      end
  end.

(** The pattern [\$?] then [\d+\.?\d*] (captured) anchored at the start of [s]: the dollar
    sign is taken when present, and given back when no digit follows it. *)
Definition match_dollar_decimal (s : string) : option string :=
  match s with
  | String "$"%char s' =>
      match match_decimal s' with
      | Some g => Some g
      | None => match_decimal s
      end
  | _ => match_decimal s
  end.

(** [re.search] of [\$?] then [\d+\.?\d*] (captured) in [s] *)
Fixpoint search_dollar_decimal (s : string) : option string :=
  match match_dollar_decimal s with
  | Some g => Some g
  | None =>
      match s with
      | String _ s' => search_dollar_decimal s'
      | EmptyString => None
      end
  end.

(** The pattern [\d+] (captured) anchored at the start of [s]. *)
Definition match_digits (s : string) : option string :=
  match fst (span_digits s) with
  | EmptyString => None
  | d => Some d
  end.

(** [re.search] of [\d+] (captured) in [s] *)
Fixpoint search_digits (s : string) : option string :=
  match match_digits s with
  | Some g => Some g
  | None =>
      match s with
      | String _ s' => search_digits s'
      | EmptyString => None
      end
  end.

Fixpoint skip_spaces (s : string) : string :=
  match s with
  | String c s' => if is_space c then skip_spaces s' else s
  | EmptyString => EmptyString
  end.

(** The pattern [\d+] (captured) then [\s*min] anchored at the start of [s].  The digits and
    the blanks are taken greedily; giving some back cannot help, since what
    must follow is the letter m. *)
Definition match_minutes (s : string) : option string :=
  let '(d, r) := span_digits s in
  match d with
  | EmptyString => None
  | _ => if prefixb "min" (skip_spaces r) then Some d else None
  end.

(** [re.search] of [\d+] (captured) then [\s*min] in [s] *)
Fixpoint search_minutes (s : string) : option string :=
  match match_minutes s with
  | Some g => Some g
  | None =>
      match s with
      | String _ s' => search_minutes s'
      | EmptyString => None
      end
  end.

(** [int(s)] for a string of digits. *)
Definition int_of_digits (s : string) : Z := fst (decimal_digits s false 0 0).

(** Truth value of a float: [x != 0.0]. *)
Definition float_truthy (x : float) : bool := negb (PrimFloat.eqb x 0).

(** [str(e)] for an exception.  For [HTTPException] this is the text its
    class defines, the status code, a colon and the detail. *)
Definition exn_text (e : exn) : string :=
  match e with
  | HTTPException status detail =>
      match status with
      | Zneg p => "-" ++ str_nat (Pos.to_nat p)
      | _ => str_nat (Z.to_nat status)
      end ++ ": " ++ detail
  | ValueError msg => msg
  | OtherError _ msg => msg
  end.

End Py.


(* ================================================================== *)
(** * models.py: the field validators of RestaurantResponse *)
(* ================================================================== *)

Module models.
Import Py.

(** A validator returns the value it hands to the field; [int(...)] of an
    infinite float raises. *)

Definition parse_delivery_fee (v : pyval) : pyval :=
  match v with
  | PNone => PNone
  | PBool b => PFloat (if b then 1%float else 0%float)
  | PInt n => PFloat (float_of_Z n)
  | PFloat f => PFloat f
  | PStr s =>
      match search_dollar_decimal s with
      | Some g => PFloat (float_of_decimal g)
      | None => PStr s
      end
  | POther => POther
  end.

Definition parse_eta (v : pyval) : pyval :=
  match v with
  | PNone => PNone
  | PBool b => PBool b
  | PInt n => PInt n
  | PStr s =>
      match search_minutes s with
      | Some g => PInt (int_of_digits g)
      | None => PStr s
      end
  | _ => v
  end.

Definition parse_number_of_ratings (v : pyval) : result pyval :=
  match v with
  | PNone => Return PNone
  | PBool b => Return (PBool b)
  | PInt n => Return (PInt n)
  | PStr s =>
      let v_clean := strip "()" s in
      let digits_only :=
        match search_digits v_clean with
        | Some g => Return (PInt (int_of_digits g))
        | None => Return (PStr s)
        end in
      if contains "k+" (lower v_clean) then
        match search_decimal v_clean with
        | Some g =>
            (n <- int_of_float (float_of_decimal g * 1000)%float ;;
             Return (PInt n))%py
        | None => digits_only
        end
      else digits_only
  | _ => Return v
  end.

(** ["$" * v] for an integer: no character when [v] is not positive.
    [str_of] is [str] of a value that is neither an integer nor a string. *)
Definition parse_price_range (v : pyval) (str_of : pyval -> string) : pyval :=
  match v with
  | PNone => PNone
  | PBool b => PStr (repeat_string "$" (if b then 1 else 0))
  | PInt n => PStr (repeat_string "$" (Z.to_nat n))
  | PStr s => PStr s
  | _ => PStr (str_of v)
  end.

(** The validator of [price] of [MenuItemResponse]. *)
Definition parse_price (v : pyval) : pyval :=
  match v with
  | PNone => PNone
  | PBool b => PFloat (if b then 1%float else 0%float)
  | PInt n => PFloat (float_of_Z n)
  | PFloat f => PFloat f
  | PStr s =>
      match search_decimal s with
      | Some g => PFloat (float_of_decimal g)
      | None => PStr s
      end
  | POther => POther
  end.

End models.

(* ================================================================== *)
(** * database.py: DatabaseService over the document store *)
(* ================================================================== *)

Module database.
Import Py.

(** Stored documents.  [_id] is an ObjectId, kept as the 24 lower-case
    hexadecimal digits [str] prints; [name] and [description] are strings or
    absent; prices and fees are whatever the scraper stored. *)
Record restaurant_doc : Type := {
  r_id : string;
  r_store_id : option string;
  r_name : option string;
  r_description : option string;
  r_delivery_fee : pyval;
  r_items : list string
}.

Record item_doc : Type := {
  i_id : string;
  i_store_id : option string;
  i_name : option string;
  i_description : option string;
  i_price : pyval
}.

(** The priced line of a cart or receipt ([CartItemDetail] and
    [ReceiptItemDetail] have the same fields). *)
Record item_detail : Type := {
  d_item_id : string;
  d_name : option string;
  d_description : option string;
  d_price : float;
  d_quantity : Z;
  d_subtotal : float
}.

Record receipt_doc : Type := {
  rc_receipt_id : string;
  rc_restaurant_id : string;
  rc_restaurant_name : option string;
  rc_items : list item_detail;
  rc_subtotal : float;
  rc_delivery_fee : option float;
  rc_tax : float;
  rc_total : float;
  rc_delivery_id : option string;
  rc_customer_name : option string;
  rc_customer_email : option string;
  rc_customer_phone : option string;
  rc_delivery_address : option string;
  rc_created_at : string
}.

(** The three collections, each in the store's natural order. *)
Record db : Type := {
  restaurants : list restaurant_doc;
  items : list item_doc;
  receipts : list receipt_doc
}.

Definition is_hex (c : ascii) : bool :=
  let n := nat_of_ascii c in
  is_digit c || ((65 <=? n)%nat && (n <=? 70)%nat)
             || ((97 <=? n)%nat && (n <=? 102)%nat).

(** [ObjectId(s)]: a string of 24 hexadecimal digits, read without regard to
    case; anything else raises [InvalidId]. *)
Definition ObjectId (s : string) : option string :=
  if Nat.eqb (String.length s) 24
     && forallb is_hex (list_ascii_of_string s)
  then Some (lower s) else None.

(** [[ObjectId(i) for i in ids]]: the first invalid one raises. *)
Fixpoint ObjectIds (ids : list string) : option (list string) :=
  match ids with
  | [] => Some []
  | i :: rest =>
      match ObjectId i with
      | None => None
      | Some o =>
          match ObjectIds rest with
          | None => None
          | Some os => Some (o :: os)
          end
      end
  end.

(** [find_one({'_id': oid})], then [if restaurant:]; an invalid id is caught
    and gives [None]. *)
Definition get_restaurant_by_id (d : db) (restaurant_id : string)
  : option restaurant_doc :=
  match ObjectId restaurant_id with
  | None => None
  | Some oid => find (fun r => String.eqb (r_id r) oid) (restaurants d)
  end.

(** The two queries of [get_restaurant_by_name].  The pattern is the escaped
    name, so every character stands for itself; option [i] compares letters
    without regard to case; with the anchors the whole name must match,
    without them any part of it.  A document whose name is not a string
    matches neither. *)
Definition name_regex_exact (name : string) (r : restaurant_doc) : bool :=
  match r_name r with
  | Some n => String.eqb (lower n) (lower name)
  | None => false
  end.

Definition name_regex_partial (name : string) (r : restaurant_doc) : bool :=
  match r_name r with
  | Some n => contains (lower name) (lower n)
  | None => false
  end.

Definition get_restaurant_by_name (d : db) (name : string)
  : option restaurant_doc :=
  match find (name_regex_exact name) (restaurants d) with
  | Some r => Some r
  | None => find (name_regex_partial name) (restaurants d)
  end.

(** [find({'_id': {'$in': object_ids}})]: every stored item whose id is one of
    the given ones, once, in store order; an invalid id is caught and gives
    the empty list. *)
Definition get_items_by_ids (d : db) (item_ids : list string) : list item_doc :=
  match ObjectIds item_ids with
  | None => []
  | Some oids =>
      filter (fun it => existsb (String.eqb (i_id it)) oids) (items d)
  end.

Definition item_regex_exact (name : string) (it : item_doc) : bool :=
  match i_name it with
  | Some n => String.eqb (lower n) (lower name)
  | None => false
  end.

Definition item_regex_partial (name : string) (it : item_doc) : bool :=
  match i_name it with
  | Some n => contains (lower name) (lower n)
  | None => false
  end.

(** Exact match first, then partial match, among the items [scope] selects. *)
Definition find_item_in (d : db) (scope : item_doc -> bool) (item_name : string)
  : option item_doc :=
  match find (fun it => item_regex_exact item_name it && scope it) (items d) with
  | Some it => Some it
  | None => find (fun it => item_regex_partial item_name it && scope it) (items d)
  end.

(** The restaurant's own id list decides when it is not empty, its store code
    otherwise; every failure inside is caught and gives [None]. *)
Definition get_item_by_name (d : db) (restaurant_id item_name : string)
  : option item_doc :=
  match ObjectId restaurant_id with
  | None => None
  | Some oid =>
      match find (fun r => String.eqb (r_id r) oid) (restaurants d) with
      | None => None
      | Some restaurant =>
          match r_items restaurant with
          | _ :: _ =>
              find_item_in d
                (fun it => existsb (String.eqb (i_id it)) (r_items restaurant))
                item_name
          | [] =>
              match r_store_id restaurant with
              | Some (String c sid) =>
                  find_item_in d
                    (fun it => match i_store_id it with
                               | Some s => String.eqb s (String c sid)
                               | None => false
                               end)
                    item_name
              | _ => None
              end
          end
      end
  end.

(** The items of a restaurant: those of its id list when the list is not
    empty, those with its store code otherwise; an unknown or invalid
    restaurant id gives the empty list. *)
Definition get_menu_items (d : db) (restaurant_id : string) : list item_doc :=
  match ObjectId restaurant_id with
  | None => []
  | Some oid =>
      match find (fun r => String.eqb (r_id r) oid) (restaurants d) with
      | None => []
      | Some restaurant =>
          match r_items restaurant with
          | [] =>
              match r_store_id restaurant with
              | Some (String c sid) =>
                  filter (fun it => match i_store_id it with
                                    | Some s => String.eqb s (String c sid)
                                    | None => false
                                    end) (items d)
              | _ => []
              end
          | item_ids =>
              filter (fun it => existsb (String.eqb (i_id it)) item_ids) (items d)
          end
      end
  end.

(** [find({'store_id': store_id})] *)
Definition get_menu_items_by_store_id (d : db) (store_id : string)
  : list item_doc :=
  filter (fun it => match i_store_id it with
                    | Some s => String.eqb s store_id
                    | None => false
                    end) (items d).

(** [find_one({'_id': ObjectId(item_id)})]; an invalid id gives [None]. *)
Definition get_item_by_id (d : db) (item_id : string) : option item_doc :=
  match ObjectId item_id with
  | None => None
  | Some oid => find (fun it => String.eqb (i_id it) oid) (items d)
  end.

(** [find_one({'receipt_id': receipt_id})] *)
Definition get_receipt_by_receipt_id (d : db) (receipt_id : string)
  : option receipt_doc :=
  find (fun r => String.eqb (rc_receipt_id r) receipt_id) (receipts d).

(** [count_documents({'receipt_id': {'$regex': '^' + prefix}})] *)
Definition count_receipts_with_prefix (d : db) (prefix : string) : nat :=
  List.length (filter (fun r => prefixb prefix (rc_receipt_id r)) (receipts d)).

(** [insert_one]: the document goes to the end of the collection. *)
Definition create_receipt (d : db) (receipt_data : receipt_doc) : db :=
  {| restaurants := restaurants d;
     items := items d;
     receipts := receipts d ++ [receipt_data] |}.

End database.

(* ================================================================== *)
(** * services/restaurant_service.py *)
(* ================================================================== *)

Module restaurant_service.
Import Py database.

(** Stored integers are 64-bit, so [float(value)] cannot overflow on them. *)
Definition parse_delivery_fee (value : pyval) : float :=
  match value with
  | PNone => 0%float
  | PBool b => if b then 1%float else 0%float
  | PInt n => float_of_Z n
  | PFloat f => f
  | PStr s =>
      match search_dollar_decimal s with
      | Some g => float_of_decimal g
      | None => 0%float
      end
  | POther => 0%float
  end.

Definition parse_price (value : pyval) : float :=
  match value with
  | PNone => 0%float
  | PBool b => if b then 1%float else 0%float
  | PInt n => float_of_Z n
  | PFloat f => f
  | PStr s =>
      match search_decimal s with
      | Some g => float_of_decimal g
      | None => 0%float
      end
  | POther => 0%float
  end.

(** [date_str] is [datetime.utcnow().strftime("%Y%m%d")], read by the caller. *)
Definition generate_receipt_id (d : db) (date_str : string) : string :=
  let today_receipts := count_receipts_with_prefix d ("RCP-" ++ date_str ++ "-") in
  let sequence := zfill 3 (str_nat (today_receipts + 1)) in
  "RCP-" ++ date_str ++ "-" ++ sequence.

(** Requests, as pydantic hands them over ([quantity] is an [int]). *)
Record CartItem : Type := {
  item_id : string;
  quantity : Z
}.

(** [BuildCartRequest] and [CostEstimateRequest] have the same fields. *)
Record CartRequest : Type := {
  restaurant_id : string;
  items : list CartItem
}.

Record CreateReceiptRequest : Type := {
  cr_restaurant_id : string;
  cr_items : list CartItem;
  cr_delivery_id : option string;
  cr_customer_name : option string;
  cr_customer_email : option string;
  cr_customer_phone : option string;
  cr_delivery_address : option string
}.

Record CartResponse : Type := {
  cart_restaurant_id : string;
  cart_restaurant_name : option string;
  cart_items : list item_detail;
  cart_subtotal : float;
  cart_delivery_fee : option float;
  cart_total : float
}.

Record CostEstimateResponse : Type := {
  est_restaurant_id : string;
  est_restaurant_name : option string;
  est_subtotal : float;
  est_delivery_fee : option float;
  est_estimated_total : float;
  est_estimated_tax : float
}.

Record ReceiptResponse : Type := {
  resp_id : string;
  resp_receipt : receipt_doc
}.

(** [items_map.get(k)] for [items_map = {item['_id']: item for item in
    items_data}]: the last document with that id. *)
Definition items_map_get (items_data : list item_doc) (k : string)
  : option item_doc :=
  find (fun it => String.eqb (i_id it) k) (rev items_data).

Definition tax_rate : float := 0.085%float.

(** The [for cart_item in request.items] loop of [build_cart] and of
    [create_receipt]: the priced lines so far and the running subtotal. *)
Fixpoint price_items (items_data : list item_doc) (request_items : list CartItem)
    (lines : list item_detail) (subtotal : float)
  : result (list item_detail * float) :=
  match request_items with
  | [] => Return (lines, subtotal)
  | cart_item :: rest =>
      match items_map_get items_data (item_id cart_item) with
      | None =>
          Raise (HTTPException 400 ("Item " ++ item_id cart_item ++ " not found"))
      | Some item_data =>
          let item_price := parse_price (i_price item_data) in
          (q <- float_of_int (quantity cart_item) ;;
           let item_subtotal := (item_price * q)%float in
           price_items items_data rest
             (lines ++ [ {| d_item_id := item_id cart_item;
                            d_name := i_name item_data;
                            d_description := i_description item_data;
                            d_price := item_price;
                            d_quantity := quantity cart_item;
                            d_subtotal := item_subtotal |} ])
             (subtotal + item_subtotal)%float)%py
      end
  end.

(** The loop of [compute_cost_estimate]: the running subtotal only. *)
Fixpoint sum_items (items_data : list item_doc) (request_items : list CartItem)
    (subtotal : float) : result float :=
  match request_items with
  | [] => Return subtotal
  | cart_item :: rest =>
      match items_map_get items_data (item_id cart_item) with
      | None =>
          Raise (HTTPException 400 ("Item " ++ item_id cart_item ++ " not found"))
      | Some item_data =>
          let item_price := parse_price (i_price item_data) in
          (q <- float_of_int (quantity cart_item) ;;
           sum_items items_data rest (subtotal + item_price * q)%float)%py
      end
  end.

(** [round(delivery_fee, 2) if delivery_fee else None] *)
Definition fee_field (delivery_fee : float) : option float :=
  if float_truthy delivery_fee then Some (round2 delivery_fee) else None.

Definition build_cart (d : db) (request : CartRequest) : result CartResponse :=
  match get_restaurant_by_id d (restaurant_id request) with
  | None => Raise (HTTPException 404 "Restaurant not found")
  | Some restaurant =>
      let item_ids := map item_id (items request) in
      let items_data := get_items_by_ids d item_ids in
      if negb (Nat.eqb (List.length items_data) (List.length item_ids))
      then Raise (HTTPException 400 "One or more items not found or invalid")
      else
        (priced <- price_items items_data (items request) [] 0%float ;;
         let '(lines, subtotal) := priced in
         let delivery_fee := parse_delivery_fee (r_delivery_fee restaurant) in
         let total := (subtotal + delivery_fee)%float in
         Return {| cart_restaurant_id := restaurant_id request;
                   cart_restaurant_name := r_name restaurant;
                   cart_items := lines;
                   cart_subtotal := round2 subtotal;
                   cart_delivery_fee := fee_field delivery_fee;
                   cart_total := round2 total |})%py
  end.

Definition compute_cost_estimate (d : db) (request : CartRequest)
  : result CostEstimateResponse :=
  match get_restaurant_by_id d (restaurant_id request) with
  | None => Raise (HTTPException 404 "Restaurant not found")
  | Some restaurant =>
      let item_ids := map item_id (items request) in
      let items_data := get_items_by_ids d item_ids in
      if negb (Nat.eqb (List.length items_data) (List.length item_ids))
      then Raise (HTTPException 400 "One or more items not found or invalid")
      else
        (subtotal <- sum_items items_data (items request) 0%float ;;
         let delivery_fee := parse_delivery_fee (r_delivery_fee restaurant) in
         let estimated_tax := (subtotal * tax_rate)%float in
         let estimated_total := (subtotal + delivery_fee + estimated_tax)%float in
         Return {| est_restaurant_id := restaurant_id request;
                   est_restaurant_name := r_name restaurant;
                   est_subtotal := round2 subtotal;
                   est_delivery_fee := fee_field delivery_fee;
                   est_estimated_total := round2 estimated_total;
                   est_estimated_tax := round2 estimated_tax |})%py
  end.

(** What [create_receipt] reads from outside the store: the UTC date when the
    identifier is generated, the time stamp of the document, and the [_id]
    the store gives to the inserted document. *)
Record receipt_env : Type := {
  env_date_str : string;
  env_created_at : string;
  env_inserted_id : string
}.

(** [create_receipt] returns its outcome and the store it leaves behind; the
    store is written by [db_service.create_receipt] only. *)
Definition create_receipt (env : receipt_env) (d : db) (request : CreateReceiptRequest)
  : result ReceiptResponse * db :=
  match get_restaurant_by_id d (cr_restaurant_id request) with
  | None => (Raise (HTTPException 404 "Restaurant not found"), d)
  | Some restaurant =>
      let item_ids := map item_id (cr_items request) in
      let items_data := get_items_by_ids d item_ids in
      if negb (Nat.eqb (List.length items_data) (List.length item_ids))
      then (Raise (HTTPException 400 "One or more items not found or invalid"), d)
      else
        match price_items items_data (cr_items request) [] 0%float with
        | Raise e => (Raise e, d)
        | Return (receipt_items, subtotal) =>
            let delivery_fee := parse_delivery_fee (r_delivery_fee restaurant) in
            let tax := (subtotal * tax_rate)%float in
            let total := (subtotal + delivery_fee + tax)%float in
            let receipt_id := generate_receipt_id d (env_date_str env) in
            let receipt_data :=
              {| rc_receipt_id := receipt_id;
                 rc_restaurant_id := cr_restaurant_id request;
                 rc_restaurant_name := r_name restaurant;
                 rc_items := receipt_items;
                 rc_subtotal := round2 subtotal;
                 rc_delivery_fee := fee_field delivery_fee;
                 rc_tax := round2 tax;
                 rc_total := round2 total;
                 rc_delivery_id := cr_delivery_id request;
                 rc_customer_name := cr_customer_name request;
                 rc_customer_email := cr_customer_email request;
                 rc_customer_phone := cr_customer_phone request;
                 rc_delivery_address := cr_delivery_address request;
                 rc_created_at := env_created_at env |} in
            let d' := database.create_receipt d receipt_data in
            (Return {| resp_id := env_inserted_id env;
                       resp_receipt := receipt_data |}, d')
        end
  end.

End restaurant_service.

(* ================================================================== *)
(** * JSON values as Python sees them *)
(* ================================================================== *)

Module Json.
Import Py.

(** What [json.loads] produces and [json.dumps] accepts.  A [JDict] lists the
    entries of a Python [dict] in insertion order; its keys are distinct. *)
Inductive json : Type :=
| JNull
| JBool (b : bool)
| JInt (n : Z)
| JFloat (f : float)
| JStr (s : string)
| JList (l : list json)
| JDict (d : list (string * json)).

Definition dict : Type := list (string * json).

Definition truthy (v : json) : bool :=
  match v with
  | JNull => false
  | JBool b => b
  | JInt n => negb (Z.eqb n 0)
  | JFloat f => float_truthy f
  | JStr s => negb (String.eqb s "")
  | JList l => match l with [] => false | _ => true end
  | JDict d => match d with [] => false | _ => true end
  end.

Fixpoint lookup (k : string) (d : dict) : option json :=
  match d with
  | [] => None
  | (k', v) :: rest => if String.eqb k' k then Some v else lookup k rest
  end.

(** [d[k] = v]: the entry is replaced where it stands, or added at the end. *)
Fixpoint set (k : string) (v : json) (d : dict) : dict :=
  match d with
  | [] => [(k, v)]
  | (k', v') :: rest =>
      if String.eqb k' k then (k, v) :: rest else (k', v') :: set k v rest
  end.

Definition AttributeError (attr : string) : exn :=
  OtherError "AttributeError" ("object has no attribute '" ++ attr ++ "'").

Definition TypeError (msg : string) : exn := OtherError "TypeError" msg.

(** [x.get(k, default)]: only a dict has the method. *)
Definition get (x : json) (k : string) (default : json) : result json :=
  match x with
  | JDict d => Return (match lookup k d with Some v => v | None => default end)
  | _ => Raise (AttributeError "get")
  end.

(** [isinstance(x, dict) and k in x] *)
Definition is_dict_with (k : string) (x : json) : bool :=
  match x with
  | JDict d => match lookup k d with Some _ => true | None => false end
  | _ => false
  end.

(** [n < x] for an integer [n] that a float holds exactly. *)
Definition int_lt (n : Z) (x : json) : result bool :=
  match x with
  | JBool b => Return (n <? (if b then 1 else 0))
  | JInt m => Return (n <? m)
  | JFloat f => Return (PrimFloat.ltb (float_of_Z n) f)
  | _ => Raise (TypeError "'<' not supported between instances")
  end.

(** [min(x, n)]: [n] when [n < x], else [x]. *)
Definition min_with (x : json) (n : Z) : result json :=
  (b <- int_lt n x ;; Return (if b then JInt n else x))%py.

Definition chars_of (s : string) : list json :=
  map (fun c => JStr (String c EmptyString)) (list_ascii_of_string s).

(** [len(x)] *)
Definition len (x : json) : result nat :=
  match x with
  | JStr s => Return (String.length s)
  | JList l => Return (List.length l)
  | JDict d => Return (List.length d)
  | _ => Raise (TypeError "object has no len()")
  end.

(** The values [for v in x] goes through. *)
Definition iterate (x : json) : result (list json) :=
  match x with
  | JStr s => Return (chars_of s)
  | JList l => Return l
  | JDict d => Return (map (fun kv => JStr (fst kv)) d)
  | _ => Raise (TypeError "object is not iterable")
  end.

(** [x[:n]] *)
Definition slice_to (n : nat) (x : json) : result json :=
  match x with
  | JStr s => Return (JStr (substring 0 n s))
  | JList l => Return (JList (firstn n l))
  | JDict _ => Raise (OtherError "KeyError" "slice(None, 20, None)")
  | _ => Raise (TypeError "object is not subscriptable")
  end.

End Json.

(* ================================================================== *)
(** * routers/agent.py *)
(* ================================================================== *)

Module agent.
Import Py Json database.

(** ** The service layer and name resolution *)

(** What the dispatcher calls outside this file, each with whatever it may
    return or raise: the service layer ([restaurant_service],
    [doordash_service]), the request models whose construction validates the
    arguments, and [str] of a value that is not a string.  The three cart
    operations stand for the construction of the request from the resolved
    items followed by the service call, as the dispatcher chains them. *)
Record services : Type := {
  rs_list_restaurants : json -> json -> result json;
  rs_get_restaurant_menu_by_name : json -> result json;
  rs_get_menu_item : string -> result json;
  rs_build_cart : string -> list json -> result json;
  rs_compute_cost_estimate : string -> list json -> result json;
  rs_create_receipt : dict -> result json;
  DoorDashCreateDeliveryRequest : json -> result json;
  dd_create_delivery : json -> result json;
  dd_track_delivery : json -> result json;
  repr : json -> string
}.

(** [str(v)] inside an f-string. *)
Definition py_str (S : services) (v : json) : string :=
  match v with
  | JStr s => s
  | _ => repr S v
  end.

(** A name that is not a string makes [re.escape] raise a [TypeError]. *)
Definition not_a_string : exn :=
  TypeError "decoding to str: need a bytes-like object".

Definition resolve_restaurant_name_to_id (d : db) (restaurant_name : json)
  : result string :=
  match restaurant_name with
  | JStr name =>
      match get_restaurant_by_name d name with
      | None => Raise (ValueError ("Restaurant '" ++ name ++ "' not found"))
      | Some restaurant => Return (r_id restaurant)
      end
  | _ => Raise not_a_string
  end.

(** [db_service.get_item_by_name] catches what [re.escape] raises on an item
    name that is not a string, and returns [None]. *)
Definition resolve_item_name_to_id (S : services) (d : db)
    (restaurant_name item_name : json) : result string :=
  match restaurant_name with
  | JStr name =>
      match get_restaurant_by_name d name with
      | None => Raise (ValueError ("Restaurant '" ++ name ++ "' not found"))
      | Some restaurant =>
          let item :=
            match item_name with
            | JStr iname => get_item_by_name d (r_id restaurant) iname
            | _ => None
            end in
          match item with
          | None =>
              Raise (ValueError ("Item '" ++ py_str S item_name
                                 ++ "' not found in restaurant '" ++ name ++ "'"))
          | Some it => Return (i_id it)
          end
      end
  | _ => Raise not_a_string
  end.

(** ** The tool dispatcher *)

Definition error_dict (msg : string) : json := JDict [("error", JStr msg)].

Fixpoint map_result {A B} (f : A -> result B) (l : list A) : result (list B) :=
  match l with
  | [] => Return []
  | a :: rest =>
      (b <- f a ;; bs <- map_result f rest ;; Return (b :: bs))%py
  end.

(** The projection kept for a long restaurant list. *)
Definition minimal_restaurant (r : json) : result json :=
  (id <- get r "_id" JNull ;;
   name <- get r "name" JNull ;;
   description <- get r "description" JNull ;;
   store_id <- get r "store_id" JNull ;;
   Return (JDict [("_id", id); ("name", name);
                  ("description", description); ("store_id", store_id)]))%py.

Definition minimal_note (n : nat) : string :=
  "Showing minimal data (id, name, description) for " ++ str_nat n
  ++ " restaurants. Use get_restaurant_menu for full details.".

Definition call_list_restaurants (S : services) (arguments : json) : result json :=
  (limit0 <- get arguments "limit" (JInt 100) ;;
   limit <- min_with limit0 100 ;;
   skip <- get arguments "skip" (JInt 0) ;;
   result <- rs_list_restaurants S limit skip ;;
   match result with
   | JDict rd =>
       match lookup "restaurants" rd with
       | Some restaurants =>
           n <- len restaurants ;;
           if (20 <? n)%nat then
             rs <- iterate restaurants ;;
             minimal_restaurants <- map_result minimal_restaurant rs ;;
             Return (JDict
               (set "note" (JStr (minimal_note (List.length minimal_restaurants)))
                 (set "truncated" (JBool true)
                   (set "restaurants" (JList minimal_restaurants) rd))))
           else Return result
       | None => Return result
       end
   | _ => Return result
   end)%py.

Definition call_get_restaurant_menu (S : services) (arguments : json) : result json :=
  (restaurant_name <- get arguments "restaurant_name" JNull ;;
   if negb (truthy restaurant_name)
   then Return (error_dict "restaurant_name is required")
   else
     result <- rs_get_restaurant_menu_by_name S restaurant_name ;;
     match result with
     | JDict rd =>
         match lookup "items" rd with
         | Some its =>
             n <- len its ;;
             if (20 <? n)%nat then
               first20 <- slice_to 20 its ;;
               let rd1 := set "items" first20 rd in
               total <- min_with
                          (match lookup "total_items" rd1 with
                           | Some t => t
                           | None => JInt 0
                           end) 20 ;;
               Return (JDict (set "total_items" total rd1))
             else Return result
         | None => Return result
         end
     | _ => Return result
     end)%py.

Definition call_get_menu_item (S : services) (d : db) (arguments : json)
  : result json :=
  (restaurant_name <- get arguments "restaurant_name" JNull ;;
   item_name <- get arguments "item_name" JNull ;;
   if negb (truthy restaurant_name) || negb (truthy item_name)
   then Return (error_dict "restaurant_name and item_name are required")
   else
     try_except
       (item_id <- resolve_item_name_to_id S d restaurant_name item_name ;;
        rs_get_menu_item S item_id)
       (fun e => match e with
                 | ValueError msg => Return (error_dict msg)
                 | _ => Raise e
                 end))%py.

(** The [for item in items] loop of the three cart tools: either the error
    it returns from inside the loop, or the resolved items. *)
Fixpoint resolve_items (S : services) (d : db) (restaurant_name : json)
    (items : list json) (resolved_items : list json)
  : result (json + list json) :=
  match items with
  | [] => Return (inr resolved_items)
  | item :: rest =>
      (item_name <- get item "item_name" JNull ;;
       quantity <- get item "quantity" JNull ;;
       if negb (truthy item_name) || negb (truthy quantity)
       then Return (inl (error_dict "Each item must have item_name and quantity"))
       else
         item_id <- resolve_item_name_to_id S d restaurant_name item_name ;;
         resolve_items S d restaurant_name rest
           (resolved_items
              ++ [JDict [("item_id", JStr item_id); ("quantity", quantity)]]))%py
  end.

(** The two handlers that close the [try] of the cart tools. *)
Definition invalid_request (e : exn) : result json :=
  match e with
  | ValueError msg => Return (error_dict msg)
  | _ => Return (error_dict ("Invalid request parameters: " ++ exn_text e))
  end.

(** The body the tools [build_cart], [compute_cost_estimate] and
    [create_receipt] share; [finish] is the construction of the request and
    the call of the service, which differ. *)
Definition call_with_resolved_items (S : services) (d : db) (arguments : json)
    (finish : string -> list json -> result json) : result json :=
  (restaurant_name <- get arguments "restaurant_name" JNull ;;
   items <- get arguments "items" (JList []) ;;
   if negb (truthy restaurant_name) || negb (truthy items)
   then Return (error_dict "restaurant_name and items are required")
   else
     try_except
       (restaurant_id <- resolve_restaurant_name_to_id d restaurant_name ;;
        its <- iterate items ;;
        r <- resolve_items S d restaurant_name its [] ;;
        match r with
        | inl early => Return early
        | inr resolved_items => finish restaurant_id resolved_items
        end)
       invalid_request)%py.

Definition receipt_optional_fields : list string :=
  ["delivery_id"; "customer_name"; "customer_email"; "customer_phone";
   "delivery_address"].

(** [receipt_args] of the [create_receipt] tool. *)
Definition receipt_args (arguments : json) (restaurant_id : string)
    (resolved_items : list json) : dict :=
  fold_left
    (fun args field =>
       match arguments with
       | JDict ad =>
           match lookup field ad with
           | Some v => set field v args
           | None => args
           end
       | _ => args
       end)
    receipt_optional_fields
    [("restaurant_id", JStr restaurant_id); ("items", JList resolved_items)].

Definition call_create_delivery (S : services) (arguments : json) : result json :=
  match DoorDashCreateDeliveryRequest S arguments with
  | Raise e =>
      Return (error_dict ("Invalid request parameters: " ++ exn_text e))
  | Return request => dd_create_delivery S request
  end.

Definition call_track_delivery (S : services) (arguments : json) : result json :=
  (external_delivery_id <- get arguments "external_delivery_id" JNull ;;
   if negb (truthy external_delivery_id)
   then Return (error_dict "external_delivery_id is required")
   else dd_track_delivery S external_delivery_id)%py.

(** The [if / elif] chain inside the outer [try]. *)
Definition dispatch (S : services) (d : db) (function_name : string)
    (arguments : json) : result json :=
  if String.eqb function_name "list_restaurants" then
    call_list_restaurants S arguments
  else if String.eqb function_name "get_restaurant_menu" then
    call_get_restaurant_menu S arguments
  else if String.eqb function_name "get_menu_item" then
    call_get_menu_item S d arguments
  else if String.eqb function_name "build_cart" then
    call_with_resolved_items S d arguments (rs_build_cart S)
  else if String.eqb function_name "compute_cost_estimate" then
    call_with_resolved_items S d arguments (rs_compute_cost_estimate S)
  else if String.eqb function_name "create_receipt" then
    call_with_resolved_items S d arguments
      (fun restaurant_id resolved_items =>
         rs_create_receipt S (receipt_args arguments restaurant_id resolved_items))
  else if String.eqb function_name "create_delivery" then
    call_create_delivery S arguments
  else if String.eqb function_name "track_delivery" then
    call_track_delivery S arguments
  else
    Return (error_dict ("Unknown function: " ++ function_name)).

(** The two handlers of the outer [try]. *)
Definition outer_handler (e : exn) : result json :=
  match e with
  | HTTPException status_code detail =>
      Return (JDict [("error", JStr detail);
                     ("error_type", JStr "http_exception");
                     ("status_code", JInt status_code)])
  | _ =>
      Return (JDict [("error", JStr ("Unexpected error: " ++ exn_text e));
                     ("error_type", JStr "unexpected_error")])
  end.

Definition execute_function_call (S : services) (d : db) (function_name : string)
    (arguments : json) : result json :=
  try_except (dispatch S d function_name arguments) outer_handler.

(** ** Conversation history *)

Record tool_call : Type := {
  tc_id : string;
  tc_type : string;
  tc_name : string;
  tc_arguments : string
}.

(** A message of a thread: [tool_calls] is empty when the key is absent. *)
Record message : Type := {
  role : string;
  content : option string;
  tool_calls : list tool_call;
  tool_call_id : option string
}.

Definition is_system (msg : message) : bool := String.eqb (role msg) "system".

(** [l[-n:]]: the last [n] elements, and the whole list when [n] is 0. *)
Definition last_n {A} (n : nat) (l : list A) : list A :=
  match n with
  | O => l
  | _ => skipn (List.length l - n) l
  end.

Definition trim_conversation_history (messages : list message) (max_messages : nat)
  : list message :=
  if (List.length messages <=? max_messages)%nat then messages
  else
    let system_msgs := filter is_system messages in
    let non_system_msgs := filter (fun msg => negb (is_system msg)) messages in
    let trimmed_non_system :=
      if (max_messages <? List.length non_system_msgs)%nat
      then last_n max_messages non_system_msgs
      else non_system_msgs in
    system_msgs ++ trimmed_non_system.

Definition truncate_large_content (content : string) (max_length : nat) : string :=
  if (max_length <? String.length content)%nat
  then substring 0 max_length content
       ++ String "010" (String "010" "[Content truncated due to length...]")
  else content.

(** ** The orchestration loop *)

(** The reply of the model: [response.choices[0].message]. *)
Record assistant_message : Type := {
  am_content : option string;
  am_tool_calls : list tool_call
}.

(** What the chat endpoint calls outside this file: the environment variable
    with the key, the completion call of the model provider (it may raise),
    [json.loads] ([None] for a [JSONDecodeError]), [json.dumps],
    [uuid.uuid4().hex[:12]] and [traceback.format_exc()]. *)
Record runtime : Type := {
  OPEN_AI_API_KEY : option string;
  chat_completions_create : list message -> result assistant_message;
  json_loads : string -> option json;
  json_dumps : json -> string;
  uuid4_hex12 : string;
  format_exc : exn -> string
}.

Record AgentRequest : Type := {
  prompt : string;
  thread_id : option string
}.

Record AgentResponse : Type := {
  response : string;
  response_thread_id : string
}.

(** [conversation_threads]: thread identifier to history. *)
Definition threads : Type := list (string * list message).

Fixpoint thread_lookup (k : string) (t : threads) : option (list message) :=
  match t with
  | [] => None
  | (k', h) :: rest => if String.eqb k' k then Some h else thread_lookup k rest
  end.

Fixpoint thread_set (k : string) (h : list message) (t : threads) : threads :=
  match t with
  | [] => [(k, h)]
  | (k', h') :: rest =>
      if String.eqb k' k then (k, h) :: rest else (k', h') :: thread_set k h rest
  end.

(** [x or ""] and the truth value of an optional string. *)
Definition text_or_empty (c : option string) : string :=
  match c with Some s => s | None => "" end.

Definition has_text (c : option string) : bool :=
  negb (String.eqb (text_or_empty c) "").

(** The message as it is sent to the provider. *)
Definition api_message (msg : message) : message :=
  if String.eqb (role msg) "tool" then
    {| role := "tool"; content := content msg; tool_calls := [];
       tool_call_id := tool_call_id msg |}
  else if String.eqb (role msg) "assistant"
          && match tool_calls msg with [] => false | _ => true end then
    {| role := "assistant";
       content := if has_text (content msg) then content msg else None;
       tool_calls := tool_calls msg; tool_call_id := None |}
  else
    {| role := role msg; content := content msg; tool_calls := [];
       tool_call_id := None |}.

Definition suggestion : string :=
  "Please try again. If this is the first request after inactivity, the server may be waking up (can take 50+ seconds on free tier).".

(** One tool call: the arguments are decoded, the dispatcher runs, an error
    result is wrapped again, and the result goes into a tool message. *)
Definition run_tool_call (R : runtime) (S : services) (d : db) (tc : tool_call)
  : result message :=
  let function_name := tc_name tc in
  let function_args :=
    match json_loads R (tc_arguments tc) with
    | Some a => a
    | None => JDict []
    end in
  (function_result <- execute_function_call S d function_name function_args ;;
   let function_result :=
     match function_result with
     | JDict fd =>
         match lookup "error" fd with
         | Some error_msg =>
             let error_type :=
               match lookup "error_type" fd with
               | Some t => t
               | None => JStr "unknown"
               end in
             JDict [("success", JBool false); ("error", error_msg);
                    ("error_type", error_type); ("suggestion", JStr suggestion)]
         | None => function_result
         end
     | _ => function_result
     end in
   let result_json := json_dumps R function_result in
   let max_length :=
     if String.eqb function_name "list_restaurants"
     then (15 * 1000)%nat else (5 * 1000)%nat in
   Return {| role := "tool";
             content := Some (truncate_large_content result_json max_length);
             tool_calls := [];
             tool_call_id := Some (tc_id tc) |})%py.

(** The [for tool_call in assistant_message.tool_calls] loop. *)
Fixpoint run_tool_calls (R : runtime) (S : services) (d : db)
    (tcs : list tool_call) (messages : list message) : result (list message) :=
  match tcs with
  | [] => Return messages
  | tc :: rest =>
      (m <- run_tool_call R S d tc ;;
       run_tool_calls R S d rest (messages ++ [m]))%py
  end.

(** What the [while] loop leaves behind when it ends.  [exhausted] tells
    that it ended because [iteration] reached [max_iterations]; the program
    has no such variable. *)
Record loop_state : Type := {
  final_response : string;
  messages : list message;
  exhausted : bool
}.

(** [while iteration < max_iterations], by the iterations that remain.  Next
    to its outcome the loop gives the number of calls of the model it made,
    [calls] of them before it started; the program does not count them. *)
Fixpoint chat_loop (R : runtime) (S : services) (d : db) (remaining : nat)
    (msgs : list message) (calls : nat) : result loop_state * nat :=
  match remaining with
  | O => (Return {| final_response := ""; messages := msgs; exhausted := true |},
          calls)
  | Datatypes.S remaining' =>
      match chat_completions_create R (map api_message msgs) with
      | Raise e => (Raise e, Datatypes.S calls)
      | Return reply =>
          let assistant_msg_dict :=
            {| role := "assistant"; content := am_content reply;
               tool_calls := am_tool_calls reply; tool_call_id := None |} in
          let msgs := (msgs ++ [assistant_msg_dict])%list in
          match am_tool_calls reply with
          | [] =>
              (Return {| final_response := text_or_empty (am_content reply);
                         messages := msgs; exhausted := false |},
               Datatypes.S calls)
          | tcs =>
              match run_tool_calls R S d tcs msgs with
              | Raise e => (Raise e, Datatypes.S calls)
              | Return msgs' =>
                  chat_loop R S d remaining' msgs' (Datatypes.S calls)
              end
          end
      end
  end.

Definition max_iterations : nat := 10.

(** [for msg in reversed(messages)]: the content of the last assistant
    message that has text. *)
Definition last_assistant_text (msgs : list message) : option string :=
  match find (fun msg => String.eqb (role msg) "assistant" && has_text (content msg))
             (rev msgs) with
  | Some msg => content msg
  | None => None
  end.

(** The error a tool message carries: its content decodes to a dict with the
    key [error]; what does not decode is passed over. *)
Definition tool_error (R : runtime) (S : services) (msg : message) : option string :=
  if String.eqb (role msg) "tool" then
    match content msg with
    | Some c =>
        match json_loads R c with
        | Some (JDict cd) =>
            match lookup "error" cd with
            | Some e => Some (py_str S e)
            | None => None
            end
        | _ => None
        end
    | None => None
    end
  else None.

Definition error_messages (R : runtime) (S : services) (msgs : list message)
  : list string :=
  flat_map (fun msg => match tool_error R S msg with
                       | Some e => [e]
                       | None => []
                       end) msgs.

Definition apology : string :=
  "I apologize, but I encountered an issue processing your request. The agent may have exceeded the maximum iterations or encountered an unexpected error.".

(** The two [if not final_response] blocks after the loop. *)
Definition fallback_response (R : runtime) (S : services) (final : string)
    (msgs : list message) : string :=
  let final :=
    if String.eqb final "" then
      match last_assistant_text msgs with
      | Some text => text
      | None => final
      end
    else final in
  if String.eqb final "" then
    match rev (error_messages R S msgs) with
    | e :: _ => "I encountered an error: " ++ e
    | [] => apology
    end
  else final.

Definition system_prompt : string :=
  "You are a helpful assistant for the DaNomNoms food delivery service. You can help users browse restaurants, view menus, build carts, create orders, and manage deliveries. Use the available functions to interact with the API when needed. CRITICAL SEARCH INSTRUCTIONS FOR CUISINE REQUESTS: When a user asks for specific cuisine types (e.g., 'Japanese restaurants', 'I want sushi', 'show me Italian places'), you MUST: 1) FIRST call list_restaurants with limit=100 (not 10, not 50, but 100) to get ALL available restaurants, 2) EXAMINE each restaurant's 'description' field carefully - cuisine types are listed there (e.g., 'Japanese, Fast Casual', 'Sushi, Salads', 'Japanese, Sushi'), 3) FILTER the results to only show restaurants whose description contains the requested cuisine keyword (case-insensitive search), 4) PRESENT the filtered list to the user. Example: If user asks for Japanese, search for 'Japanese' or 'sushi' in description fields. IMPORTANT: Restaurant descriptions look like '$ • Japanese, Fast Casual' or '$$ • Sushi, Salads' - the cuisine appears after the price and bullet. Never say a cuisine is unavailable until you've searched through ALL 100 restaurants. If you receive a list of restaurants, you MUST search through ALL of them before concluding none match. RESTAURANT MENU REQUESTS: When a user asks for a menu by restaurant name (e.g., 'Show me U ME menu', 'What does Denny's have?'), you can directly call get_restaurant_menu with the restaurant_name parameter. You don't need to look up IDs - just use the restaurant name the user provides. The search is case-insensitive and handles exact or partial matches. CRITICAL: When function calls return errors (check for 'success: false' or 'error' fields), you MUST show the user the exact error message from the function result. Do NOT say 'temporary issue' or 'unable to retrieve' - instead, quote the actual error message so the user knows what went wrong.".

Definition system_message : message :=
  {| role := "system"; content := Some system_prompt; tool_calls := [];
     tool_call_id := None |}.

(** [get_openai_client]: the key must be set.  The client itself is the
    completion call of the runtime. *)
Definition get_openai_client (R : runtime) : result unit :=
  match OPEN_AI_API_KEY R with
  | Some (String _ _) => Return tt
  | _ =>
      Raise (HTTPException 500
        "OPEN_AI_API_KEY not found in environment variables. Please check your .env file.")
  end.

Definition generate_thread_id (R : runtime) : string :=
  "thread_" ++ uuid4_hex12 R.

(** The history of a thread, and the store with the thread in it. *)
Definition get_or_create_thread (store : threads) (tid : string)
  : list message * threads :=
  match thread_lookup tid store with
  | Some history => (history, store)
  | None => ([], thread_set tid [] store)
  end.

(** The endpoint: its outcome and the thread store it leaves behind.  The
    history with the new user message is the list the store holds, so the
    store sees that message even when the run fails later.  The tool
    declarations of [get_gpt_tools] go to the model with every call and are
    part of what [chat_completions_create] stands for. *)
Definition agent_chat (R : runtime) (S : services) (d : db) (store : threads)
    (request : AgentRequest) : result AgentResponse * threads :=
  match get_openai_client R with
  | Raise e => (Raise e, store)
  | Return _ =>
      let tid :=
        match thread_id request with
        | Some (String c t) => String c t
        | _ => generate_thread_id R
        end in
      let '(conversation_history, store) := get_or_create_thread store tid in
      let conversation_history :=
        (trim_conversation_history conversation_history 20
           ++ [ {| role := "user"; content := Some (prompt request);
                   tool_calls := []; tool_call_id := None |} ])%list in
      let store := thread_set tid conversation_history store in
      let msgs :=
        ((if Nat.eqb (List.length conversation_history) 1
          then [system_message] else []) ++ conversation_history)%list in
      match fst (chat_loop R S d max_iterations msgs 0) with
      | Raise (HTTPException status_code detail) =>
          (Raise (HTTPException status_code detail), store)
      | Raise e =>
          (Raise (HTTPException 500
             ("Error communicating with OpenAI API: " ++ exn_text e
              ++ String "010" (format_exc R e))), store)
      | Return st =>
          let final := fallback_response R S (final_response st) (messages st) in
          let updated_history :=
            filter (fun msg => negb (is_system msg)) (messages st) in
          (Return {| response := final; response_thread_id := tid |},
           thread_set tid (trim_conversation_history updated_history 20) store)
      end
  end.

End agent.

(* ================================================================== *)
(** * services/doordash_service.py *)
(* ================================================================== *)

Module doordash_service.
Import Py Json.

(** [DoorDashCreateDeliveryRequest] of models.py, once validated. *)
Record DoorDashCreateDeliveryRequest : Type := {
  external_delivery_id : string;
  pickup_address : string;
  pickup_business_name : string;
  pickup_phone_number : string;
  pickup_instructions : option string;
  pickup_reference_tag : option string;
  dropoff_address : string;
  dropoff_business_name : option string;
  dropoff_phone_number : string;
  dropoff_instructions : option string;
  dropoff_contact_given_name : option string;
  dropoff_contact_family_name : option string;
  order_value : option Z
}.

(** The answer of the delivery provider: [response.json()] may raise. *)
Record http_response : Type := {
  status_code : Z;
  text : string;
  json_of : result json
}.

(** What the service calls outside this file: the environment, [jwt.encode]
    with the claims and the clock inside ([developer_id], [key_id] and the
    signing secret are its arguments), [requests.post] and [requests.get]
    (the address, the body, the token of the [Authorization] header),
    whether an exception is a [requests.exceptions.RequestException], and
    the construction of [DoorDashDeliveryResponse] followed by [.dict()]. *)
Record outside : Type := {
  getenv : string -> option string;
  jwt_encode : string -> string -> string -> result string;
  requests_post : string -> dict -> string -> result http_response;
  requests_get : string -> string -> result http_response;
  is_RequestException : exn -> bool;
  DoorDashDeliveryResponse : json -> result json
}.

Definition DOORDASH_API_BASE_URL : string :=
  "https://openapi.doordash.com/drive/v2".

Definition create_jwt (E : outside) (developer_id key_id signing_secret : string)
  : result string :=
  jwt_encode E developer_id key_id signing_secret.

Definition missing_credentials : exn :=
  HTTPException 500
    "Missing required DoorDash credentials. Please check your .env file.".

Definition get_jwt_token (E : outside) : result string :=
  match getenv E "DOORDASH_DEVELOPER_ID" with
  | Some (String c1 s1) =>
      match getenv E "DOORDASH_KEY_ID" with
      | Some (String c2 s2) =>
          match getenv E "DOORDASH_SIGNING_SECRET" with
          | Some (String c3 s3) =>
              create_jwt E (String c1 s1) (String c2 s2) (String c3 s3)
          | _ => Raise missing_credentials
          end
      | _ => Raise missing_credentials
      end
  | _ => Raise missing_credentials
  end.

(** [if request.f: request_body[k] = request.f] for an optional string. *)
Definition add_if_text (k : string) (v : option string) (body : dict) : dict :=
  match v with
  | Some (String c s) => set k (JStr (String c s)) body
  | _ => body
  end.

(** [if request.order_value: request_body["order_value"] = ...] *)
Definition add_if_nonzero (k : string) (v : option Z) (body : dict) : dict :=
  match v with
  | Some n => if Z.eqb n 0 then body else set k (JInt n) body
  | None => body
  end.

Definition request_body (request : DoorDashCreateDeliveryRequest) : dict :=
  let body :=
    [("external_delivery_id", JStr (external_delivery_id request));
     ("pickup_address", JStr (pickup_address request));
     ("pickup_business_name", JStr (pickup_business_name request));
     ("pickup_phone_number", JStr (pickup_phone_number request));
     ("dropoff_address", JStr (dropoff_address request));
     ("dropoff_phone_number", JStr (dropoff_phone_number request))] in
  let body := add_if_text "pickup_instructions" (pickup_instructions request) body in
  let body := add_if_text "pickup_reference_tag" (pickup_reference_tag request) body in
  let body := add_if_text "dropoff_business_name" (dropoff_business_name request) body in
  let body := add_if_text "dropoff_instructions" (dropoff_instructions request) body in
  let body := add_if_text "dropoff_contact_given_name"
                (dropoff_contact_given_name request) body in
  let body := add_if_text "dropoff_contact_family_name"
                (dropoff_contact_family_name request) body in
  add_if_nonzero "order_value" (order_value request) body.

(** The three [except] clauses that close both service functions; [doing]
    is [creating] or [tracking]. *)
Definition service_handler (E : outside) (doing : string) (e : exn) : result json :=
  match e with
  | HTTPException _ _ => Raise e
  | _ =>
      if is_RequestException E e
      then Raise (HTTPException 500
                    ("Error communicating with DoorDash API: " ++ exn_text e))
      else Raise (HTTPException 500
                    ("Unexpected error " ++ doing ++ " delivery: " ++ exn_text e))
  end.

Definition create_delivery (E : outside) (request : DoorDashCreateDeliveryRequest)
  : result json :=
  try_except
    (token <- get_jwt_token E ;;
     let url := DOORDASH_API_BASE_URL ++ "/deliveries" in
     response <- requests_post E url (request_body request) ("Bearer " ++ token) ;;
     if Z.eqb (status_code response) 201 || Z.eqb (status_code response) 200
     then
       data <- json_of response ;;
       DoorDashDeliveryResponse E data
     else
       Raise (HTTPException (status_code response)
                ("DoorDash API error: " ++ text response)))%py
    (service_handler E "creating").

Definition track_delivery (E : outside) (external_delivery_id : string)
  : result json :=
  try_except
    (token <- get_jwt_token E ;;
     let url := DOORDASH_API_BASE_URL ++ "/deliveries/" ++ external_delivery_id in
     response <- requests_get E url ("Bearer " ++ token) ;;
     if Z.eqb (status_code response) 200
     then
       response_data <- json_of response ;;
       DoorDashDeliveryResponse E response_data
     else if Z.eqb (status_code response) 404
     then
       Raise (HTTPException 404
                ("Delivery with external_delivery_id '" ++ external_delivery_id
                 ++ "' not found"))
     else
       Raise (HTTPException (status_code response)
                ("DoorDash API error: " ++ text response)))%py
    (service_handler E "tracking").

End doordash_service.

(* ================================================================== *)
(** * routers/restaurants.py and routers/doordash.py *)
(* ================================================================== *)

Module routers.
Import Py Json database.

(** The two [except] clauses every endpoint ends with: an [HTTPException]
    goes on as it is, anything else becomes a 500 whose detail starts with
    [what]. *)
Definition endpoint_handler {A} (what : string) (e : exn) : result A :=
  match e with
  | HTTPException _ _ => Raise e
  | _ => Raise (HTTPException 500 (what ++ exn_text e))
  end.

(** The cart endpoints build their response model again from the dict of
    the model the service built, which gives the same fields. *)
Definition build_cart (d : db) (request : restaurant_service.CartRequest)
  : result restaurant_service.CartResponse :=
  try_except (restaurant_service.build_cart d request)
             (endpoint_handler "Error building cart: ").

Definition compute_cost_estimate (d : db) (request : restaurant_service.CartRequest)
  : result restaurant_service.CostEstimateResponse :=
  try_except (restaurant_service.compute_cost_estimate d request)
             (endpoint_handler "Error computing cost estimate: ").

Definition create_receipt (env : restaurant_service.receipt_env) (d : db)
    (request : restaurant_service.CreateReceiptRequest)
  : result restaurant_service.ReceiptResponse * db :=
  let '(outcome, d') := restaurant_service.create_receipt env d request in
  (try_except outcome (endpoint_handler "Error creating receipt: "), d').

(** The delivery endpoints validate the dict of the service once more. *)
Definition doordash_create_delivery (E : doordash_service.outside)
    (request : doordash_service.DoorDashCreateDeliveryRequest) : result json :=
  try_except
    (result <- doordash_service.create_delivery E request ;;
     doordash_service.DoorDashDeliveryResponse E result)%py
    (endpoint_handler "Unexpected error creating delivery: ").

Definition doordash_track_delivery_status (E : doordash_service.outside)
    (external_delivery_id : string) : result json :=
  try_except
    (result <- doordash_service.track_delivery E external_delivery_id ;;
     doordash_service.DoorDashDeliveryResponse E result)%py
    (endpoint_handler "Unexpected error tracking delivery: ").

End routers.

(* ================================================================== *)
(** * Reference definitions, written from the specification's words *)
(* ================================================================== *)

Module Spec.
Import Py Json database restaurant_service agent.

(** ** Catalog and orders *)

(** The item with identifier [id] is in the catalog. *)
Definition in_catalog (d : db) (id : string) : bool :=
  match ObjectId id with
  | Some oid => existsb (fun it => String.eqb (i_id it) oid) (database.items d)
  | None => false
  end.

(** What the store guarantees of the item collection: identifiers are
    valid ObjectIds, each printed in its canonical form, and no two documents
    share one. *)
Definition wf_catalog (d : db) : Prop :=
  NoDup (map i_id (database.items d))
  /\ Forall (fun it => ObjectId (i_id it) = Some (i_id it)) (database.items d).

(** The price of an item of the catalog, by identifier. *)
Definition catalog_price (d : db) (id : string) : float :=
  match find (fun it => String.eqb (i_id it) id) (database.items d) with
  | Some it => parse_price (i_price it)
  | None => 0%float
  end.

(** One step of the subtotal: price times quantity is added. *)
Definition add_line (d : db) (acc : float) (ci : CartItem) : float :=
  (acc + catalog_price d (item_id ci) * float_of_Z (quantity ci))%float.

(** "Subtotal": the sum of price times quantity over the lines, in order. *)
Definition order_subtotal (d : db) (lines : list CartItem) : float :=
  fold_left (add_line d) lines 0%float.

(** The largest quantity [float] accepts. *)
Definition quantity_ok (q : Z) : Prop := 1 <= q < 2 ^ 1024 - 2 ^ 970.

(** A line of a request that the catalog can price: its item is stored and
    its quantity is at least 1. *)
Definition line_ok (d : db) (ci : CartItem) : Prop :=
  (exists it, In it (database.items d) /\ i_id it = item_id ci)
  /\ quantity_ok (quantity ci).

(** The error of the length check of the three operations. *)
Definition not_found_or_invalid : exn :=
  HTTPException 400 "One or more items not found or invalid".

(** The cart request with the restaurant and lines of a receipt request. *)
Definition as_cart_request (req : CreateReceiptRequest) : CartRequest :=
  {| restaurant_id := cr_restaurant_id req; items := cr_items req |}.

(** ** Receipt identifiers *)

(** A date as [strftime("%Y%m%d")] prints it: eight digits. *)
Definition is_Ymd (s : string) : Prop :=
  String.length s = 8%nat /\ forallb is_digit (list_ascii_of_string s) = true.

(** "RCP-<YYYYMMDD>-<N zero-padded to 3>" *)
Definition receipt_code (date : string) (n : nat) : string :=
  "RCP-" ++ date ++ "-" ++ zfill 3 (str_nat n).

(** A sequence of receipt creations, one after the other: the store it
    leaves, and the log of the successful ones, each with the date it was
    created on and the identifier it got. *)
Fixpoint create_receipts (d : db)
    (calls : list (receipt_env * CreateReceiptRequest))
    (log : list (string * string)) : list (string * string) * db :=
  match calls with
  | [] => (log, d)
  | (env, req) :: rest =>
      match create_receipt env d req with
      | (Return resp, d') =>
          create_receipts d' rest
            (log ++ [(env_date_str env, rc_receipt_id (resp_receipt resp))])
      | (Raise _, d') => create_receipts d' rest log
      end
  end.

(** The rank, within its day, of the [k]-th entry of a log. *)
Definition rank_in_day (dates : list string) (k : nat) (date : string) : nat :=
  S (count_occ string_dec (firstn k dates) date).

(** The number a string of digits spells, leading zeros allowed. *)
Definition decode (s : string) : option nat :=
  option_map Nat.of_uint (NilEmpty.uint_of_string s).

(** Every entry of a log carries the identifier of its day and rank. *)
Definition log_ok (log : list (string * string)) : Prop :=
  forall k date id,
    nth_error log k = Some (date, id) ->
    is_Ymd date /\ id = receipt_code date (rank_in_day (map fst log) k date).

(** The store holds the identifiers of the log, in order. *)
Definition store_matches (d : db) (log : list (string * string)) : Prop :=
  map rc_receipt_id (receipts d) = map snd log /\ log_ok log.

(** ** Restaurant names *)

(** "A stored name matches the query case-insensitively": exactly, or as a
    part of the name. *)
Definition name_is (query : string) (r : restaurant_doc) : Prop :=
  exists n, r_name r = Some n /\ lower n = lower query.

Definition name_has (query : string) (r : restaurant_doc) : Prop :=
  exists n, r_name r = Some n
            /\ exists pre post, lower n = pre ++ lower query ++ post.

(** [r] is the first restaurant of the store, in store order, with [P]. *)
Definition first_with (P : restaurant_doc -> Prop) (d : db) (r : restaurant_doc)
  : Prop :=
  exists before after,
    restaurants d = (before ++ r :: after)%list
    /\ P r
    /\ forall r', In r' before -> ~ P r'.

(** ** Conversation history *)

(** The system messages and the other messages of a history, in order. *)
Definition system_of (l : list message) : list message := filter is_system l.

Definition non_system_of (l : list message) : list message :=
  filter (fun msg => negb (is_system msg)) l.

(** The most recent [n] elements of a list (all of them when it has no more). *)
Definition most_recent {A} (n : nat) (l : list A) : list A :=
  skipn (List.length l - n) l.

(** Trimming that leaves every surviving message where it stands, as the
    specification words it: a system message stays, another message stays
    when at most [n] of the other messages are as recent or more recent. *)
Fixpoint keep_recent (n : nat) (l : list message) : list message :=
  match l with
  | [] => []
  | msg :: rest =>
      if is_system msg then msg :: keep_recent n rest
      else if (List.length (non_system_of (msg :: rest)) <=? n)%nat
           then msg :: keep_recent n rest
           else keep_recent n rest
  end.

(** ** Tool calls *)

(** The names of the declared tools. *)
Definition tool_names : list string :=
  ["list_restaurants"; "get_restaurant_menu"; "get_menu_item"; "build_cart";
   "compute_cost_estimate"; "create_receipt"; "create_delivery";
   "track_delivery"].

(** The three tools that resolve item names. *)
Definition cart_tools : list string :=
  ["build_cart"; "compute_cost_estimate"; "create_receipt"].

(** The argument [k] of a call, [None] when it is missing. *)
Definition arg (k : string) (arguments : dict) : json :=
  match lookup k arguments with
  | Some v => v
  | None => JNull
  end.

(** "A required argument is missing": absent, or empty. *)
Definition missing (k : string) (arguments : dict) : Prop :=
  truthy (arg k arguments) = false.

(** The result has the key [k]. *)
Definition has_key (k : string) (r : json) : Prop := is_dict_with k r = true.

(** ** The response of a chat *)




(** The message of an assistant reply, as the loop appends it. *)
Definition message_of_reply (reply : assistant_message) : message :=
  {| role := "assistant"; content := am_content reply;
     tool_calls := am_tool_calls reply; tool_call_id := None |}.


(** ** Numbers in text *)












(** Two floats are the same number: equal, or both zero (0.0 and -0.0). *)
Definition same_number (x y : float) : Prop :=
  x = y \/ (PrimFloat.eqb x 0 = true /\ PrimFloat.eqb y 0 = true).

End Spec.

(* ================================================================== *)
(** * Example data *)
(* ================================================================== *)

Module Examples.
Import Py Json database restaurant_service.

Definition id_restaurant : string := "64b000000000000000000001".
Definition id_item_a : string := "64b0000000000000000000aa".
Definition id_item_b : string := "64b0000000000000000000bb".
Definition id_unknown : string := "64b0000000000000000000ff".

(** A restaurant whose fee is the text of the specification's example, with
    two items priced 12.99 and 5.00. *)
Definition flyer : restaurant_doc :=
  {| r_id := id_restaurant; r_store_id := Some "1001";
     r_name := Some "Flyer Diner"; r_description := Some "$$ - American";
     r_delivery_fee := PStr "$2.99 flyer";
     r_items := [id_item_a; id_item_b] |}.

Definition item_a : item_doc :=
  {| i_id := id_item_a; i_store_id := Some "1001"; i_name := Some "Burger";
     i_description := None; i_price := PFloat 12.99 |}.

Definition item_b : item_doc :=
  {| i_id := id_item_b; i_store_id := Some "1001"; i_name := Some "Fries";
     i_description := None; i_price := PStr "$5.00" |}.

Definition flyer_db : db :=
  {| restaurants := [flyer]; database.items := [item_a; item_b]; receipts := [] |}.

(** The same restaurant with the free-delivery text of the specification. *)
Definition free_db : db :=
  {| restaurants :=
       [ {| r_id := id_restaurant; r_store_id := Some "1001";
            r_name := Some "Flyer Diner"; r_description := None;
            r_delivery_fee := PStr "$0 delivery fee, first order";
            r_items := [id_item_a; id_item_b] |} ];
     database.items := [item_a; item_b];
     receipts := [] |}.

(** A store with three restaurants whose names overlap. *)
Definition named (id name : string) : restaurant_doc :=
  {| r_id := id; r_store_id := None; r_name := Some name;
     r_description := None; r_delivery_fee := PNone; r_items := [] |}.

Definition sushi_db : db :=
  {| restaurants := [ named "64b000000000000000000011" "Sushi Palace";
                      named "64b000000000000000000012" "SUSHI";
                      named "64b000000000000000000013" "Best Sushi Bar" ];
     database.items := [];
     receipts := [] |}.

(** A restaurant that delivers for free and sells one item for a dollar. *)
Definition tea_db : db :=
  {| restaurants := restaurants free_db;
     database.items :=
       [ {| i_id := id_item_a; i_store_id := Some "1001"; i_name := Some "Tea";
            i_description := None; i_price := PStr "$1.00" |} ];
     receipts := [] |}.

Definition one_tea : CartRequest :=
  {| restaurant_id := id_restaurant;
     items := [ {| item_id := id_item_a; quantity := 1 |} ] |}.

Definition two_lines : list CartItem :=
  [ {| item_id := id_item_a; quantity := 2 |};
    {| item_id := id_item_b; quantity := 1 |} ].

Definition cart_request : CartRequest :=
  {| restaurant_id := id_restaurant; items := two_lines |}.

Definition receipt_request (lines : list CartItem) : CreateReceiptRequest :=
  {| cr_restaurant_id := id_restaurant; cr_items := lines;
     cr_delivery_id := None; cr_customer_name := Some "Ada";
     cr_customer_email := None; cr_customer_phone := None;
     cr_delivery_address := None |}.

Definition env_of (date_str : string) : receipt_env :=
  {| env_date_str := date_str;
     env_created_at := "2026-11-04T12:00:00Z";
     env_inserted_id := "64b0000000000000000000c1" |}.

(** A request with one item the catalog does not have. *)
Definition lines_with_unknown : list CartItem :=
  [ {| item_id := id_item_a; quantity := 1 |};
    {| item_id := id_unknown; quantity := 1 |} ].

(** A service layer that is down: every operation raises. *)
Definition unavailable : exn := HTTPException 503 "catalog unavailable".

Definition failing_services : agent.services :=
  {| agent.rs_list_restaurants := fun _ _ => Raise unavailable;
     agent.rs_get_restaurant_menu_by_name := fun _ => Raise unavailable;
     agent.rs_get_menu_item := fun _ => Raise unavailable;
     agent.rs_build_cart := fun _ _ => Raise unavailable;
     agent.rs_compute_cost_estimate := fun _ _ => Raise unavailable;
     agent.rs_create_receipt := fun _ => Raise unavailable;
     agent.DoorDashCreateDeliveryRequest :=
       fun _ => Raise (ValueError "6 validation errors for DoorDashCreateDeliveryRequest");
     agent.dd_create_delivery := fun _ => Raise unavailable;
     agent.dd_track_delivery := fun _ => Raise unavailable;
     agent.repr := fun _ => "?" |}.

(** The arguments of a cart tool for one burger at the example restaurant. *)
Definition one_burger : json :=
  JDict [("restaurant_name", JStr "flyer diner");
         ("items", JList [JDict [("item_name", JStr "burger");
                                 ("quantity", JInt 1)]])].

(** A model that asks for the same tool call on every turn, and one that
    answers with text at once. *)
Definition track_again : agent.tool_call :=
  {| agent.tc_id := "call_1"; agent.tc_type := "function";
     agent.tc_name := "track_delivery"; agent.tc_arguments := "{}" |}.

Definition runtime_with
    (model : list agent.message -> result agent.assistant_message)
  : agent.runtime :=
  {| agent.OPEN_AI_API_KEY := Some "sk-test";
     agent.chat_completions_create := model;
     agent.json_loads := fun _ => None;
     agent.json_dumps := fun _ => "{}";
     agent.uuid4_hex12 := "0123456789ab";
     agent.format_exc := fun _ => "Traceback" |}.

Definition insistent_runtime : agent.runtime :=
  runtime_with (fun _ => Return {| agent.am_content := None;
                                   agent.am_tool_calls := [track_again] |}).

Definition talkative_runtime : agent.runtime :=
  runtime_with (fun _ => Return {| agent.am_content := Some "Here is the menu.";
                                   agent.am_tool_calls := [] |}).

Definition hello : agent.AgentRequest :=
  {| agent.prompt := "hello"; agent.thread_id := None |}.

Definition user_says (text : string) : agent.message :=
  {| agent.role := "user"; agent.content := Some text;
     agent.tool_calls := []; agent.tool_call_id := None |}.

Definition system_says (text : string) : agent.message :=
  {| agent.role := "system"; agent.content := Some text;
     agent.tool_calls := []; agent.tool_call_id := None |}.

(** Twenty user messages followed by a system message. *)
Definition late_system : list agent.message :=
  (repeat (user_says "more") 20 ++ [system_says "be brief"])%list.

(** A system message, then 25 user messages numbered by their text. *)
Definition long_thread : list agent.message :=
  system_says "be brief"
  :: map (fun k => user_says (str_nat k)) (seq 1 25).

(** Three creations on one day, the second of them for an unknown item, and
    one on the next day. *)
Definition four_calls : list (receipt_env * CreateReceiptRequest) :=
  [ (env_of "20261104", receipt_request two_lines);
    (env_of "20261104", receipt_request lines_with_unknown);
    (env_of "20261104", receipt_request two_lines);
    (env_of "20261105", receipt_request two_lines) ].

End Examples.

(* ================================================================== *)
(** * Notions used to state how the parts work together *)
(* ================================================================== *)

Module Behaviour.
Import Py Json database restaurant_service agent Spec.

(** ** The store *)

(** Restaurant identifiers are valid ObjectIds, printed in canonical form. *)
Definition wf_restaurants (d : db) : Prop :=
  Forall (fun r => ObjectId (r_id r) = Some (r_id r)) (restaurants d).


(** The lines of an order, from the identifiers and the quantities. *)
Definition order_lines (ids : list string) (quantities : list Z)
  : list CartItem :=
  map (fun p => {| item_id := fst p; quantity := snd p |}) (combine ids quantities).

(** ** The lines of a cart *)

(** A priced line for a line of the request: the same item and quantity,
    name and price of a stored item with that identifier, and the price
    times the quantity as its subtotal. *)
Definition line_for (d : db) (ci : CartItem) (line : item_detail) : Prop :=
  d_item_id line = item_id ci
  /\ d_quantity line = quantity ci
  /\ d_subtotal line = (d_price line * float_of_Z (quantity ci))%float
  /\ exists it,
       In it (database.items d) /\ i_id it = item_id ci
       /\ d_name line = i_name it
       /\ d_description line = i_description it
       /\ d_price line = restaurant_service.parse_price (i_price it).

(** The subtotals of the lines, added from the first to the last. *)
Definition sum_of_lines (lines : list item_detail) : float :=
  fold_left (fun acc line => (acc + d_subtotal line)%float) lines 0%float.







(** ** The dispatcher *)

(** A service layer that refuses to list more than 100 restaurants. *)
Definition at_most_100 (S : services) : services :=
  {| rs_list_restaurants :=
       fun limit skip =>
         match limit with
         | JInt n =>
             if n <=? 100 then rs_list_restaurants S limit skip
             else Raise (OtherError "Refused" "the request is refused")
         | _ => rs_list_restaurants S limit skip
         end;
     rs_get_restaurant_menu_by_name := rs_get_restaurant_menu_by_name S;
     rs_get_menu_item := rs_get_menu_item S;
     rs_build_cart := rs_build_cart S;
     rs_compute_cost_estimate := rs_compute_cost_estimate S;
     rs_create_receipt := rs_create_receipt S;
     DoorDashCreateDeliveryRequest := DoorDashCreateDeliveryRequest S;
     dd_create_delivery := dd_create_delivery S;
     dd_track_delivery := dd_track_delivery S;
     repr := repr S |}.

(** The four fields the dispatcher keeps of a restaurant of a long list. *)
Definition reduced (r m : json) : Prop :=
  exists fields,
    r = JDict fields
    /\ m = JDict [("_id", arg "_id" fields); ("name", arg "name" fields);
                  ("description", arg "description" fields);
                  ("store_id", arg "store_id" fields)].

Definition is_dict (r : json) : Prop := exists fields, r = JDict fields.

(** A service layer with 21 restaurants and a menu of 25 items. *)
Definition cafe : json :=
  JDict [("_id", JStr "64b000000000000000000021"); ("name", JStr "Cafe");
         ("eta", JInt 30)].

Definition listing : dict :=
  [("restaurants", JList (repeat cafe 21)); ("total", JInt 21);
   ("limit", JInt 100); ("skip", JInt 0)].

Definition long_menu : dict :=
  [("restaurant_id", JStr "64b000000000000000000021");
   ("restaurant_name", JStr "Cafe");
   ("items", JList (repeat (JDict [("name", JStr "Tea")]) 25));
   ("total_items", JInt 25)].

Definition listing_services : services :=
  {| rs_list_restaurants := fun _ _ => Return (JDict listing);
     rs_get_restaurant_menu_by_name := fun _ => Return (JDict long_menu);
     rs_get_menu_item := rs_get_menu_item Examples.failing_services;
     rs_build_cart := rs_build_cart Examples.failing_services;
     rs_compute_cost_estimate := rs_compute_cost_estimate Examples.failing_services;
     rs_create_receipt := rs_create_receipt Examples.failing_services;
     DoorDashCreateDeliveryRequest :=
       DoorDashCreateDeliveryRequest Examples.failing_services;
     dd_create_delivery := dd_create_delivery Examples.failing_services;
     dd_track_delivery := dd_track_delivery Examples.failing_services;
     repr := repr Examples.failing_services |}.

(** ** One run of the chat *)

(** The thread a request speaks in. *)
Definition thread_of (R : runtime) (request : AgentRequest) : string :=
  match thread_id request with
  | Some (String c t) => String c t
  | _ => generate_thread_id R
  end.

(** The history of a thread, empty when the thread is not there. *)
Definition history_of (store : threads) (tid : string) : list message :=
  match thread_lookup tid store with
  | Some history => history
  | None => []
  end.

Definition user_message (text : string) : message :=
  {| role := "user"; content := Some text; tool_calls := [];
     tool_call_id := None |}.

(** The largest content of the tool message for a call. *)
Definition content_limit (tc : tool_call) : nat :=
  (if String.eqb (tc_name tc) "list_restaurants"
   then 15 * 1000 else 5 * 1000) + 38.

(** [m] is the tool message that answers the call [tc]. *)
Definition answers (tc : tool_call) (m : message) : Prop :=
  role m = "tool"
  /\ tool_call_id m = Some (tc_id tc)
  /\ tool_calls m = []
  /\ exists c, content m = Some c /\ (String.length c <= content_limit tc)%nat.

(** Messages in rounds: an assistant message, then one tool message for each
    of the tool calls it asks for, in the order of the calls. *)
Inductive rounds : list message -> Prop :=
| rounds_nil : rounds []
| rounds_cons (a : message) (tools rest : list message) :
    role a = "assistant" ->
    tool_call_id a = None ->
    Forall2 answers (tool_calls a) tools ->
    rounds rest ->
    rounds (a :: tools ++ rest)%list.

(** A runtime whose provider refuses every request that is not [ok]. *)
Definition refusing (ok : list message -> bool) (R : runtime) : runtime :=
  {| OPEN_AI_API_KEY := OPEN_AI_API_KEY R;
     chat_completions_create :=
       fun ms => if ok ms then chat_completions_create R ms
                 else Raise (OtherError "Refused" "the request is refused");
     json_loads := json_loads R;
     json_dumps := json_dumps R;
     uuid4_hex12 := uuid4_hex12 R;
     format_exc := format_exc R |}.

Definition no_system_message (ms : list message) : bool :=
  forallb (fun m => negb (is_system m)) ms.

(** The request opens with the system prompt and has no other system
    message. *)
Definition opens_with_system_prompt (ms : list message) : bool :=
  match ms with
  | m :: rest =>
      is_system m
      && match content m with
         | Some c => String.eqb c system_prompt
         | None => false
         end
      && no_system_message rest
  | [] => false
  end.


(** A store with one thread that has one exchange in it. *)
Definition one_thread : threads :=
  [("thread_a", [user_message "hello";
                 {| role := "assistant"; content := Some "Hi, what would you like?";
                    tool_calls := []; tool_call_id := None |}])].

Definition more_please : AgentRequest :=
  {| prompt := "the menu, please"; thread_id := Some "thread_a" |}.

(** ** Deliveries *)

(** A computation that ends with a value or with an [HTTPException]. *)
Definition fails_with_http {A} (m : result A) : Prop :=
  match m with
  | Return _ => True
  | Raise e => exists status detail, e = HTTPException status detail
  end.

(** A variable of the environment is not set, or is empty. *)
Definition unset (E : doordash_service.outside) (name : string) : Prop :=
  doordash_service.getenv E name = None
  \/ doordash_service.getenv E name = Some "".

(** What an optional field of a delivery request puts into the body. *)
Definition text_in_body (v : option string) : option json :=
  match v with
  | Some (String c s) => Some (JStr (String c s))
  | _ => None
  end.

Definition number_in_body (v : option Z) : option json :=
  match v with
  | Some n => if Z.eqb n 0 then None else Some (JInt n)
  | None => None
  end.

(** A provider that answers 422 to every creation and 404 to every
    tracking request, and a delivery request. *)
Definition strict_provider : doordash_service.outside :=
  {| doordash_service.getenv := fun _ => Some "secret";
     doordash_service.jwt_encode := fun _ _ _ => Return "token";
     doordash_service.requests_post :=
       fun _ _ _ =>
         Return {| doordash_service.status_code := 422;
                   doordash_service.text := "duplicate delivery id";
                   doordash_service.json_of := Return (JDict []) |};
     doordash_service.requests_get :=
       fun _ _ =>
         Return {| doordash_service.status_code := 404;
                   doordash_service.text := "unknown delivery";
                   doordash_service.json_of := Return (JDict []) |};
     doordash_service.is_RequestException := fun _ => false;
     doordash_service.DoorDashDeliveryResponse := fun data => Return data |}.

(** The same provider without the signing secret. *)
Definition no_secret : doordash_service.outside :=
  {| doordash_service.getenv :=
       fun name => if String.eqb name "DOORDASH_SIGNING_SECRET" then None
                   else Some "id";
     doordash_service.jwt_encode := doordash_service.jwt_encode strict_provider;
     doordash_service.requests_post :=
       doordash_service.requests_post strict_provider;
     doordash_service.requests_get :=
       doordash_service.requests_get strict_provider;
     doordash_service.is_RequestException := fun _ => false;
     doordash_service.DoorDashDeliveryResponse := fun data => Return data |}.

Definition parcel : doordash_service.DoorDashCreateDeliveryRequest :=
  {| doordash_service.external_delivery_id := "D-12345";
     doordash_service.pickup_address := "901 Market Street";
     doordash_service.pickup_business_name := "Flyer Diner";
     doordash_service.pickup_phone_number := "+16505555555";
     doordash_service.pickup_instructions := Some "";
     doordash_service.pickup_reference_tag := Some "Order number 61";
     doordash_service.dropoff_address := "1 Main Street";
     doordash_service.dropoff_business_name := None;
     doordash_service.dropoff_phone_number := "+16505555556";
     doordash_service.dropoff_instructions := None;
     doordash_service.dropoff_contact_given_name := None;
     doordash_service.dropoff_contact_family_name := None;
     doordash_service.order_value := Some 0 |}.

(** ** The run of a chat *)






End Behaviour.

(* ================================================================== *)
(** * Properties of the parsers *)
(* ================================================================== *)

Module ParserProofs.
Import Py Spec.















Lemma prefixb_app (p s : string) :
  prefixb p s = true -> exists post, s = p ++ post.
Proof.
  revert s. induction p as [|a p IH]; intros s H.
  - now exists s.
  - destruct s as [|b s]; [discriminate|]. cbn in H.
    apply andb_true_iff in H. destruct H as [Hab Hp].
    apply Ascii.eqb_eq in Hab. subst b.
    destruct (IH s Hp) as [post ->]. now exists post.
Qed.

Lemma string_app_assoc (a b c : string) : (a ++ b) ++ c = a ++ (b ++ c).
Proof.
  induction a as [|x a IH]; [reflexivity|]. cbn. now rewrite IH.
Qed.














End ParserProofs.

(* ================================================================== *)
(** * Properties of the cart, estimate and receipt operations *)
(* ================================================================== *)

Module ServiceProofs.
Import Py database restaurant_service Spec.

(** ** The catalog query *)

Lemma ObjectIds_length (ids oids : list string) :
  ObjectIds ids = Some oids -> List.length oids = List.length ids.
Proof.
  revert oids. induction ids as [|i ids IH]; intros oids H; cbn in H.
  - now injection H as <-.
  - destruct (ObjectId i); [|discriminate].
    destruct (ObjectIds ids) as [os|]; [|discriminate].
    injection H as <-. cbn. now rewrite (IH os eq_refl).
Qed.

Lemma ObjectIds_in (ids oids : list string) (id : string) :
  ObjectIds ids = Some oids -> In id ids ->
  exists oid, ObjectId id = Some oid /\ In oid oids.
Proof.
  revert oids. induction ids as [|i ids IH]; intros oids H Hin; [contradiction|].
  cbn in H. destruct (ObjectId i) as [o|] eqn:Eo; [|discriminate].
  destruct (ObjectIds ids) as [os|]; [|discriminate].
  injection H as <-. destruct Hin as [-> | Hin].
  - exists o. split; [exact Eo | now left].
  - destruct (IH os eq_refl Hin) as (oid & H1 & H2).
    exists oid. split; [exact H1 | now right].
Qed.

Lemma ObjectIds_canonical (ids : list string) :
  Forall (fun id => ObjectId id = Some id) ids -> ObjectIds ids = Some ids.
Proof.
  induction 1 as [|i ids Hi _ IH]; [reflexivity|].
  cbn. now rewrite Hi, IH.
Qed.

(** Selecting documents keeps their identifiers distinct. *)
Lemma distinct_ids_filter (keep : item_doc -> bool) (docs : list item_doc) :
  NoDup (map i_id docs) -> NoDup (map i_id (filter keep docs)).
Proof.
  induction docs as [|it docs IH]; cbn; intros H; [constructor|].
  inversion H as [|? ? Hn Hd]; subst.
  destruct (keep it); cbn; [|now apply IH].
  constructor; [|now apply IH].
  intros Hin. apply Hn. apply in_map_iff in Hin.
  destruct Hin as (x & Hx & Hin). apply filter_In in Hin.
  apply in_map_iff. exists x. now split.
Qed.

(** Two stored documents with the same identifier are one document. *)
Lemma same_id_same_doc (docs : list item_doc) (a b : item_doc) :
  NoDup (map i_id docs) -> In a docs -> In b docs -> i_id a = i_id b -> a = b.
Proof.
  induction docs as [|x docs IH]; cbn; intros H Ha Hb E; [contradiction|].
  inversion H as [|? ? Hn Hd]; subst.
  destruct Ha as [-> | Ha], Hb as [-> | Hb].
  - reflexivity.
  - exfalso. apply Hn. rewrite E. now apply in_map.
  - exfalso. apply Hn. rewrite <- E. now apply in_map.
  - now apply IH.
Qed.

Lemma existsb_eqb_In (x : string) (l : list string) :
  existsb (String.eqb x) l = true <-> In x l.
Proof.
  rewrite existsb_exists. split.
  - intros (y & Hy & E). apply String.eqb_eq in E. now subst.
  - intros H. exists x. split; [exact H | apply String.eqb_refl].
Qed.

(** An identifier that is not in the catalog leaves the query short. *)
Lemma missing_item_short (d : db) (ids : list string) (missing : string) :
  NoDup (map i_id (database.items d)) ->
  In missing ids ->
  in_catalog d missing = false ->
  (List.length (get_items_by_ids d ids) < List.length ids)%nat.
Proof.
  intros Hnd Hin Habs. unfold get_items_by_ids.
  destruct (ObjectIds ids) as [oids|] eqn:Eo.
  - destruct (ObjectIds_in _ _ _ Eo Hin) as (oid & Hoid & Hoin).
    rewrite <- (ObjectIds_length _ _ Eo).
    unfold in_catalog in Habs. rewrite Hoid in Habs.
    set (found := filter (fun it => existsb (String.eqb (i_id it)) oids)
                         (database.items d)).
    rewrite <- (length_map i_id found).
    apply Nat.le_lt_trans with (List.length (remove string_dec oid oids)).
    + apply NoDup_incl_length; [now apply distinct_ids_filter|].
      intros x Hx. apply in_map_iff in Hx. destruct Hx as (it & <- & Hit).
      apply filter_In in Hit. destruct Hit as [Hit Hex].
      apply existsb_eqb_In in Hex.
      apply in_in_remove; [|exact Hex].
      intros E. assert (Hc : existsb (fun it0 => String.eqb (i_id it0) oid)
                                     (database.items d) = true).
      { apply existsb_exists. exists it. split; [exact Hit|].
        rewrite E. apply String.eqb_refl. }
      congruence.
    + now apply remove_length_lt.
  - destruct ids; [contradiction | cbn; lia].
Qed.

(** ** An item that the catalog does not have *)

Lemma length_check_fails (d : db) (ids : list string) (missing : string) :
  NoDup (map i_id (database.items d)) ->
  In missing ids ->
  in_catalog d missing = false ->
  negb (Nat.eqb (List.length (get_items_by_ids d ids)) (List.length ids)) = true.
Proof.
  intros Hnd Hin Habs.
  pose proof (missing_item_short d ids missing Hnd Hin Habs) as Hlt.
  apply negb_true_iff, Nat.eqb_neq. lia.
Qed.

(** C7, as stated, fails: the error of a request with an unknown item does
    not name the item. *)
Lemma missing_item_is_not_named :
  in_catalog Examples.flyer_db Examples.id_unknown = false
  /\ exists detail,
       build_cart Examples.flyer_db
         {| restaurant_id := Examples.id_restaurant;
            items := Examples.lines_with_unknown |}
       = Raise (HTTPException 400 detail)
       /\ contains Examples.id_unknown detail = false.
Proof.
  split; [reflexivity|].
  exists "One or more items not found or invalid". split; reflexivity.
Qed.

(** C7 (amended): when the restaurant exists and the item-id list contains an
    identifier that is not in the catalog, cart, estimate and receipt all
    fail with status 400 and the detail "One or more items not found or
    invalid", which names no item; no pricing is returned, and the receipt
    operation leaves the store as it was. *)
Theorem missing_item_is_rejected (env : receipt_env) (d : db)
    (req : CreateReceiptRequest) (restaurant : restaurant_doc) (missing : string) :
  NoDup (map i_id (database.items d)) ->
  get_restaurant_by_id d (cr_restaurant_id req) = Some restaurant ->
  In missing (map item_id (cr_items req)) ->
  in_catalog d missing = false ->
  build_cart d (as_cart_request req) = Raise not_found_or_invalid
  /\ compute_cost_estimate d (as_cart_request req) = Raise not_found_or_invalid
  /\ create_receipt env d req = (Raise not_found_or_invalid, d).
Proof.
  intros Hnd Hr Hin Habs.
  pose proof (length_check_fails d _ missing Hnd Hin Habs) as Hlen.
  unfold build_cart, compute_cost_estimate, create_receipt, as_cart_request.
  cbn [restaurant_id items]. rewrite Hr, Hlen. repeat split.
Qed.

Lemma missing_item_is_rejected_witness :
  build_cart Examples.flyer_db
    (as_cart_request (Examples.receipt_request Examples.lines_with_unknown))
  = Raise not_found_or_invalid
  /\ compute_cost_estimate Examples.flyer_db
       (as_cart_request (Examples.receipt_request Examples.lines_with_unknown))
     = Raise not_found_or_invalid
  /\ create_receipt (Examples.env_of "20261104") Examples.flyer_db
       (Examples.receipt_request Examples.lines_with_unknown)
     = (Raise not_found_or_invalid, Examples.flyer_db).
Proof.
  apply (missing_item_is_rejected (Examples.env_of "20261104") Examples.flyer_db
           (Examples.receipt_request Examples.lines_with_unknown)
           Examples.flyer Examples.id_unknown).
  - repeat constructor; simpl; intuition discriminate.
  - reflexivity.
  - simpl. right. left. reflexivity.
  - reflexivity.
Defined.

(** An item that is named twice is rejected by the length check, although
    the catalog has it. *)
Example repeated_item_is_rejected :
  build_cart Examples.flyer_db
    {| restaurant_id := Examples.id_restaurant;
       items := [ {| item_id := Examples.id_item_a; quantity := 1 |};
                  {| item_id := Examples.id_item_a; quantity := 2 |} ] |}
  = Raise not_found_or_invalid.
Proof. reflexivity. Qed.

(** The error that names an item is reached by an identifier that is spelled
    in upper case: the store finds the item, the look-up by the spelling of
    the request does not. *)
Example upper_case_item_is_named :
  build_cart Examples.flyer_db
    {| restaurant_id := Examples.id_restaurant;
       items := [ {| item_id := "64B0000000000000000000AA"; quantity := 1 |} ] |}
  = Raise (HTTPException 400 "Item 64B0000000000000000000AA not found").
Proof. reflexivity. Qed.

(** ** Cart and estimate run the same sum *)

Lemma sum_items_price_items (data : list item_doc) (lines : list CartItem)
    (acc : list item_detail) (subtotal : float) :
  sum_items data lines subtotal
  = (priced <- price_items data lines acc subtotal ;; Return (snd priced))%py.
Proof.
  revert acc subtotal. induction lines as [|ci lines IH]; intros acc subtotal.
  - reflexivity.
  - cbn [sum_items price_items].
    destruct (items_map_get data (item_id ci)) as [it|]; [|reflexivity].
    destruct (float_of_int (quantity ci)) as [q|e]; [|reflexivity].
    cbn [bind]. apply IH.
Qed.

(** Whatever the request, the two operations fail alike or succeed alike,
    and then agree on subtotal and fee. *)
Lemma estimate_follows_cart (d : db) (request : CartRequest) :
  match build_cart d request, compute_cost_estimate d request with
  | Return cart, Return est =>
      cart_subtotal cart = est_subtotal est
      /\ cart_delivery_fee cart = est_delivery_fee est
  | Raise e1, Raise e2 => e1 = e2
  | _, _ => False
  end.
Proof.
  unfold build_cart, compute_cost_estimate.
  destruct (get_restaurant_by_id d (restaurant_id request)) as [r|]; [|reflexivity].
  destruct (negb _); [reflexivity|].
  rewrite (sum_items_price_items _ _ []).
  destruct (price_items _ _ _ _) as [[ls sub]|e]; cbn; [split|]; reflexivity.
Qed.

(** ** When every line is in the catalog *)

Lemma items_map_get_found (data : list item_doc) (k : string) (it : item_doc) :
  In it data -> i_id it = k ->
  exists it', items_map_get data k = Some it' /\ In it' data /\ i_id it' = k.
Proof.
  intros Hin Hk. unfold items_map_get.
  destruct (find (fun x => String.eqb (i_id x) k) (rev data)) as [it'|] eqn:E.
  - apply find_some in E. destruct E as [Hin' E]. apply String.eqb_eq in E.
    exists it'. repeat split; [now apply in_rev | exact E].
  - exfalso. pose proof (find_none _ _ E it) as Hn.
    rewrite <- in_rev in Hn. specialize (Hn Hin). cbn in Hn.
    rewrite Hk, String.eqb_refl in Hn. discriminate.
Qed.

Lemma find_by_id (l : list item_doc) (it : item_doc) :
  NoDup (map i_id l) -> In it l ->
  find (fun x => String.eqb (i_id x) (i_id it)) l = Some it.
Proof.
  intros Hnd Hin.
  destruct (find (fun x => String.eqb (i_id x) (i_id it)) l) as [it'|] eqn:E.
  - apply find_some in E. destruct E as [Hin' E]. apply String.eqb_eq in E.
    f_equal. now apply (same_id_same_doc l).
  - pose proof (find_none _ _ E it Hin) as Hn. cbn in Hn.
    rewrite String.eqb_refl in Hn. discriminate.
Qed.

Lemma float_of_int_ok (q : Z) :
  quantity_ok q -> float_of_int q = Return (float_of_Z q).
Proof.
  intros [H1 H2]. unfold float_of_int.
  replace (Z.abs q <? 2 ^ 1024 - 2 ^ 970) with true; [reflexivity|].
  symmetry. apply Z.ltb_lt. lia.
Qed.

(** The query of a duplicate-free list of stored identifiers returns one
    document for each. *)
Lemma get_items_by_ids_all (d : db) (ids : list string) :
  wf_catalog d -> NoDup ids ->
  (forall id, In id ids -> exists it, In it (database.items d) /\ i_id it = id) ->
  List.length (get_items_by_ids d ids) = List.length ids
  /\ forall it, In it (database.items d) -> In (i_id it) ids ->
                In it (get_items_by_ids d ids).
Proof.
  intros [Hnd Hcan] Hids Hex. unfold get_items_by_ids.
  assert (Hc : ObjectIds ids = Some ids).
  { apply ObjectIds_canonical. apply Forall_forall. intros id Hid.
    destruct (Hex id Hid) as (it & Hit & <-).
    rewrite Forall_forall in Hcan. now apply Hcan. }
  rewrite Hc.
  set (found := filter (fun it => existsb (String.eqb (i_id it)) ids)
                       (database.items d)).
  assert (Hall : forall it, In it (database.items d) -> In (i_id it) ids ->
                            In it found).
  { intros it Hit Hi. apply filter_In. split; [exact Hit|].
    now apply existsb_eqb_In. }
  split; [|exact Hall].
  rewrite <- (length_map i_id found). apply Nat.le_antisymm.
  - apply NoDup_incl_length; [now apply distinct_ids_filter|].
    intros x Hx. apply in_map_iff in Hx. destruct Hx as (it & <- & Hit).
    apply filter_In in Hit. now apply existsb_eqb_In.
  - apply NoDup_incl_length; [exact Hids|].
    intros id Hid. destruct (Hex id Hid) as (it & Hit & <-).
    apply in_map. now apply Hall.
Qed.

Lemma price_items_ok (d : db) (data : list item_doc) (lines : list CartItem)
    (acc : list item_detail) (subtotal : float) :
  NoDup (map i_id (database.items d)) ->
  (forall it, In it data -> In it (database.items d)) ->
  (forall ci, In ci lines ->
     (exists it, In it data /\ i_id it = item_id ci)
     /\ quantity_ok (quantity ci)) ->
  exists ls,
    price_items data lines acc subtotal
    = Return (ls, fold_left (add_line d) lines subtotal).
Proof.
  intros Hnd Hsub. revert acc subtotal.
  induction lines as [|ci lines IH]; intros acc subtotal Hl.
  - now exists acc.
  - destruct (Hl ci (or_introl eq_refl)) as [(it & Hit & Hid) Hq].
    destruct (items_map_get_found data (item_id ci) it Hit Hid)
      as (it' & Hget & Hin' & Hid').
    cbn [price_items fold_left]. rewrite Hget, (float_of_int_ok _ Hq).
    cbn [bind].
    assert (Hp : catalog_price d (item_id ci) = parse_price (i_price it')).
    { unfold catalog_price. rewrite <- Hid'.
      now rewrite (find_by_id _ it' Hnd (Hsub _ Hin')). }
    unfold add_line at 2. rewrite Hp.
    apply IH. intros ci' Hci'. apply Hl. now right.
Qed.

(** C1, as stated, fails on the tax: the estimate returns the tax rounded to
    two decimals, which is neither the returned subtotal times 0.085 nor the
    unrounded subtotal times 0.085 (here 2.63 against 2.6333). *)
Lemma estimate_tax_is_rounded :
  exists cart est,
    build_cart Examples.flyer_db Examples.cart_request = Return cart
    /\ compute_cost_estimate Examples.flyer_db Examples.cart_request = Return est
    /\ est_estimated_tax est <> (est_subtotal est * tax_rate)%float
    /\ est_estimated_tax est
       <> (order_subtotal Examples.flyer_db Examples.two_lines * tax_rate)%float.
Proof.
  eexists. eexists. split; [vm_compute; reflexivity|].
  split; [vm_compute; reflexivity|].
  split; intros H; apply (f_equal Prim2SF) in H; vm_compute in H; discriminate.
Qed.

(** C1 (amended): in a store whose items have pairwise distinct canonical
    identifiers, for a restaurant that exists and lines with pairwise
    distinct item ids, each written exactly as the identifier of a stored
    item, with quantities of at least 1 that a float takes, cart and estimate
    both return, with the same subtotal and the same delivery fee; the
    subtotal is the sum of price times quantity rounded to two decimals, and
    the estimated tax is that sum times 0.085, rounded to two decimals.  An
    identifier in another spelling is not such a line: see
    [upper_case_item_is_named]. *)
Theorem estimate_agrees_with_cart (d : db) (request : CartRequest)
    (restaurant : restaurant_doc) :
  wf_catalog d ->
  get_restaurant_by_id d (restaurant_id request) = Some restaurant ->
  NoDup (map item_id (items request)) ->
  (forall ci, In ci (items request) -> line_ok d ci) ->
  exists cart est,
    build_cart d request = Return cart
    /\ compute_cost_estimate d request = Return est
    /\ cart_subtotal cart = est_subtotal est
    /\ cart_delivery_fee cart = est_delivery_fee est
    /\ est_subtotal est = round2 (order_subtotal d (items request))
    /\ est_estimated_tax est
       = round2 (order_subtotal d (items request) * tax_rate)%float.
Proof.
  intros Hwf Hr Hnd Hlines.
  assert (Hex : forall id, In id (map item_id (items request)) ->
                exists it, In it (database.items d) /\ i_id it = id).
  { intros id Hid. apply in_map_iff in Hid. destruct Hid as (ci & <- & Hci).
    exact (proj1 (Hlines ci Hci)). }
  destruct (get_items_by_ids_all d _ Hwf Hnd Hex) as [Hlen Hall].
  set (data := get_items_by_ids d (map item_id (items request))) in *.
  assert (Hsub : forall it, In it data -> In it (database.items d)).
  { intros it Hit. unfold data, get_items_by_ids in Hit.
    destruct (ObjectIds _); [|contradiction].
    now apply filter_In in Hit. }
  destruct (price_items_ok d data (items request) [] 0%float (proj1 Hwf) Hsub)
    as [ls Hls].
  { intros ci Hci. destruct (Hlines ci Hci) as [(it & Hit & Hid) Hq].
    split; [|exact Hq]. exists it. split; [|exact Hid].
    apply Hall; [exact Hit|]. rewrite Hid. now apply in_map. }
  unfold build_cart, compute_cost_estimate. fold data.
  rewrite Hr, Hlen, Nat.eqb_refl. cbn [negb].
  rewrite (sum_items_price_items _ _ []), Hls. cbn [bind snd].
  eexists. eexists. repeat split.
Qed.

Lemma estimate_agrees_with_cart_witness :
  exists cart est,
    build_cart Examples.flyer_db Examples.cart_request = Return cart
    /\ compute_cost_estimate Examples.flyer_db Examples.cart_request = Return est
    /\ cart_subtotal cart = est_subtotal est
    /\ cart_delivery_fee cart = est_delivery_fee est
    /\ est_subtotal est
       = round2 (order_subtotal Examples.flyer_db Examples.two_lines)
    /\ est_estimated_tax est
       = round2 (order_subtotal Examples.flyer_db Examples.two_lines * tax_rate)%float.
Proof.
  apply (estimate_agrees_with_cart Examples.flyer_db Examples.cart_request
           Examples.flyer).
  - split.
    + repeat constructor; simpl; intuition discriminate.
    + repeat constructor.
  - reflexivity.
  - repeat constructor; simpl; intuition discriminate.
  - intros ci [<- | [<- | []]]; (split; [|split; now vm_compute]).
    + exists Examples.item_a. split; [now left | reflexivity].
    + exists Examples.item_b. split; [right; now left | reflexivity].
Defined.

(** ** What the operations return *)

Lemma build_cart_inv (d : db) (request : CartRequest) (cart : CartResponse) :
  build_cart d request = Return cart ->
  exists restaurant raw,
    get_restaurant_by_id d (restaurant_id request) = Some restaurant
    /\ let fee := parse_delivery_fee (r_delivery_fee restaurant) in
       cart_subtotal cart = round2 raw
       /\ cart_delivery_fee cart = fee_field fee
       /\ cart_total cart = round2 (raw + fee)%float.
Proof.
  unfold build_cart.
  destruct (get_restaurant_by_id d (restaurant_id request)) as [r|];
    [|discriminate].
  destruct (negb _); [discriminate|].
  destruct (price_items _ _ _ _) as [[ls raw]|e]; [|discriminate].
  cbn [bind]. intros [= <-]. exists r, raw. repeat split.
Qed.

Lemma compute_cost_estimate_inv (d : db) (request : CartRequest)
    (est : CostEstimateResponse) :
  compute_cost_estimate d request = Return est ->
  exists restaurant raw,
    get_restaurant_by_id d (restaurant_id request) = Some restaurant
    /\ let fee := parse_delivery_fee (r_delivery_fee restaurant) in
       est_subtotal est = round2 raw
       /\ est_delivery_fee est = fee_field fee
       /\ est_estimated_tax est = round2 (raw * tax_rate)%float
       /\ est_estimated_total est = round2 (raw + fee + raw * tax_rate)%float.
Proof.
  unfold compute_cost_estimate.
  destruct (get_restaurant_by_id d (restaurant_id request)) as [r|];
    [|discriminate].
  destruct (negb _); [discriminate|].
  destruct (sum_items _ _ _) as [raw|e]; [|discriminate].
  cbn [bind]. intros [= <-]. exists r, raw. repeat split.
Qed.

Lemma create_receipt_inv (env : receipt_env) (d : db) (req : CreateReceiptRequest)
    (resp : ReceiptResponse) :
  fst (create_receipt env d req) = Return resp ->
  exists restaurant raw,
    get_restaurant_by_id d (cr_restaurant_id req) = Some restaurant
    /\ let fee := parse_delivery_fee (r_delivery_fee restaurant) in
       let doc := resp_receipt resp in
       rc_subtotal doc = round2 raw
       /\ rc_delivery_fee doc = fee_field fee
       /\ rc_tax doc = round2 (raw * tax_rate)%float
       /\ rc_total doc = round2 (raw + fee + raw * tax_rate)%float
       /\ rc_receipt_id doc = generate_receipt_id d (env_date_str env)
       /\ snd (create_receipt env d req) = database.create_receipt d doc.
Proof.
  unfold create_receipt.
  destruct (get_restaurant_by_id d (cr_restaurant_id req)) as [r|];
    [|discriminate].
  destruct (negb _); [discriminate|].
  destruct (price_items _ _ _ _) as [[ls raw]|e]; [|discriminate].
  cbn [fst snd]. intros [= <-]. exists r, raw. repeat split.
Qed.

Lemma create_receipt_inv' (env : receipt_env) (d : db)
    (req : CreateReceiptRequest) (resp : ReceiptResponse) :
  fst (create_receipt env d req) = Return resp ->
  rc_receipt_id (resp_receipt resp) = generate_receipt_id d (env_date_str env)
  /\ snd (create_receipt env d req)
     = database.create_receipt d (resp_receipt resp).
Proof.
  intros H. destruct (create_receipt_inv env d req resp H) as (r & raw & _ & Hc).
  cbv zeta in Hc. tauto.
Qed.

(** A failed creation leaves the store as it was. *)
Lemma create_receipt_failure (env : receipt_env) (d : db)
    (req : CreateReceiptRequest) (e : exn) :
  fst (create_receipt env d req) = Raise e -> snd (create_receipt env d req) = d.
Proof.
  unfold create_receipt.
  destruct (get_restaurant_by_id d (cr_restaurant_id req)) as [r|];
    [|reflexivity].
  destruct (negb _); [reflexivity|].
  destruct (price_items _ _ _ _) as [[ls raw]|e']; [discriminate | reflexivity].
Qed.

(** ** The receipt of the specification's example *)

(** C9: a receipt for two catalog items priced 12.99 (quantity 2) and 5.00
    (quantity 1), at a restaurant whose delivery fee field is the text
    "$2.99 flyer", has subtotal 30.98, delivery fee 2.99, tax 2.63 and total
    36.60, and is stored. *)
Theorem receipt_round_trip (env : receipt_env) (d : db)
    (req : CreateReceiptRequest) (restaurant : restaurant_doc) (a b : item_doc) :
  wf_catalog d ->
  get_restaurant_by_id d (cr_restaurant_id req) = Some restaurant ->
  r_delivery_fee restaurant = PStr "$2.99 flyer" ->
  In a (database.items d) -> In b (database.items d) -> i_id a <> i_id b ->
  parse_price (i_price a) = 12.99%float ->
  parse_price (i_price b) = 5%float ->
  cr_items req = [ {| item_id := i_id a; quantity := 2 |};
                   {| item_id := i_id b; quantity := 1 |} ] ->
  exists resp,
    fst (create_receipt env d req) = Return resp
    /\ rc_subtotal (resp_receipt resp) = 30.98%float
    /\ rc_delivery_fee (resp_receipt resp) = Some 2.99%float
    /\ rc_tax (resp_receipt resp) = 2.63%float
    /\ rc_total (resp_receipt resp) = 36.6%float
    /\ receipts (snd (create_receipt env d req))
       = (receipts d ++ [resp_receipt resp])%list.
Proof.
  intros Hwf Hr Hfee Ha Hb Hab Hpa Hpb Hlines.
  assert (Hnd : NoDup (map item_id (cr_items req))).
  { rewrite Hlines. cbn. repeat constructor; cbn; intuition. }
  assert (Hex : forall id, In id (map item_id (cr_items req)) ->
                exists it, In it (database.items d) /\ i_id it = id).
  { rewrite Hlines. cbn. intros id [<- | [<- | []]]; eauto. }
  destruct (get_items_by_ids_all d _ Hwf Hnd Hex) as [Hlen Hall].
  set (data := get_items_by_ids d (map item_id (cr_items req))) in *.
  assert (Hsub : forall it, In it data -> In it (database.items d)).
  { intros it Hit. unfold data, get_items_by_ids in Hit.
    destruct (ObjectIds _); [|contradiction].
    now apply filter_In in Hit. }
  destruct (price_items_ok d data (cr_items req) [] 0%float (proj1 Hwf) Hsub)
    as [ls Hls].
  { rewrite Hlines. intros ci [<- | [<- | []]]; cbn [item_id quantity].
    - split; [|split; now vm_compute].
      exists a. split; [|reflexivity]. apply Hall; [exact Ha|].
      rewrite Hlines. cbn. now left.
    - split; [|split; now vm_compute].
      exists b. split; [|reflexivity]. apply Hall; [exact Hb|].
      rewrite Hlines. cbn. right. now left. }
  assert (Hraw : fold_left (add_line d) (cr_items req) 0%float = 30.98%float).
  { rewrite Hlines. cbn [fold_left]. unfold add_line, catalog_price.
    cbn [item_id quantity].
    rewrite (find_by_id _ a (proj1 Hwf) Ha), (find_by_id _ b (proj1 Hwf) Hb).
    rewrite Hpa, Hpb. vm_compute. reflexivity. }
  unfold create_receipt. fold data.
  rewrite Hr, Hlen, Nat.eqb_refl. cbn [negb]. rewrite Hls, Hraw, Hfee.
  cbn [fst snd]. eexists. split; [reflexivity|].
  cbn [resp_receipt rc_subtotal rc_delivery_fee rc_tax rc_total].
  split; [vm_compute; reflexivity|].
  split; [vm_compute; reflexivity|].
  split; [vm_compute; reflexivity|].
  split; [vm_compute; reflexivity|].
  reflexivity.
Qed.

Lemma receipt_round_trip_witness :
  exists resp,
    fst (create_receipt (Examples.env_of "20261104") Examples.flyer_db
           (Examples.receipt_request Examples.two_lines)) = Return resp
    /\ rc_subtotal (resp_receipt resp) = 30.98%float
    /\ rc_delivery_fee (resp_receipt resp) = Some 2.99%float
    /\ rc_tax (resp_receipt resp) = 2.63%float
    /\ rc_total (resp_receipt resp) = 36.6%float
    /\ receipts (snd (create_receipt (Examples.env_of "20261104") Examples.flyer_db
                        (Examples.receipt_request Examples.two_lines)))
       = ([] ++ [resp_receipt resp])%list.
Proof.
  apply (receipt_round_trip (Examples.env_of "20261104") Examples.flyer_db
           (Examples.receipt_request Examples.two_lines)
           Examples.flyer Examples.item_a Examples.item_b).
  - split.
    + repeat constructor; simpl; intuition discriminate.
    + repeat constructor.
  - reflexivity.
  - reflexivity.
  - now left.
  - right. now left.
  - discriminate.
  - reflexivity.
  - vm_compute. reflexivity.
  - reflexivity.
Defined.

(** ** A fee of zero *)

Lemma eqb_zero_iff (z : float) :
  PrimFloat.eqb z 0 = true <-> exists s, Prim2SF z = S754_zero s.
Proof.
  rewrite FloatAxioms.eqb_spec. change (Prim2SF 0) with (S754_zero false).
  destruct (Prim2SF z) as [s|s| |s m e]; cbn.
  - split; [eexists; reflexivity | reflexivity].
  - split; [destruct s; discriminate | intros [s' H]; discriminate].
  - split; [discriminate | intros [s' H]; discriminate].
  - split; [destruct s; discriminate | intros [s' H]; discriminate].
Qed.

(** Adding a zero gives the same number. *)
Lemma add_zero_r (x z : float) :
  PrimFloat.eqb z 0 = true -> same_number (x + z) x.
Proof.
  intros Hz. apply eqb_zero_iff in Hz. destruct Hz as [s Hz].
  pose proof (add_spec x z) as H. rewrite Hz in H.
  destruct (Prim2SF x) as [sx|sx| |sx m e] eqn:Ex.
  - right. split; apply eqb_zero_iff.
    + cbn in H. destruct sx, s; eexists; exact H.
    + eexists; exact Ex.
  - left. apply Prim2SF_inj. now rewrite H, Ex.
  - left. apply Prim2SF_inj. now rewrite H, Ex.
  - left. apply Prim2SF_inj. now rewrite H, Ex.
Qed.

Lemma add_same_l (a b t : float) :
  same_number a b -> same_number (a + t) (b + t).
Proof.
  intros [-> | [Ha Hb]]; [now left|].
  apply eqb_zero_iff in Ha, Hb. destruct Ha as [sa Ha], Hb as [sb Hb].
  pose proof (add_spec a t) as H1. pose proof (add_spec b t) as H2.
  rewrite Ha in H1. rewrite Hb in H2.
  destruct (Prim2SF t) as [st|st| |st m e] eqn:Et.
  - right. split; apply eqb_zero_iff.
    + cbn in H1. destruct sa, st; eexists; exact H1.
    + cbn in H2. destruct sb, st; eexists; exact H2.
  - left. apply Prim2SF_inj. now rewrite H1, H2.
  - left. apply Prim2SF_inj. now rewrite H1, H2.
  - left. apply Prim2SF_inj. now rewrite H1, H2.
Qed.

Lemma round2_zero (x : float) :
  PrimFloat.eqb x 0 = true -> round2 x = x.
Proof.
  intros H. apply eqb_zero_iff in H. destruct H as [s H].
  unfold round2. now rewrite H.
Qed.

Lemma round2_same (a b : float) :
  same_number a b -> same_number (round2 a) (round2 b).
Proof.
  intros [-> | [Ha Hb]]; [now left|].
  right. now rewrite (round2_zero a Ha), (round2_zero b Hb).
Qed.

Lemma fee_field_zero (fee : float) :
  PrimFloat.eqb fee 0 = true -> fee_field fee = None.
Proof. intros H. unfold fee_field, float_truthy. now rewrite H. Qed.

(** C10, as stated, fails on the total of an estimate: the total is rounded
    once, from the unrounded subtotal and tax, and is not the returned
    subtotal plus the returned tax.  One tea for a dollar, delivered for
    free: subtotal 1.0, tax 0.09, total 1.08. *)
Lemma zero_fee_total_is_rounded_once :
  exists est,
    compute_cost_estimate Examples.tea_db Examples.one_tea = Return est
    /\ est_delivery_fee est = None
    /\ est_subtotal est = 1%float
    /\ est_estimated_tax est = 0.09%float
    /\ est_estimated_total est = 1.08%float
    /\ ~ same_number (est_estimated_total est)
                     (est_subtotal est + est_estimated_tax est)%float.
Proof.
  eexists. split; [vm_compute; reflexivity|].
  cbn [est_delivery_fee est_subtotal est_estimated_tax est_estimated_total].
  repeat (split; [vm_compute; reflexivity|]).
  intros [H | [H _]].
  - apply (f_equal Prim2SF) in H. vm_compute in H. discriminate.
  - vm_compute in H. discriminate.
Qed.

(** C10 (amended): when the parsed delivery fee of the restaurant is zero, a
    successful cart, estimate or receipt has no delivery fee ([None]), and its
    total is the number it would be with no fee added: for the cart the
    returned subtotal; for the estimate and the receipt the unrounded
    subtotal plus the unrounded tax, rounded to two decimals. *)
Theorem zero_fee_is_omitted (env : receipt_env) (d : db)
    (req : CreateReceiptRequest) (restaurant : restaurant_doc) :
  get_restaurant_by_id d (cr_restaurant_id req) = Some restaurant ->
  PrimFloat.eqb (parse_delivery_fee (r_delivery_fee restaurant)) 0 = true ->
  (forall cart, build_cart d (as_cart_request req) = Return cart ->
     cart_delivery_fee cart = None
     /\ same_number (cart_total cart) (cart_subtotal cart))
  /\ (forall est, compute_cost_estimate d (as_cart_request req) = Return est ->
        est_delivery_fee est = None
        /\ exists raw,
             est_subtotal est = round2 raw
             /\ est_estimated_tax est = round2 (raw * tax_rate)%float
             /\ same_number (est_estimated_total est)
                            (round2 (raw + raw * tax_rate)%float))
  /\ (forall resp, fst (create_receipt env d req) = Return resp ->
        rc_delivery_fee (resp_receipt resp) = None
        /\ exists raw,
             rc_subtotal (resp_receipt resp) = round2 raw
             /\ rc_tax (resp_receipt resp) = round2 (raw * tax_rate)%float
             /\ same_number (rc_total (resp_receipt resp))
                            (round2 (raw + raw * tax_rate)%float)).
Proof.
  intros Hr Hz. split; [|split].
  - intros cart H. destruct (build_cart_inv _ _ _ H) as (r & raw & Hr' & Hc).
    cbn [as_cart_request restaurant_id] in Hr'. rewrite Hr in Hr'.
    injection Hr' as <-. cbv zeta in Hc. destruct Hc as (Hs & Hf & Ht).
    rewrite Hf, Ht, Hs. split; [now apply fee_field_zero|].
    apply round2_same. now apply add_zero_r.
  - intros est H.
    destruct (compute_cost_estimate_inv _ _ _ H) as (r & raw & Hr' & Hc).
    cbn [as_cart_request restaurant_id] in Hr'. rewrite Hr in Hr'.
    injection Hr' as <-. cbv zeta in Hc. destruct Hc as (Hs & Hf & Hx & Ht).
    rewrite Hf. split; [now apply fee_field_zero|].
    exists raw. repeat split; [exact Hs | exact Hx |].
    rewrite Ht. apply round2_same, add_same_l. now apply add_zero_r.
  - intros resp H.
    destruct (create_receipt_inv _ _ _ _ H) as (r & raw & Hr' & Hc).
    rewrite Hr in Hr'. injection Hr' as <-. cbv zeta in Hc.
    destruct Hc as (Hs & Hf & Hx & Ht & _).
    rewrite Hf. split; [now apply fee_field_zero|].
    exists raw. repeat split; [exact Hs | exact Hx |].
    rewrite Ht. apply round2_same, add_same_l. now apply add_zero_r.
Qed.

Lemma zero_fee_is_omitted_witness :
  (exists cart,
     build_cart Examples.free_db
       (as_cart_request (Examples.receipt_request Examples.two_lines))
     = Return cart
     /\ cart_delivery_fee cart = None
     /\ same_number (cart_total cart) (cart_subtotal cart))
  /\ (exists resp,
        fst (create_receipt (Examples.env_of "20261104") Examples.free_db
               (Examples.receipt_request Examples.two_lines)) = Return resp
        /\ rc_delivery_fee (resp_receipt resp) = None).
Proof.
  destruct (zero_fee_is_omitted (Examples.env_of "20261104") Examples.free_db
              (Examples.receipt_request Examples.two_lines)
              (hd Examples.flyer (restaurants Examples.free_db))
              eq_refl eq_refl) as (Hcart & _ & Hreceipt).
  split.
  - eexists. split; [vm_compute; reflexivity|].
    apply Hcart. vm_compute. reflexivity.
  - eexists. split; [vm_compute; reflexivity|].
    apply Hreceipt. vm_compute. reflexivity.
Defined.

End ServiceProofs.

(* ================================================================== *)
(** * Receipt identifiers *)
(* ================================================================== *)

Module ReceiptProofs.
Import Py database restaurant_service Spec.

(** ** Decimal strings *)

Lemma to_uint_nonnil (n : nat) : Nat.to_uint n <> Decimal.Nil.
Proof.
  rewrite <- (DecimalNat.Unsigned.of_to n) at 1.
  rewrite DecimalNat.Unsigned.to_of. apply DecimalFacts.unorm_nonnil.
Qed.

Lemma decode_str_nat (n : nat) : decode (str_nat n) = Some n.
Proof.
  unfold decode, str_nat, NilZero.string_of_uint.
  pose proof (to_uint_nonnil n) as Hn.
  destruct (Nat.to_uint n) eqn:E; [contradiction| ..];
    rewrite <- E, NilEmpty.usu; cbn; now rewrite DecimalNat.Unsigned.of_to.
Qed.

Lemma decode_zero (s : string) : decode (String "0" s) = decode s.
Proof.
  unfold decode. cbn. destruct (NilEmpty.uint_of_string s); reflexivity.
Qed.

Lemma decode_zfill (w : nat) (s : string) : decode (zfill w s) = decode s.
Proof.
  unfold zfill. induction (w - String.length s)%nat as [|k IH]; [reflexivity|].
  cbn. now rewrite decode_zero.
Qed.

Lemma zfill_str_nat_inj (n m : nat) :
  zfill 3 (str_nat n) = zfill 3 (str_nat m) -> n = m.
Proof.
  intros H. apply (f_equal decode) in H.
  rewrite !decode_zfill, !decode_str_nat in H. now injection H.
Qed.

(** ** Prefixes *)

Lemma prefixb_same_length (a b x y : string) :
  String.length a = String.length b ->
  prefixb (a ++ x) (b ++ y) = String.eqb a b && prefixb x y.
Proof.
  revert b. induction a as [|c a IH]; intros [|c' b] H; try discriminate.
  - reflexivity.
  - cbn in H. injection H as H. cbn. rewrite (IH b H).
    now destruct (Ascii.eqb c c').
Qed.

Lemma app_same_length_inj (a b x y : string) :
  String.length a = String.length b -> a ++ x = b ++ y -> a = b /\ x = y.
Proof.
  revert b. induction a as [|c a IH]; intros [|c' b] H E; try discriminate.
  - now split.
  - cbn in H, E. injection H as H. injection E as -> E.
    destruct (IH b H E) as [-> ->]. now split.
Qed.

(** The day prefix selects the identifiers of that day. *)
Lemma day_prefix (date date' : string) (n : nat) :
  is_Ymd date -> is_Ymd date' ->
  prefixb ("RCP-" ++ date ++ "-") (receipt_code date' n) = String.eqb date date'.
Proof.
  intros [H _] [H' _]. unfold receipt_code. cbn.
  rewrite prefixb_same_length by congruence. cbn. apply andb_true_r.
Qed.

Lemma receipt_code_inj (date date' : string) (n m : nat) :
  is_Ymd date -> is_Ymd date' ->
  receipt_code date n = receipt_code date' m -> date = date' /\ n = m.
Proof.
  intros [H _] [H' _] E. unfold receipt_code in E. cbn in E.
  injection E as E.
  destruct (app_same_length_inj _ _ _ _ (eq_trans H (eq_sym H')) E) as [-> E'].
  split; [reflexivity|]. cbn in E'. injection E' as E'.
  now apply zfill_str_nat_inj.
Qed.

(** ** Counting the receipts of a day *)

Lemma filter_map_length {A B} (f : A -> B) (p : B -> bool) (l : list A) :
  List.length (filter (fun a => p (f a)) l) = List.length (filter p (map f l)).
Proof.
  induction l as [|a l IH]; [reflexivity|].
  cbn. destruct (p (f a)); cbn; now rewrite IH.
Qed.

Lemma count_day (log : list (string * string)) (date : string) :
  is_Ymd date ->
  (forall date' id, In (date', id) log ->
     is_Ymd date' /\ exists n, id = receipt_code date' n) ->
  List.length (filter (prefixb ("RCP-" ++ date ++ "-")) (map snd log))
  = count_occ string_dec (map fst log) date.
Proof.
  intros Hd. induction log as [|[date' id] log IH]; intros H; [reflexivity|].
  destruct (H date' id (or_introl eq_refl)) as [Hd' [n ->]].
  cbn [map snd fst filter count_occ].
  rewrite (day_prefix date date' n Hd Hd').
  assert (IH' := IH (fun a b Hin => H a b (or_intror Hin))).
  destruct (string_dec date' date) as [-> | Hne].
  - rewrite String.eqb_refl. cbn [List.length]. now rewrite IH'.
  - replace (String.eqb date date') with false; [exact IH'|].
    symmetry. apply String.eqb_neq. congruence.
Qed.

Lemma log_ok_entries (log : list (string * string)) :
  log_ok log ->
  forall date id, In (date, id) log ->
    is_Ymd date /\ exists n, id = receipt_code date n.
Proof.
  intros H date id Hin. apply In_nth_error in Hin. destruct Hin as [k Hk].
  destruct (H k date id Hk) as [Hd ->]. split; [exact Hd | eauto].
Qed.

Lemma generate_receipt_id_next (d : db) (log : list (string * string))
    (date : string) :
  store_matches d log -> is_Ymd date ->
  generate_receipt_id d date
  = receipt_code date (S (count_occ string_dec (map fst log) date)).
Proof.
  intros [Hids Hlog] Hd. unfold generate_receipt_id, receipt_code.
  unfold count_receipts_with_prefix.
  rewrite (filter_map_length rc_receipt_id (prefixb ("RCP-" ++ date ++ "-"))).
  rewrite Hids. rewrite (count_day log date Hd (log_ok_entries log Hlog)).
  now rewrite Nat.add_1_r.
Qed.

Lemma log_ok_snoc (log : list (string * string)) (date : string) :
  log_ok log -> is_Ymd date ->
  log_ok (log ++ [(date,
            receipt_code date (S (count_occ string_dec (map fst log) date)))]).
Proof.
  intros Hlog Hd k date' id Hk.
  destruct (Nat.lt_ge_cases k (List.length log)) as [Hlt | Hge].
  - rewrite nth_error_app1 in Hk by exact Hlt.
    destruct (Hlog k date' id Hk) as [Hd' ->]. split; [exact Hd'|].
    unfold rank_in_day. rewrite map_app, firstn_app, length_map.
    replace (k - List.length log)%nat with 0%nat by lia.
    cbn [firstn]. now rewrite app_nil_r.
  - rewrite nth_error_app2 in Hk by exact Hge.
    destruct (k - List.length log)%nat as [|k'] eqn:Ek.
    + cbn in Hk. injection Hk as <- <-. split; [exact Hd|].
      unfold rank_in_day. rewrite map_app, firstn_app, length_map.
      assert (k = List.length log) as -> by lia.
      rewrite <- (length_map fst log) at 1. rewrite firstn_all.
      rewrite Nat.sub_diag. cbn [firstn]. now rewrite app_nil_r.
    + cbn in Hk. destruct k'; discriminate.
Qed.

(** One creation keeps the store and the log in step. *)
Lemma create_receipt_step (env : receipt_env) (d : db)
    (req : CreateReceiptRequest) (log : list (string * string)) :
  store_matches d log -> is_Ymd (env_date_str env) ->
  match create_receipt env d req with
  | (Return resp, d') =>
      store_matches d'
        (log ++ [(env_date_str env, rc_receipt_id (resp_receipt resp))])
  | (Raise _, d') => store_matches d' log
  end.
Proof.
  intros Hm Hd.
  destruct (create_receipt env d req) as [[resp|e] d'] eqn:E.
  - assert (E1 : fst (create_receipt env d req) = Return resp) by now rewrite E.
    destruct (ServiceProofs.create_receipt_inv' env d req resp E1) as [Hid Hd'].
    rewrite E in Hd'. cbn [snd] in Hd'. subst d'.
    rewrite Hid, (generate_receipt_id_next d log _ Hm Hd).
    destruct Hm as [Hids Hlog]. split.
    + cbn [database.create_receipt receipts]. rewrite !map_app, Hids. cbn.
      now rewrite Hid, (generate_receipt_id_next d log _ (conj Hids Hlog) Hd).
    + now apply log_ok_snoc.
  - assert (E1 : fst (create_receipt env d req) = Raise e) by now rewrite E.
    pose proof (ServiceProofs.create_receipt_failure env d req e E1) as Hd'.
    rewrite E in Hd'. cbn [snd] in Hd'. now subst d'.
Qed.

Lemma create_receipts_matches (calls : list (receipt_env * CreateReceiptRequest))
    (d : db) (log : list (string * string)) :
  store_matches d log ->
  (forall call, In call calls -> is_Ymd (env_date_str (fst call))) ->
  store_matches (snd (create_receipts d calls log))
                (fst (create_receipts d calls log)).
Proof.
  revert d log. induction calls as [|[env req] calls IH]; intros d log Hm Hd.
  - exact Hm.
  - cbn [create_receipts].
    pose proof (create_receipt_step env d req log Hm
                  (Hd (env, req) (or_introl eq_refl))) as Hstep.
    destruct (create_receipt env d req) as [[resp|e] d'];
      apply IH; try exact Hstep; intros call Hc; apply Hd; now right.
Qed.

(** ** Ranks grow within a day *)

Lemma count_firstn_le (l : list string) (x : string) (i j : nat) :
  (i <= j)%nat ->
  (count_occ string_dec (firstn i l) x <= count_occ string_dec (firstn j l) x)%nat.
Proof.
  revert i j. induction l as [|a l IH]; intros i j Hij.
  - now rewrite !firstn_nil.
  - destruct i as [|i]; [cbn; lia|]. destruct j as [|j]; [lia|].
    cbn [firstn count_occ]. specialize (IH i j ltac:(lia)).
    destruct (string_dec a x); lia.
Qed.

Lemma count_firstn_succ (l : list string) (x : string) (i : nat) :
  nth_error l i = Some x ->
  count_occ string_dec (firstn (S i) l) x
  = S (count_occ string_dec (firstn i l) x).
Proof.
  revert i. induction l as [|a l IH]; intros i H.
  - destruct i; discriminate.
  - destruct i as [|i].
    + cbn in H. injection H as ->. cbn.
      destruct (string_dec x x); [reflexivity | contradiction].
    + cbn in H. specialize (IH i H). cbn [firstn count_occ] in *.
      destruct (string_dec a x); now rewrite IH.
Qed.

Lemma rank_lt (dates : list string) (date : string) (i j : nat) :
  (i < j)%nat -> nth_error dates i = Some date ->
  (rank_in_day dates i date < rank_in_day dates j date)%nat.
Proof.
  intros Hij Hi. unfold rank_in_day.
  pose proof (count_firstn_le dates date (S i) j Hij) as Hle.
  rewrite (count_firstn_succ dates date i Hi) in Hle. lia.
Qed.

Lemma nth_error_log (log : list (string * string)) (k : nat) (id : string) :
  nth_error (map snd log) k = Some id ->
  exists date, nth_error log k = Some (date, id)
               /\ nth_error (map fst log) k = Some date.
Proof.
  rewrite !nth_error_map. destruct (nth_error log k) as [[date id']|];
    [|discriminate].
  cbn. intros [= ->]. now exists date.
Qed.

Lemma log_ok_NoDup (log : list (string * string)) :
  log_ok log -> NoDup (map snd log).
Proof.
  intros Hlog. apply NoDup_nth_error. intros i j Hi E.
  destruct (nth_error (map snd log) i) as [id|] eqn:Ei;
    [|apply nth_error_None in Ei; lia].
  symmetry in E.
  destruct (nth_error_log log i id Ei) as (di & Hli & Hdi).
  destruct (nth_error_log log j id E) as (dj & Hlj & Hdj).
  destruct (Hlog i di id Hli) as [Hyi Hci].
  destruct (Hlog j dj id Hlj) as [Hyj Hcj].
  rewrite Hci in Hcj.
  destruct (receipt_code_inj _ _ _ _ Hyi Hyj Hcj) as [<- Hrank].
  destruct (Nat.lt_trichotomy i j) as [Hlt | [Heq | Hgt]]; [|exact Heq|].
  - pose proof (rank_lt (map fst log) di i j Hlt Hdi). lia.
  - pose proof (rank_lt (map fst log) di j i Hgt Hdj). lia.
Qed.

(** C5: in a sequence of receipt creations that starts from an empty
    receipt collection, the N-th receipt created on a day gets the identifier
    RCP-<YYYYMMDD>-<N zero-padded to 3>, and no two receipts get the same
    identifier. *)
Theorem receipt_ids_sequential (d : db)
    (calls : list (receipt_env * CreateReceiptRequest)) :
  receipts d = [] ->
  (forall call, In call calls -> is_Ymd (env_date_str (fst call))) ->
  let log := fst (create_receipts d calls []) in
  (forall k date id,
     nth_error log k = Some (date, id) ->
     id = receipt_code date (rank_in_day (map fst log) k date))
  /\ NoDup (map snd log)
  /\ map rc_receipt_id (receipts (snd (create_receipts d calls []))) = map snd log.
Proof.
  intros Hempty Hdates log.
  assert (Hm : store_matches d []).
  { split; [now rewrite Hempty|]. intros k date id Hk. destruct k; discriminate. }
  destruct (create_receipts_matches calls d [] Hm Hdates) as [Hids Hlog].
  fold log in Hids, Hlog. split; [|split].
  - intros k date id Hk. exact (proj2 (Hlog k date id Hk)).
  - now apply log_ok_NoDup.
  - exact Hids.
Qed.

Lemma receipt_ids_sequential_witness :
  map snd (fst (create_receipts Examples.flyer_db Examples.four_calls []))
  = ["RCP-20261104-001"; "RCP-20261104-002"; "RCP-20261105-001"]
  /\ NoDup (map snd (fst (create_receipts Examples.flyer_db Examples.four_calls []))).
Proof.
  split; [vm_compute; reflexivity|].
  refine (proj1 (proj2 (receipt_ids_sequential Examples.flyer_db
                          Examples.four_calls eq_refl _))).
  intros call [<- | [<- | [<- | [<- | []]]]]; split; reflexivity.
Defined.

End ReceiptProofs.

(* ================================================================== *)
(** * Restaurant name resolution *)
(* ================================================================== *)

Module ResolverProofs.
Import Py Json database agent Spec.

Lemma prefixb_app_iff (p s : string) :
  prefixb p s = true <-> exists post, s = p ++ post.
Proof.
  split; [apply ParserProofs.prefixb_app|].
  intros [post ->]. induction p as [|a p IH]; [reflexivity|].
  cbn. now rewrite Ascii.eqb_refl, IH.
Qed.

Lemma contains_iff (p s : string) :
  contains p s = true <-> exists pre post, s = pre ++ p ++ post.
Proof.
  split.
  - induction s as [|c s IH]; cbn; intros H.
    + rewrite orb_false_r in H. apply prefixb_app_iff in H.
      destruct H as [post H]. now exists EmptyString, post.
    + apply orb_true_iff in H. destruct H as [H | H].
      * apply prefixb_app_iff in H. destruct H as [post H].
        now exists EmptyString, post.
      * destruct (IH H) as (pre & post & ->). now exists (String c pre), post.
  - intros (pre & post & ->). induction pre as [|c pre IH].
    + cbn [append]. assert (H : prefixb p (p ++ post) = true).
      { apply prefixb_app_iff. now exists post. }
      destruct (p ++ post); cbn; now rewrite H.
    + cbn. rewrite IH. apply orb_true_r.
Qed.

Lemma name_regex_exact_iff (q : string) (r : restaurant_doc) :
  name_regex_exact q r = true <-> name_is q r.
Proof.
  unfold name_regex_exact, name_is. destruct (r_name r) as [n|].
  - rewrite String.eqb_eq. split.
    + intros H. now exists n.
    + now intros (n' & [= <-] & H).
  - split; [discriminate | now intros (n' & [=] & _)].
Qed.

Lemma name_regex_partial_iff (q : string) (r : restaurant_doc) :
  name_regex_partial q r = true <-> name_has q r.
Proof.
  unfold name_regex_partial, name_has. destruct (r_name r) as [n|].
  - rewrite contains_iff. split.
    + intros H. now exists n.
    + now intros (n' & [= <-] & H).
  - split; [discriminate | now intros (n' & [=] & _)].
Qed.

Lemma append_empty_r (s : string) : s ++ "" = s.
Proof. induction s as [|c s IH]; [reflexivity|]. cbn. now rewrite IH. Qed.

Lemma name_is_has (q : string) (r : restaurant_doc) : name_is q r -> name_has q r.
Proof.
  intros (n & Hn & E). exists n. split; [exact Hn|].
  exists EmptyString, EmptyString. rewrite E. cbn [append].
  now rewrite append_empty_r.
Qed.

(** [find] returns the first element that passes the test. *)
Lemma find_first {A} (f : A -> bool) (l : list A) (x : A) :
  find f l = Some x ->
  exists before after,
    l = (before ++ x :: after)%list /\ f x = true
    /\ forall y, In y before -> f y = false.
Proof.
  induction l as [|a l IH]; [discriminate|]. cbn.
  destruct (f a) eqn:Ea.
  - intros [= ->]. exists [], l. repeat split; [exact Ea | contradiction].
  - intros H. destruct (IH H) as (before & after & -> & Hx & Hb).
    exists (a :: before), after. repeat split; [exact Hx|].
    intros y [<- | Hy]; [exact Ea | now apply Hb].
Qed.

Lemma first_exact (d : db) (q : string) (r : restaurant_doc) :
  find (name_regex_exact q) (restaurants d) = Some r ->
  first_with (name_is q) d r.
Proof.
  intros H. destruct (find_first _ _ _ H) as (before & after & Hl & Hr & Hb).
  exists before, after. repeat split; [exact Hl | now apply name_regex_exact_iff |].
  intros r' Hin Hn. apply name_regex_exact_iff in Hn.
  rewrite (Hb r' Hin) in Hn. discriminate.
Qed.

Lemma first_partial (d : db) (q : string) (r : restaurant_doc) :
  find (name_regex_partial q) (restaurants d) = Some r ->
  first_with (name_has q) d r.
Proof.
  intros H. destruct (find_first _ _ _ H) as (before & after & Hl & Hr & Hb).
  exists before, after.
  repeat split; [exact Hl | now apply name_regex_partial_iff |].
  intros r' Hin Hn. apply name_regex_partial_iff in Hn.
  rewrite (Hb r' Hin) in Hn. discriminate.
Qed.

Lemma first_with_in (P : restaurant_doc -> Prop) (d : db) (r : restaurant_doc) :
  first_with P d r -> In r (restaurants d) /\ P r.
Proof.
  intros (before & after & Hl & Hp & _). split; [|exact Hp].
  rewrite Hl. apply in_or_app. right. now left.
Qed.

(** C6: resolution of a restaurant name returns a restaurant exactly when
    some stored name contains the query, letters compared without regard to
    case (a name equal to the query contains it); the restaurant returned is
    the first in store order whose name equals the query, and when there is
    no such name the first whose name contains it; when no name contains the
    query, resolution fails with the not-found error. *)
Theorem restaurant_name_resolution (d : db) (q : string) :
  ((exists id, resolve_restaurant_name_to_id d (JStr q) = Return id)
   <-> (exists r, In r (restaurants d) /\ name_has q r))
  /\ match resolve_restaurant_name_to_id d (JStr q) with
     | Return id =>
         exists r,
           id = r_id r
           /\ get_restaurant_by_name d q = Some r
           /\ (first_with (name_is q) d r
               \/ ((forall r', In r' (restaurants d) -> ~ name_is q r')
                   /\ first_with (name_has q) d r))
     | Raise e =>
         e = ValueError ("Restaurant '" ++ q ++ "' not found")
         /\ forall r, In r (restaurants d) -> ~ name_has q r
     end.
Proof.
  unfold resolve_restaurant_name_to_id, get_restaurant_by_name.
  destruct (find (name_regex_exact q) (restaurants d)) as [r|] eqn:Ex.
  - pose proof (first_exact d q r Ex) as Hf.
    destruct (first_with_in _ _ _ Hf) as [Hin Hn]. split.
    + split; [|intros _; now exists (r_id r)].
      intros _. exists r. split; [exact Hin | now apply name_is_has].
    + exists r. repeat split. now left.
  - assert (Hno : forall r', In r' (restaurants d) -> ~ name_is q r').
    { intros r' Hin Hn. apply name_regex_exact_iff in Hn.
      rewrite (find_none _ _ Ex r' Hin) in Hn. discriminate. }
    destruct (find (name_regex_partial q) (restaurants d)) as [r|] eqn:Ep.
    + pose proof (first_partial d q r Ep) as Hf.
      destruct (first_with_in _ _ _ Hf) as [Hin Hn]. split.
      * split; [|intros _; now exists (r_id r)].
        intros _. now exists r.
      * exists r. repeat split. right. now split.
    + assert (Hnone : forall r, In r (restaurants d) -> ~ name_has q r).
      { intros r Hin Hn. apply name_regex_partial_iff in Hn.
        rewrite (find_none _ _ Ep r Hin) in Hn. discriminate. }
      split; [|now split].
      split; [intros [id H]; discriminate|].
      intros (r & Hin & Hn). now destruct (Hnone r Hin).
Qed.

(** The three cases of the resolution on a small store: a mixed-case exact
    name wins over an earlier name that contains it; a part of several names
    resolves to the first of them; an unknown name is not found. *)
Example resolution_examples :
  resolve_restaurant_name_to_id Examples.sushi_db (JStr "sushi")
  = Return "64b000000000000000000012"
  /\ resolve_restaurant_name_to_id Examples.sushi_db (JStr "suSHi ")
     = Return "64b000000000000000000011"
  /\ resolve_restaurant_name_to_id Examples.sushi_db (JStr "pizza")
     = Raise (ValueError "Restaurant 'pizza' not found").
Proof. repeat split. Qed.

End ResolverProofs.

(* ================================================================== *)
(** * Trimming of the conversation history *)
(* ================================================================== *)

Module TrimProofs.
Import Py agent Spec.

Lemma filter_all {A} (p : A -> bool) (l : list A) :
  Forall (fun a => p a = true) l -> filter p l = l.
Proof.
  induction 1 as [|a l Ha _ IH]; [reflexivity|]. cbn. now rewrite Ha, IH.
Qed.

Lemma filter_none {A} (p : A -> bool) (l : list A) :
  Forall (fun a => p a = false) l -> filter p l = [].
Proof.
  induction 1 as [|a l Ha _ IH]; [reflexivity|]. cbn. now rewrite Ha, IH.
Qed.

Lemma Forall_filter {A} (p : A -> bool) (l : list A) :
  Forall (fun a => p a = true) (filter p l).
Proof.
  apply Forall_forall. intros a Ha. now apply filter_In in Ha.
Qed.

Lemma Forall_skipn {A} (P : A -> Prop) (k : nat) (l : list A) :
  Forall P l -> Forall P (skipn k l).
Proof.
  intros H. rewrite <- (firstn_skipn k l) in H.
  now apply Forall_app in H.
Qed.

Lemma non_system_not_system (l : list message) :
  Forall (fun msg => is_system msg = false) (non_system_of l).
Proof.
  apply Forall_forall. intros msg H. apply filter_In in H.
  now apply negb_true_iff.
Qed.

(** The messages the trimmer keeps besides the system ones. *)
Lemma trimmed_non_system (l : list message) (n : nat) :
  (if (n <? List.length (non_system_of l))%nat
   then last_n n (non_system_of l) else non_system_of l)
  = if Nat.eqb n 0 then non_system_of l else most_recent n (non_system_of l).
Proof.
  unfold last_n, most_recent. destruct (n <? _)%nat eqn:E.
  - now destruct n.
  - apply Nat.ltb_ge in E. destruct n; [reflexivity|].
    cbn [Nat.eqb]. replace (_ - _)%nat with 0%nat by lia. reflexivity.
Qed.

Lemma filter_length_le {A} (p : A -> bool) (l : list A) :
  (List.length (filter p l) <= List.length l)%nat.
Proof.
  induction l as [|a l IH]; [reflexivity|]. cbn. destruct (p a); cbn; lia.
Qed.

(** C4, as stated, fails on the order: a system message that came after the
    other messages is moved in front of them. *)
Lemma trim_moves_system_messages :
  trim_conversation_history Examples.late_system 20
  = (Examples.system_says "be brief" :: repeat (Examples.user_says "more") 20)
  /\ keep_recent 20 Examples.late_system = Examples.late_system
  /\ trim_conversation_history Examples.late_system 20
     <> keep_recent 20 Examples.late_system.
Proof.
  split; [reflexivity|]. split; [reflexivity|].
  vm_compute. discriminate.
Qed.

(** C4 (amended): a history of at most 20 messages is returned as it is; a
    longer one becomes its system messages, in their order, followed by the
    most recent 20 of its other messages, in their order.  In both cases all
    system messages survive and the other messages that survive are exactly
    the most recent 20 (all of them when there are 20 or fewer); older ones
    are dropped. *)
Theorem trim_keeps_recent (messages : list message) :
  let out := trim_conversation_history messages 20 in
  out = (if (List.length messages <=? 20)%nat then messages
         else system_of messages ++ most_recent 20 (non_system_of messages))%list
  /\ system_of out = system_of messages
  /\ non_system_of out = most_recent 20 (non_system_of messages)
  /\ List.length (non_system_of out)
     = Nat.min 20 (List.length (non_system_of messages)).
Proof.
  intros out.
  assert (Hns : non_system_of out = most_recent 20 (non_system_of messages)
                /\ system_of out = system_of messages
                /\ out = (if (List.length messages <=? 20)%nat then messages
                          else system_of messages
                               ++ most_recent 20 (non_system_of messages))%list).
  { unfold out, trim_conversation_history.
    destruct (List.length messages <=? 20)%nat eqn:E.
    - apply Nat.leb_le in E. repeat split.
      unfold most_recent.
      pose proof (filter_length_le (fun msg => negb (is_system msg)) messages).
      unfold non_system_of at 2.
      replace (_ - 20)%nat with 0%nat by lia. reflexivity.
    - fold (system_of messages). fold (non_system_of messages).
      rewrite (trimmed_non_system messages 20). cbn [Nat.eqb].
      pose proof (Forall_skipn _ (List.length (non_system_of messages) - 20)
                    _ (non_system_not_system messages)) as Hrec.
      fold (most_recent 20 (non_system_of messages)) in Hrec.
      repeat split.
      + unfold non_system_of at 1. rewrite filter_app.
        rewrite (filter_none _ (system_of messages)).
        * cbn [app]. apply filter_all.
          eapply Forall_impl; [|exact Hrec]. cbn. intros a Ha. now rewrite Ha.
        * eapply Forall_impl; [|apply (Forall_filter is_system)].
          cbn. intros a Ha. now rewrite Ha.
      + unfold system_of at 1. rewrite filter_app.
        rewrite (filter_none is_system (most_recent 20 _) Hrec).
        rewrite app_nil_r. apply filter_all. apply Forall_filter. }
  destruct Hns as (H1 & H2 & H3). repeat split; try assumption.
  rewrite H1. unfold most_recent. rewrite length_skipn. lia.
Qed.

(** A thread with a system message and 25 user messages keeps the system
    message and the user messages 6 to 25. *)
Example trim_25_messages :
  trim_conversation_history Examples.long_thread 20
  = Examples.system_says "be brief"
    :: map (fun k => Examples.user_says (str_nat k)) (seq 6 20).
Proof. reflexivity. Qed.

End TrimProofs.

(* ================================================================== *)
(** * The tool dispatcher *)
(* ================================================================== *)

Module DispatcherProofs.
Import Py Json database agent Spec.

Lemma outer_handler_returns (e : exn) :
  exists r, outer_handler e = Return r /\ has_key "error" r /\ has_key "error_type" r.
Proof.
  destruct e; eexists; (split; [reflexivity | split; reflexivity]).
Qed.

Lemma invalid_request_returns (e : exn) :
  exists msg, invalid_request e = Return (error_dict msg).
Proof. destruct e; eexists; reflexivity. Qed.

Lemma get_dict (a : dict) (k : string) (default : json) :
  get (JDict a) k default
  = Return (match lookup k a with Some v => v | None => default end).
Proof. reflexivity. Qed.

(** The loop of the cart tools leaves early with one error only. *)
Lemma resolve_items_early (S : services) (d : db) (name : json)
    (its acc : list json) (early : json) :
  resolve_items S d name its acc = Return (inl early) ->
  early = error_dict "Each item must have item_name and quantity".
Proof.
  revert acc. induction its as [|item its IH]; intros acc; cbn [resolve_items].
  - discriminate.
  - destruct (get item "item_name" JNull) as [item_name|e]; [|discriminate].
    destruct (get item "quantity" JNull) as [quantity|e]; [|discriminate].
    cbn [bind]. destruct (negb (truthy item_name) || negb (truthy quantity)).
    + now intros [= <-].
    + destruct (resolve_item_name_to_id S d name item_name) as [id|e];
        [|discriminate].
      cbn [bind]. apply IH.
Qed.

(** A cart tool called with a dict never raises: it returns an [error]
    result, or what the service returned. *)
Lemma call_with_resolved_items_returns (S : services) (d : db) (a : dict)
    (finish : string -> list json -> result json) :
  exists r,
    call_with_resolved_items S d (JDict a) finish = Return r
    /\ ((exists msg, r = error_dict msg)
        \/ (exists restaurant_id resolved, finish restaurant_id resolved = Return r)).
Proof.
  unfold call_with_resolved_items. rewrite !get_dict. cbn [bind].
  destruct (negb _ || negb _).
  { eexists. split; [reflexivity|]. left. eauto. }
  destruct (resolve_restaurant_name_to_id d _) as [rid|e]; cbn [bind try_except].
  2:{ destruct (invalid_request_returns e) as [msg ->]. eexists.
      split; [reflexivity|]. left. eauto. }
  destruct (iterate _) as [its|e]; cbn [bind try_except].
  2:{ destruct (invalid_request_returns e) as [msg ->]. eexists.
      split; [reflexivity|]. left. eauto. }
  destruct (resolve_items S d _ its []) as [[early|resolved]|e] eqn:E;
    cbn [bind try_except].
  - eexists. split; [reflexivity|]. left.
    rewrite (resolve_items_early _ _ _ _ _ _ E). eauto.
  - destruct (finish rid resolved) as [r|e] eqn:F; cbn [try_except].
    + eexists. split; [reflexivity|]. right. eauto.
    + destruct (invalid_request_returns e) as [msg ->]. eexists.
      split; [reflexivity|]. left. eauto.
  - destruct (invalid_request_returns e) as [msg ->]. eexists.
    split; [reflexivity|]. left. eauto.
Qed.

Lemma execute_of_dispatch (S : services) (d : db) (name : string)
    (arguments r : json) :
  dispatch S d name arguments = Return r ->
  execute_function_call S d name arguments = Return r.
Proof. intros H. unfold execute_function_call. now rewrite H. Qed.

Lemma truthy_items_default (a : dict) :
  missing "items" a ->
  truthy (match lookup "items" a with Some v => v | None => JList [] end) = false.
Proof.
  unfold missing, arg. now destruct (lookup "items" a).
Qed.

Lemma cart_tool_dispatch (S : services) (d : db) (name : string) (arguments : json) :
  In name cart_tools ->
  exists finish,
    dispatch S d name arguments = call_with_resolved_items S d arguments finish
    /\ forall restaurant_id resolved r,
         finish restaurant_id resolved = Return r ->
         rs_build_cart S restaurant_id resolved = Return r
         \/ rs_compute_cost_estimate S restaurant_id resolved = Return r
         \/ rs_create_receipt S (receipt_args arguments restaurant_id resolved)
            = Return r.
Proof.
  intros [<- | [<- | [<- | []]]]; eexists; (split; [reflexivity|]); cbn; tauto.
Qed.

(** C3, as stated, fails on the shape of the result: an exception that the
    service layer raises under a cart tool, and the not-found error of the
    name resolver, become a result with [error] alone, without
    [error_type]. *)
Lemma cart_tool_error_has_no_type :
  execute_function_call Examples.failing_services Examples.flyer_db
    "build_cart" Examples.one_burger
  = Return (error_dict "Invalid request parameters: 503: catalog unavailable")
  /\ execute_function_call Examples.failing_services Examples.flyer_db
       "build_cart"
       (JDict [("restaurant_name", JStr "pizza"); ("items", JList [JInt 1])])
     = Return (error_dict "Restaurant 'pizza' not found")
  /\ forall msg, ~ has_key "error_type" (error_dict msg).
Proof.
  split; [reflexivity|]. split; [reflexivity|]. intros msg H. discriminate H.
Qed.

(** C3 (amended): the dispatcher never raises, whatever the tool name, the
    arguments and the behaviour of the operations it calls.  An unknown name
    gives the error "Unknown function: <name>".  A call whose required
    argument is missing gives a result with [error] alone.  An exception that
    reaches the outer handler gives a result with [error] and [error_type];
    under the three cart tools every exception is caught before, and the
    result is one with [error] alone or what the service returned; so is an
    exception of the validation of [create_delivery]. *)
Theorem dispatcher_never_raises (S : services) (d : db) (function_name : string)
    (arguments : json) :
  let outcome := execute_function_call S d function_name arguments in
  (exists r, outcome = Return r)
  /\ (existsb (String.eqb function_name) tool_names = false ->
      outcome = Return (error_dict ("Unknown function: " ++ function_name)))
  /\ (forall e, dispatch S d function_name arguments = Raise e ->
      exists r, outcome = Return r /\ has_key "error" r /\ has_key "error_type" r)
  /\ (forall a, arguments = JDict a ->
      (function_name = "get_restaurant_menu" -> missing "restaurant_name" a ->
       outcome = Return (error_dict "restaurant_name is required"))
      /\ (function_name = "get_menu_item" ->
          missing "restaurant_name" a \/ missing "item_name" a ->
          outcome = Return (error_dict "restaurant_name and item_name are required"))
      /\ (In function_name cart_tools ->
          missing "restaurant_name" a \/ missing "items" a ->
          outcome = Return (error_dict "restaurant_name and items are required"))
      /\ (function_name = "track_delivery" -> missing "external_delivery_id" a ->
          outcome = Return (error_dict "external_delivery_id is required"))
      /\ (In function_name cart_tools ->
          exists r, outcome = Return r
            /\ ((exists msg, r = error_dict msg)
                \/ exists restaurant_id resolved,
                     rs_build_cart S restaurant_id resolved = Return r
                     \/ rs_compute_cost_estimate S restaurant_id resolved = Return r
                     \/ rs_create_receipt S
                          (receipt_args arguments restaurant_id resolved)
                        = Return r)))
  /\ (function_name = "create_delivery" ->
      forall e, DoorDashCreateDeliveryRequest S arguments = Raise e ->
      outcome = Return (error_dict ("Invalid request parameters: " ++ exn_text e))).
Proof.
  intros outcome. subst outcome. unfold execute_function_call.
  split; [|split; [|split; [|split]]].
  - destruct (dispatch S d function_name arguments) as [r|e]; cbn [try_except].
    + now exists r.
    + destruct (outer_handler_returns e) as (r & -> & _). now exists r.
  - intros H. cbn [existsb tool_names] in H.
    repeat (apply orb_false_iff in H; destruct H as [?E H]).
    unfold dispatch. now rewrite E, E0, E1, E2, E3, E4, E5, E6.
  - intros e ->. cbn [try_except]. apply outer_handler_returns.
  - intros a ->. split; [|split; [|split; [|split]]].
    + intros -> Hm. cbn [dispatch String.eqb Ascii.eqb Bool.eqb].
      unfold call_get_restaurant_menu. rewrite get_dict. cbn [bind].
      unfold missing, arg in Hm. now rewrite Hm.
    + intros -> Hm. cbn [dispatch String.eqb Ascii.eqb Bool.eqb].
      unfold call_get_menu_item. rewrite !get_dict. cbn [bind].
      unfold missing, arg in Hm.
      destruct Hm as [Hm | Hm]; rewrite Hm; cbn [negb orb];
        [reflexivity | now rewrite orb_true_r].
    + intros Hin Hm.
      destruct (cart_tool_dispatch S d function_name (JDict a) Hin)
        as (finish & -> & _).
      unfold call_with_resolved_items. rewrite !get_dict. cbn [bind].
      destruct Hm as [Hm | Hm].
      * unfold missing, arg in Hm. now rewrite Hm.
      * rewrite (truthy_items_default a Hm). cbn [negb]. now rewrite orb_true_r.
    + intros -> Hm. cbn [dispatch String.eqb Ascii.eqb Bool.eqb].
      unfold call_track_delivery. rewrite get_dict. cbn [bind].
      unfold missing, arg in Hm. now rewrite Hm.
    + intros Hin.
      destruct (cart_tool_dispatch S d function_name (JDict a) Hin)
        as (finish & -> & Hfinish).
      destruct (call_with_resolved_items_returns S d a finish)
        as (r & -> & [Hr | (rid & resolved & Hr)]).
      * exists r. split; [reflexivity | now left].
      * exists r. split; [reflexivity|]. right. exists rid, resolved.
        now apply Hfinish.
  - intros -> e He. cbn [dispatch String.eqb Ascii.eqb Bool.eqb].
    unfold call_create_delivery. now rewrite He.
Qed.

Lemma dispatcher_never_raises_witness :
  execute_function_call Examples.failing_services Examples.flyer_db
    "get_restaurant_menu" (JDict [])
  = Return (error_dict "restaurant_name is required")
  /\ execute_function_call Examples.failing_services Examples.flyer_db
       "order_pizza" (JDict [])
     = Return (error_dict "Unknown function: order_pizza")
  /\ exists r,
       execute_function_call Examples.failing_services Examples.flyer_db
         "list_restaurants" (JDict []) = Return r
       /\ has_key "error" r /\ has_key "error_type" r.
Proof.
  split; [|split].
  - destruct (dispatcher_never_raises Examples.failing_services
                Examples.flyer_db "get_restaurant_menu" (JDict []))
      as (_ & _ & _ & Hd & _).
    destruct (Hd [] eq_refl) as (Hmenu & _). exact (Hmenu eq_refl eq_refl).
  - destruct (dispatcher_never_raises Examples.failing_services
                Examples.flyer_db "order_pizza" (JDict []))
      as (_ & Hu & _).
    exact (Hu eq_refl).
  - destruct (dispatcher_never_raises Examples.failing_services
                Examples.flyer_db "list_restaurants" (JDict []))
      as (_ & _ & He & _).
    exact (He Examples.unavailable eq_refl).
Defined.

End DispatcherProofs.

(* ================================================================== *)
(** * The orchestration loop *)
(* ================================================================== *)

Module LoopProofs.
Import Py Json database agent Spec.

(** ** The loop *)

(** One turn in which the model answers without tool calls ends the loop
    with the text of the answer. *)
Lemma chat_loop_text (R : runtime) (S : services) (d : db) (remaining : nat)
    (msgs : list message) (calls : nat) (reply : assistant_message) :
  chat_completions_create R (map api_message msgs) = Return reply ->
  am_tool_calls reply = [] ->
  chat_loop R S d (Datatypes.S remaining) msgs calls
  = (Return {| final_response := text_or_empty (am_content reply);
               messages := (msgs ++ [message_of_reply reply])%list;
               exhausted := false |},
     Datatypes.S calls).
Proof.
  intros Hreply Htools. cbn [chat_loop]. rewrite Hreply, Htools.
  unfold message_of_reply. now rewrite Htools.
Qed.


(** ** The fallback *)








(** ** The endpoint *)

(** The run of a model that always asks for another tool call stops at the
    iteration cap, and the request is answered with the apology. *)
Example insistent_model_stops :
  snd (chat_loop Examples.insistent_runtime Examples.failing_services
         Examples.flyer_db max_iterations
         [system_message; Examples.user_says "hello"] 0) = 10%nat
  /\ fst (agent_chat Examples.insistent_runtime Examples.failing_services
            Examples.flyer_db [] Examples.hello)
     = Return {| response := apology;
                 response_thread_id := "thread_0123456789ab" |}.
Proof. split; vm_compute; reflexivity. Qed.

(** A model that answers with text ends the loop after one call. *)
Example chat_with_text :
  fst (agent_chat Examples.talkative_runtime Examples.failing_services
         Examples.flyer_db [] Examples.hello)
  = Return {| response := "Here is the menu.";
              response_thread_id := "thread_0123456789ab" |}.
Proof. reflexivity. Qed.

End LoopProofs.

(* ================================================================== *)
(** * Properties of the validators and the catalog lookups *)
(* ================================================================== *)

Module CatalogProofs.
Import Py Json database restaurant_service agent Spec Behaviour.

Lemma ratings_of_text (s : string) (w : pyval) :
  models.parse_number_of_ratings (PStr s) = Return w ->
  (exists n, w = PInt n) \/ w = PStr s.
Proof.
  unfold models.parse_number_of_ratings.
  set (digits_only := match search_digits (strip "()" s) with
                      | Some g => Return (PInt (int_of_digits g))
                      | None => Return (PStr s)
                      end).
  assert (Hd : digits_only = Return w -> (exists n, w = PInt n) \/ w = PStr s).
  { unfold digits_only. destruct (search_digits _); intros H; inversion H; eauto. }
  destruct (contains _ _); [|exact Hd].
  destruct (search_decimal _); [|exact Hd].
  destruct (int_of_float _); cbn; intros H; inversion H; eauto.
Qed.

(** X1.  Every field validator of the response models gives, on a value it
    has produced, that value again: a response that is validated a second
    time (the endpoints build the response model from the dict of the model
    the service built) is not changed by it. *)
Theorem validators_are_idempotent (v : pyval) (str_of : pyval -> string) :
  models.parse_delivery_fee (models.parse_delivery_fee v)
  = models.parse_delivery_fee v
  /\ models.parse_eta (models.parse_eta v) = models.parse_eta v
  /\ (w <- models.parse_number_of_ratings v ;;
      models.parse_number_of_ratings w)%py
     = models.parse_number_of_ratings v
  /\ models.parse_price_range (models.parse_price_range v str_of) str_of
     = models.parse_price_range v str_of
  /\ models.parse_price (models.parse_price v) = models.parse_price v.
Proof.
  split; [|split; [|split; [|split]]].
  - destruct v as [| b | n | f | s |]; try reflexivity.
    cbn. destruct (search_dollar_decimal s) eqn:E; cbn; [reflexivity|].
    now rewrite E.
  - destruct v as [| b | n | f | s |]; try reflexivity.
    cbn. destruct (search_minutes s) eqn:E; cbn; [reflexivity|].
    now rewrite E.
  - destruct v as [| b | n | f | s |]; try reflexivity.
    destruct (models.parse_number_of_ratings (PStr s)) as [w|e] eqn:E;
      [|reflexivity].
    cbn [bind].
    destruct (ratings_of_text s w E) as [[n ->] | ->]; [reflexivity|exact E].
  - destruct v as [| b | n | f | s |]; reflexivity.
  - destruct v as [| b | n | f | s |]; try reflexivity.
    cbn. destruct (search_decimal s) eqn:E; cbn; [reflexivity|].
    now rewrite E.
Qed.

(** X2.  The price the cart charges is the number the menu shows, and the
    fee the cart charges is the number the restaurant list shows; where the
    list shows no number (nothing, or a text without digits) the cart
    charges nothing. *)
Theorem charged_amount_is_listed_amount (v : pyval) :
  restaurant_service.parse_price v
  = match models.parse_price v with
    | PFloat f => f
    | _ => 0%float
    end
  /\ restaurant_service.parse_delivery_fee v
     = match models.parse_delivery_fee v with
       | PFloat f => f
       | _ => 0%float
       end.
Proof.
  split; destruct v as [| b | n | f | s |]; try reflexivity; cbn.
  - now destruct (search_decimal s).
  - now destruct (search_dollar_decimal s).
Qed.


Lemma filter_one_id (docs : list item_doc) (k : string) :
  NoDup (map i_id docs) ->
  filter (fun it => existsb (String.eqb (i_id it)) [k]) docs
  = match find (fun it => String.eqb (i_id it) k) docs with
    | Some it => [it]
    | None => []
    end.
Proof.
  rewrite (filter_ext _ (fun it => String.eqb (i_id it) k))
    by (intros it; cbn; apply orb_false_r).
  induction docs as [|x docs IH]; intros Hn; [reflexivity|].
  inversion Hn as [|? ? Hx Hn']; subst. cbn [filter find].
  destruct (String.eqb (i_id x) k) eqn:E.
  - f_equal. apply String.eqb_eq in E.
    rewrite IH by assumption.
    destruct (find _ docs) as [y|] eqn:F; [|reflexivity].
    exfalso. apply Hx. apply find_some in F. destruct F as [Hin Hy].
    apply String.eqb_eq in Hy. rewrite E, <- Hy. now apply in_map.
  - now apply IH.
Qed.

(** X4.  Where no two stored items share an identifier, asking for one item
    by its identifier and asking for the items of a one-element list of
    identifiers find the same document, and an identifier that is not a
    valid ObjectId finds nothing either way. *)
Theorem one_item_by_id (d : db) (id : string) :
  NoDup (map i_id (database.items d)) ->
  get_items_by_ids d [id]
  = match get_item_by_id d id with
    | Some it => [it]
    | None => []
    end.
Proof.
  intros Hn. unfold get_items_by_ids, get_item_by_id. cbn [ObjectIds].
  destruct (ObjectId id) as [oid|]; [|reflexivity].
  now apply filter_one_id.
Qed.

Lemma one_item_by_id_witness :
  get_items_by_ids Examples.flyer_db [Examples.id_item_b] = [Examples.item_b]
  /\ get_items_by_ids Examples.flyer_db ["fries"] = [].
Proof.
  split.
  - rewrite (one_item_by_id Examples.flyer_db Examples.id_item_b); [reflexivity|].
    repeat constructor; cbn; intuition discriminate.
  - rewrite (one_item_by_id Examples.flyer_db "fries"); [reflexivity|].
    repeat constructor; cbn; intuition discriminate.
Defined.

Lemma prefixb_refl (s : string) : prefixb s s = true.
Proof. induction s as [|c s IH]; cbn; [reflexivity|]. now rewrite Ascii.eqb_refl. Qed.

Lemma contains_refl (s : string) : contains s s = true.
Proof. destruct s; cbn; [reflexivity|]. now rewrite Ascii.eqb_refl, prefixb_refl. Qed.

Lemma item_exact_partial (name : string) (it : item_doc) :
  item_regex_exact name it = true -> item_regex_partial name it = true.
Proof.
  unfold item_regex_exact, item_regex_partial.
  destruct (i_name it) as [n|]; [|discriminate].
  intros H. apply String.eqb_eq in H. rewrite H. apply contains_refl.
Qed.

Lemma find_item_in_sound (d : db) (scope : item_doc -> bool) (name : string)
    (it : item_doc) :
  find_item_in d scope name = Some it ->
  In it (filter scope (database.items d)) /\ item_regex_partial name it = true.
Proof.
  unfold find_item_in.
  destruct (find (fun x => item_regex_exact name x && scope x) (database.items d))
    as [x|] eqn:F.
  - intros H; inversion H; subst x. apply find_some in F. destruct F as [Hin Hb].
    apply andb_prop in Hb. destruct Hb as [Hn Hs]. split.
    + apply filter_In. now split.
    + now apply item_exact_partial.
  - intros H. apply find_some in H. destruct H as [Hin Hb].
    apply andb_prop in Hb. destruct Hb as [Hn Hs]. split; [|exact Hn].
    apply filter_In. now split.
Qed.

(** X5.  The menu of a restaurant and the search for an item by name look
    at the same items: an unknown restaurant has an empty menu, every item of
    a menu is a stored item, and an item found by name in a restaurant is on
    the menu of that restaurant and has the name looked for in its name. *)
Theorem named_item_is_on_the_menu (d : db) (rid : string) :
  (get_restaurant_by_id d rid = None -> get_menu_items d rid = [])
  /\ (forall it, In it (get_menu_items d rid) -> In it (database.items d))
  /\ (forall name it,
        get_item_by_name d rid name = Some it ->
        In it (get_menu_items d rid) /\ item_regex_partial name it = true).
Proof.
  unfold get_restaurant_by_id, get_menu_items, get_item_by_name.
  destruct (ObjectId rid) as [oid|].
  2:{ split; [reflexivity|]. split; [intros it []|discriminate]. }
  destruct (find _ (restaurants d)) as [r|].
  2:{ split; [reflexivity|]. split; [intros it []|discriminate]. }
  split; [discriminate|].
  destruct (r_items r) as [|i0 ids].
  - destruct (r_store_id r) as [[|c sid]|].
    + split; [intros it []|discriminate].
    + split; [intros it H; now apply filter_In in H|].
      intros name it H. now apply find_item_in_sound in H.
    + split; [intros it []|discriminate].
  - split; [intros it H; now apply filter_In in H|].
    intros name it H. now apply find_item_in_sound in H.
Qed.

End CatalogProofs.

(* ================================================================== *)
(** * From the names of an order to its cart *)
(* ================================================================== *)

Module ResolutionProofs.
Import Py Json database restaurant_service agent Spec Behaviour.

Lemma resolved_restaurant (d : db) (name : json) (rid : string) :
  resolve_restaurant_name_to_id d name = Return rid ->
  exists q r, name = JStr q /\ get_restaurant_by_name d q = Some r
              /\ r_id r = rid /\ In r (restaurants d).
Proof.
  destruct name as [| | | | q | |]; try discriminate. cbn.
  destruct (get_restaurant_by_name d q) as [r|] eqn:E; [|discriminate].
  intros H; inversion H; subst. exists q, r.
  split; [reflexivity|]. split; [exact E|]. split; [reflexivity|].
  unfold get_restaurant_by_name in E.
  destruct (find (name_regex_exact q) (restaurants d)) as [r'|] eqn:F.
  - inversion E; subst. apply find_some in F. apply F.
  - apply find_some in E. apply E.
Qed.

Lemma restaurant_found_by_id (d : db) (r : restaurant_doc) :
  wf_restaurants d -> In r (restaurants d) ->
  exists r', get_restaurant_by_id d (r_id r) = Some r' /\ r_id r' = r_id r.
Proof.
  intros Hwf Hin. unfold get_restaurant_by_id.
  unfold wf_restaurants in Hwf. rewrite Forall_forall in Hwf.
  rewrite (Hwf r Hin).
  destruct (find _ (restaurants d)) as [r'|] eqn:F.
  - exists r'. split; [reflexivity|]. apply find_some in F.
    now apply String.eqb_eq.
  - apply (find_none _ _ F) in Hin. cbn in Hin.
    now rewrite String.eqb_refl in Hin.
Qed.

Lemma resolved_item (S : services) (d : db) (rname iname : json) (iid : string) :
  resolve_item_name_to_id S d rname iname = Return iid ->
  exists rid q it,
    resolve_restaurant_name_to_id d rname = Return rid
    /\ iname = JStr q
    /\ get_item_by_name d rid q = Some it
    /\ i_id it = iid.
Proof.
  destruct rname as [| | | | n | |]; try discriminate. cbn.
  destruct (get_restaurant_by_name d n) as [r|]; [|discriminate].
  destruct iname as [| | | | q | |]; try discriminate.
  destruct (get_item_by_name d (r_id r) q) as [it|] eqn:E; [|discriminate].
  intros H; inversion H; subst. now exists (r_id r), q, it.
Qed.

Lemma item_by_name_stored (d : db) (rid q : string) (it : item_doc) :
  get_item_by_name d rid q = Some it -> In it (database.items d).
Proof.
  unfold get_item_by_name, find_item_in.
  destruct (ObjectId rid); [|discriminate].
  destruct (find _ (restaurants d)) as [r|]; [|discriminate].
  assert (Hf : forall scope,
    match find (fun x => item_regex_exact q x && scope x) (database.items d) with
    | Some x => Some x
    | None => find (fun x => item_regex_partial q x && scope x) (database.items d)
    end = Some it -> In it (database.items d)).
  { intros scope. destruct (find _ _) as [x|] eqn:F.
    - intros H; inversion H; subst. apply find_some in F. apply F.
    - intros H. apply find_some in H. apply H. }
  destruct (r_items r); [|apply Hf].
  destruct (r_store_id r) as [[|c sid]|]; try discriminate. apply Hf.
Qed.

Lemma resolved_items_stored (S : services) (d : db) (rname : json)
    (inames : list json) :
  forall ids,
  map_result (resolve_item_name_to_id S d rname) inames = Return ids ->
  List.length ids = List.length inames
  /\ forall id, In id ids ->
       exists it, In it (database.items d) /\ i_id it = id.
Proof.
  induction inames as [|n inames IH]; intros ids H.
  - inversion H; subst. split; [reflexivity|intros id []].
  - cbn in H.
    destruct (resolve_item_name_to_id S d rname n) as [iid|] eqn:E;
      [|discriminate].
    cbn in H. destruct (map_result _ inames) as [rest|]; [|discriminate].
    cbn in H. inversion H; subst ids.
    destruct (IH rest eq_refl) as [Hl Hi]. split; [cbn; now rewrite Hl|].
    intros id [<- | Hin]; [|now apply Hi].
    destruct (resolved_item S d rname n iid E) as (rid & q & it & _ & _ & Hg & Hid).
    exists it. split; [|exact Hid]. now apply item_by_name_stored in Hg.
Qed.

Lemma order_lines_ids (ids : list string) :
  forall quantities,
  List.length quantities = List.length ids ->
  map item_id (order_lines ids quantities) = ids.
Proof.
  unfold order_lines.
  induction ids as [|i ids IH]; intros [|q qs] H; try discriminate;
    [reflexivity|].
  cbn. f_equal. apply IH. now inversion H.
Qed.

Lemma order_lines_in (ids : list string) (quantities : list Z) (ci : CartItem) :
  In ci (order_lines ids quantities) ->
  In (item_id ci) ids /\ In (quantity ci) quantities.
Proof.
  unfold order_lines. intros H. apply in_map_iff in H.
  destruct H as ([i q] & <- & Hin). cbn.
  split; [now apply in_combine_l in Hin|now apply in_combine_r in Hin].
Qed.

(** X6.  What the name resolution hands to the cart operation is accepted
    by it.  In a store whose identifiers are canonical ObjectIds and whose
    items have distinct identifiers, when the restaurant name and every item
    name of an order resolve, to different items, and every quantity is one
    that [float] takes, the cart of the resolved identifiers is built: the
    restaurant is found, every item is found, and the cart has one line for
    each item, in the order of the request. *)
Theorem resolved_order_is_priced (S : services) (d : db) (rname : json)
    (inames : list json) (quantities : list Z) (rid : string)
    (ids : list string) :
  wf_restaurants d -> wf_catalog d ->
  resolve_restaurant_name_to_id d rname = Return rid ->
  map_result (resolve_item_name_to_id S d rname) inames = Return ids ->
  NoDup ids ->
  List.length quantities = List.length inames ->
  Forall quantity_ok quantities ->
  (exists r, get_restaurant_by_id d rid = Some r /\ r_id r = rid)
  /\ (forall id, In id ids -> in_catalog d id = true)
  /\ exists cart,
       build_cart d {| restaurant_id := rid;
                       items := order_lines ids quantities |}
       = Return cart.
Proof.
  intros Hwr Hwf Hr Hi Hnd Hlen Hq.
  destruct (resolved_restaurant d rname rid Hr) as (q & r & _ & _ & Hid & Hin).
  destruct (restaurant_found_by_id d r Hwr Hin) as (r' & Hg & Hid').
  rewrite Hid in Hg, Hid'.
  destruct (resolved_items_stored S d rname inames ids Hi) as [Hl Hex].
  split; [now exists r'|]. split.
  { intros id Hid0. destruct (Hex id Hid0) as (it & Hit & <-).
    unfold in_catalog. destruct Hwf as [_ Hc]. rewrite Forall_forall in Hc.
    rewrite (Hc it Hit). apply existsb_exists. exists it. split; [exact Hit|].
    apply String.eqb_refl. }
  assert (Hids : map item_id (order_lines ids quantities) = ids).
  { apply order_lines_ids. now rewrite Hl. }
  destruct (ServiceProofs.get_items_by_ids_all d ids Hwf Hnd Hex) as [Hlen' Hall].
  set (data := get_items_by_ids d ids) in *.
  assert (Hsub : forall it, In it data -> In it (database.items d)).
  { intros it Hit. unfold data, get_items_by_ids in Hit.
    destruct (ObjectIds _); [|contradiction].
    now apply filter_In in Hit. }
  destruct (ServiceProofs.price_items_ok d data (order_lines ids quantities) []
              0%float (proj1 Hwf) Hsub) as [ls Hls].
  { intros ci Hci. apply order_lines_in in Hci. destruct Hci as [Hci Hcq].
    split.
    - destruct (Hex _ Hci) as (it & Hit & Hii). exists it. split; [|exact Hii].
      apply Hall; [exact Hit|]. now rewrite Hii.
    - rewrite Forall_forall in Hq. now apply Hq. }
  unfold build_cart. cbn [restaurant_id restaurant_service.items].
  rewrite Hg, Hids. fold data. rewrite Hlen', Nat.eqb_refl. cbn [negb].
  rewrite Hls. cbn [bind]. eexists. reflexivity.
Qed.

Lemma resolved_order_is_priced_witness :
  exists cart,
    build_cart Examples.flyer_db
      {| restaurant_id := Examples.id_restaurant;
         items := order_lines [Examples.id_item_b; Examples.id_item_a] [2; 1] |}
    = Return cart.
Proof.
  apply (resolved_order_is_priced Examples.failing_services Examples.flyer_db
           (JStr "flyer") [JStr "fries"; JStr "BURGER"] [2; 1]
           Examples.id_restaurant [Examples.id_item_b; Examples.id_item_a]).
  - repeat constructor.
  - split.
    + repeat constructor; simpl; intuition discriminate.
    + repeat constructor.
  - reflexivity.
  - reflexivity.
  - repeat constructor; simpl; intuition discriminate.
  - reflexivity.
  - repeat constructor; now vm_compute.
Defined.

End ResolutionProofs.

(* ================================================================== *)
(** * Carts, estimates, receipts and their endpoints *)
(* ================================================================== *)

Module CartProofs.
Import Py Json database restaurant_service agent Spec Behaviour.

Lemma items_map_get_sound (data : list item_doc) (k : string) (it : item_doc) :
  items_map_get data k = Some it -> In it data /\ i_id it = k.
Proof.
  unfold items_map_get. intros H. apply find_some in H. destruct H as [Hin Hk].
  split; [now apply in_rev|now apply String.eqb_eq].
Qed.

Lemma float_of_int_value (q : Z) (f : float) :
  float_of_int q = Return f -> f = float_of_Z q.
Proof.
  unfold float_of_int. destruct (Z.abs q <? _); intros H; now inversion H.
Qed.


Lemma price_items_lines (d : db) (data : list item_doc) (lines : list CartItem) :
  (forall it, In it data -> In it (database.items d)) ->
  forall acc subtotal ls total,
  price_items data lines acc subtotal = Return (ls, total) ->
  exists new,
    ls = (acc ++ new)%list
    /\ Forall2 (line_for d) lines new
    /\ total = fold_left (fun a line => (a + d_subtotal line)%float) new subtotal.
Proof.
  intros Hsub. induction lines as [|ci lines IH]; intros acc subtotal ls total H.
  - cbn in H. inversion H; subst. exists []. rewrite app_nil_r.
    repeat split. constructor.
  - cbn in H.
    destruct (items_map_get data (item_id ci)) as [it|] eqn:G; [|discriminate].
    destruct (float_of_int (quantity ci)) as [q|] eqn:Q; [|discriminate].
    cbn in H. apply IH in H. destruct H as (new & -> & Hl & ->).
    apply float_of_int_value in Q. subst q.
    apply items_map_get_sound in G. destruct G as [Hin Hid].
    eexists (_ :: new). rewrite <- app_assoc. split; [reflexivity|].
    split; [|reflexivity].
    constructor; [|exact Hl].
    unfold line_for; cbn. repeat split.
    exists it. repeat split; auto.
Qed.

Lemma items_by_ids_stored (d : db) (ids : list string) (it : item_doc) :
  In it (get_items_by_ids d ids) -> In it (database.items d).
Proof.
  unfold get_items_by_ids. destruct (ObjectIds ids); [|contradiction].
  intros H. now apply filter_In in H.
Qed.

(** X7.  A cart lists the lines of the request, one priced line for each, in
    the same order and with the same quantities, each with the name and the
    parsed price of the stored item; its subtotal is the sum of the line
    subtotals rounded to cents, and its total the rounded sum of that
    unrounded subtotal and the fee of the restaurant. *)
Theorem cart_lines_follow_request (d : db) (request : CartRequest)
    (cart : CartResponse) :
  build_cart d request = Return cart ->
  cart_restaurant_id cart = restaurant_id request
  /\ Forall2 (line_for d) (items request) (cart_items cart)
  /\ cart_subtotal cart = round2 (sum_of_lines (cart_items cart))
  /\ exists restaurant,
       get_restaurant_by_id d (restaurant_id request) = Some restaurant
       /\ cart_restaurant_name cart = r_name restaurant
       /\ cart_total cart
          = round2 (sum_of_lines (cart_items cart)
                    + parse_delivery_fee (r_delivery_fee restaurant))%float.
Proof.
  unfold build_cart.
  destruct (get_restaurant_by_id d (restaurant_id request)) as [r|];
    [|discriminate].
  destruct (negb _); [discriminate|].
  destruct (price_items _ _ _ _) as [[ls total]|e] eqn:P; [|discriminate].
  cbn. intros H; inversion H; subst cart; cbn.
  apply (price_items_lines d) in P; [|apply items_by_ids_stored].
  destruct P as (new & -> & Hl & ->). cbn.
  split; [reflexivity|]. split; [exact Hl|]. split; [reflexivity|].
  exists r. repeat split.
Qed.

Lemma cart_lines_follow_request_witness :
  exists cart,
    build_cart Examples.flyer_db Examples.cart_request = Return cart
    /\ Forall2 (line_for Examples.flyer_db) Examples.two_lines (cart_items cart)
    /\ cart_subtotal cart = round2 (sum_of_lines (cart_items cart)).
Proof.
  destruct (build_cart Examples.flyer_db Examples.cart_request) as [cart|e] eqn:E;
    [|vm_compute in E; discriminate].
  exists cart. split; [reflexivity|].
  destruct (cart_lines_follow_request Examples.flyer_db Examples.cart_request
              cart E) as (_ & Hl & Hs & _).
  split; [exact Hl|exact Hs].
Defined.









End CartProofs.

(* ================================================================== *)
(** * Looking up receipts *)
(* ================================================================== *)

Module LedgerProofs.
Import Py Json database restaurant_service agent Spec Behaviour.

Lemma find_receipt_last (l : list receipt_doc) (x : receipt_doc) :
  ~ In (rc_receipt_id x) (map rc_receipt_id l) ->
  find (fun r => String.eqb (rc_receipt_id r) (rc_receipt_id x)) (l ++ [x])
  = Some x.
Proof.
  induction l as [|y l IH]; intros Hn; cbn.
  - now rewrite String.eqb_refl.
  - destruct (String.eqb (rc_receipt_id y) (rc_receipt_id x)) eqn:E.
    + exfalso. apply Hn. left. now apply String.eqb_eq.
    + apply IH. intros H. apply Hn. now right.
Qed.

Lemma find_receipt_earlier (l : list receipt_doc) (x r : receipt_doc)
    (id : string) :
  find (fun r => String.eqb (rc_receipt_id r) id) l = Some r ->
  find (fun r => String.eqb (rc_receipt_id r) id) (l ++ [x]) = Some r.
Proof.
  induction l as [|y l IH]; cbn; [discriminate|].
  destruct (String.eqb (rc_receipt_id y) id); [easy|exact IH].
Qed.

Lemma NoDup_snoc_fresh (l : list string) (x : string) :
  NoDup (l ++ [x]) -> ~ In x l.
Proof.
  intros H Hin. apply NoDup_remove_2 in H. apply H. rewrite app_nil_r. exact Hin.
Qed.

(** X10.  A receipt that was created is found again by its identifier.  In a
    store whose receipts were all created by this service, after a receipt
    is created the lookup by its identifier gives that receipt; before, the
    identifier was not in use; every receipt that was found before is found as
    before; and the restaurants and the items are not touched. *)
Theorem created_receipt_is_found (env : receipt_env) (d : db)
    (req : CreateReceiptRequest) (log : list (string * string))
    (resp : ReceiptResponse) :
  store_matches d log ->
  is_Ymd (env_date_str env) ->
  fst (create_receipt env d req) = Return resp ->
  let d' := snd (create_receipt env d req) in
  let id := rc_receipt_id (resp_receipt resp) in
  get_receipt_by_receipt_id d' id = Some (resp_receipt resp)
  /\ get_receipt_by_receipt_id d id = None
  /\ (forall id0 r, get_receipt_by_receipt_id d id0 = Some r ->
                    get_receipt_by_receipt_id d' id0 = Some r)
  /\ restaurants d' = restaurants d
  /\ database.items d' = database.items d.
Proof.
  intros Hm Hd Hr. cbv zeta.
  pose proof (ReceiptProofs.create_receipt_step env d req log Hm Hd) as Hstep.
  destruct (ServiceProofs.create_receipt_inv' env d req resp Hr) as [_ Hd'].
  rewrite Hd'. destruct (create_receipt env d req) as [o d''].
  cbn in Hr, Hd'. subst o d''.
  destruct Hstep as [Hids Hlog]. cbn in Hids.
  apply ReceiptProofs.log_ok_NoDup in Hlog.
  rewrite map_app in Hlog, Hids. cbn in Hlog.
  apply NoDup_snoc_fresh in Hlog.
  destruct Hm as [Hm _]. rewrite <- Hm in Hlog.
  unfold get_receipt_by_receipt_id. cbn.
  split; [now apply find_receipt_last|]. split.
  { destruct (find _ (receipts d)) as [r|] eqn:F; [|reflexivity].
    exfalso. apply Hlog. apply find_some in F. destruct F as [Hin He].
    apply String.eqb_eq in He. rewrite <- He. now apply in_map. }
  split; [|now split].
  intros id0 r. apply find_receipt_earlier.
Qed.

Lemma created_receipt_is_found_witness :
  exists resp,
    fst (create_receipt (Examples.env_of "20261104") Examples.flyer_db
           (Examples.receipt_request Examples.two_lines)) = Return resp
    /\ get_receipt_by_receipt_id
         (snd (create_receipt (Examples.env_of "20261104") Examples.flyer_db
                 (Examples.receipt_request Examples.two_lines)))
         "RCP-20261104-001" = Some (resp_receipt resp).
Proof.
  destruct (fst (create_receipt (Examples.env_of "20261104") Examples.flyer_db
                   (Examples.receipt_request Examples.two_lines)))
    as [resp|e] eqn:E; [|vm_compute in E; discriminate].
  exists resp. split; [reflexivity|].
  assert (Hid : rc_receipt_id (resp_receipt resp) = "RCP-20261104-001").
  { vm_compute in E. inversion E. reflexivity. }
  rewrite <- Hid.
  refine (proj1 (created_receipt_is_found (Examples.env_of "20261104")
                   Examples.flyer_db
                   (Examples.receipt_request Examples.two_lines) [] resp
                   _ _ E)).
  - split; [reflexivity|]. intros k date id H. now destruct k.
  - split; reflexivity.
Defined.

End LedgerProofs.

(* ================================================================== *)
(** * Truncation and trimming *)
(* ================================================================== *)

Module HistoryProofs.
Import Py Json database restaurant_service agent Spec Behaviour.

Lemma length_app_string (a b : string) :
  String.length (a ++ b) = (String.length a + String.length b)%nat.
Proof. induction a as [|c a IH]; cbn; [reflexivity|]. now rewrite IH. Qed.

Lemma length_head (n : nat) :
  forall s, String.length (substring 0 n s) = Nat.min n (String.length s).
Proof.
  induction n as [|n IH]; intros [|c s]; cbn; try reflexivity.
  now rewrite IH.
Qed.

Lemma head_of_app (n : nat) :
  forall s t, (n <= String.length s)%nat ->
  substring 0 n (s ++ t) = substring 0 n s.
Proof.
  induction n as [|n IH]; intros [|c s] t H; cbn in *; try reflexivity.
  - now destruct t.
  - lia.
  - f_equal. apply IH. lia.
Qed.

Lemma head_of_head (n : nat) :
  forall s, substring 0 n (substring 0 n s) = substring 0 n s.
Proof.
  induction n as [|n IH]; intros [|c s]; cbn; try reflexivity.
  now rewrite IH.
Qed.

Lemma truncate_length (content : string) (max_length : nat) :
  (String.length (truncate_large_content content max_length) <= max_length + 38)%nat.
Proof.
  unfold truncate_large_content.
  destruct (max_length <? String.length content)%nat eqn:E.
  - rewrite length_app_string, length_head. cbn [String.length]. lia.
  - apply Nat.ltb_ge in E. lia.
Qed.

(** X11.  Truncation of a tool result keeps a content that is not longer
    than the limit as it is; a longer one keeps its first [max_length]
    characters and ends with the marker, so the result is never more than 38
    characters over the limit; and truncating what has been truncated
    changes nothing. *)
Theorem truncation_is_bounded (content : string) (max_length : nat) :
  let out := truncate_large_content content max_length in
  (String.length out <= max_length + 38)%nat
  /\ ((String.length content <= max_length)%nat -> out = content)
  /\ substring 0 max_length out = substring 0 max_length content
  /\ truncate_large_content out max_length = out.
Proof.
  cbv zeta. unfold truncate_large_content.
  destruct (max_length <? String.length content)%nat eqn:E.
  - apply Nat.ltb_lt in E.
    assert (Hl : String.length (substring 0 max_length content) = max_length).
    { rewrite length_head. lia. }
    set (marker := String "010" (String "010" "[Content truncated due to length...]")).
    assert (Hm : String.length marker = 38%nat) by reflexivity.
    assert (Hout : String.length (substring 0 max_length content ++ marker)
                   = (max_length + 38)%nat).
    { now rewrite length_app_string, Hl, Hm. }
    split; [lia|]. split; [lia|]. split.
    + rewrite head_of_app by lia. apply head_of_head.
    + rewrite Hout.
      replace (max_length <? max_length + 38)%nat with true
        by (symmetry; apply Nat.ltb_lt; lia).
      f_equal. rewrite head_of_app by lia. apply head_of_head.
  - apply Nat.ltb_ge in E. split; [lia|]. split; [reflexivity|].
    split; [reflexivity|]. now rewrite (proj2 (Nat.ltb_ge _ _) E).
Qed.

Lemma length_last_n (n : nat) (l : list message) :
  (0 < n)%nat -> (List.length (last_n n l) <= n)%nat.
Proof.
  intros Hn. unfold last_n. destruct n; [lia|]. rewrite length_skipn. lia.
Qed.

Lemma last_n_all (n : nat) (l : list message) :
  (List.length l <= n)%nat -> last_n n l = l.
Proof.
  intros H. unfold last_n. destruct n; [reflexivity|].
  replace (List.length l - Datatypes.S n)%nat with 0%nat by lia. reflexivity.
Qed.

Lemma trim_of_non_system (l : list message) (n : nat) :
  Forall (fun m => is_system m = false) l ->
  trim_conversation_history l n = last_n n l
  \/ (trim_conversation_history l n = l /\ (List.length l <= n)%nat).
Proof.
  intros Hl. unfold trim_conversation_history.
  destruct (List.length l <=? n)%nat eqn:E.
  - right. split; [reflexivity|]. now apply Nat.leb_le.
  - left. rewrite (TrimProofs.filter_none is_system l Hl).
    rewrite (TrimProofs.filter_all (fun m => negb (is_system m)) l).
    2:{ eapply Forall_impl; [|exact Hl]. cbn. intros m ->. reflexivity. }
    cbn [app]. apply Nat.leb_gt in E.
    now rewrite (proj2 (Nat.ltb_lt _ _) E).
Qed.

Lemma trimmed_part (l : list message) (n : nat) :
  let t := if (n <? List.length l)%nat then last_n n l else l in
  (if (n <? List.length t)%nat then last_n n t else t) = t.
Proof.
  cbv zeta. destruct (n <? List.length l)%nat eqn:E.
  - destruct n as [|n]; [cbn; now destruct (List.length l)|].
    pose proof (length_last_n (Datatypes.S n) l ltac:(lia)) as Hle.
    now rewrite (proj2 (Nat.ltb_ge _ _) Hle).
  - now rewrite E.
Qed.

(** X12.  Trimming a history that has been trimmed changes nothing, for
    every bound: the endpoint trims a history when it stores it and again
    when it reads it, and the second trimming is the identity. *)
Theorem trimming_twice_is_trimming_once (l : list message) (n : nat) :
  trim_conversation_history (trim_conversation_history l n) n
  = trim_conversation_history l n.
Proof.
  destruct (List.length l <=? n)%nat eqn:E.
  - unfold trim_conversation_history. now rewrite E, E.
  - set (ns := filter (fun msg => negb (is_system msg)) l).
    set (t := if (n <? List.length ns)%nat then last_n n ns else ns).
    assert (Hout : trim_conversation_history l n
                   = (filter is_system l ++ t)%list).
    { unfold trim_conversation_history. now rewrite E. }
    rewrite Hout.
    assert (Hns : Forall (fun m => negb (is_system m) = true) t).
    { unfold t. destruct (n <? List.length ns)%nat.
      - unfold last_n. destruct n; [apply TrimProofs.Forall_filter|].
        apply TrimProofs.Forall_skipn, TrimProofs.Forall_filter.
      - apply TrimProofs.Forall_filter. }
    unfold trim_conversation_history.
    destruct (List.length (filter is_system l ++ t) <=? n)%nat; [reflexivity|].
    rewrite !filter_app.
    rewrite (TrimProofs.filter_all is_system (filter is_system l))
      by apply TrimProofs.Forall_filter.
    rewrite (TrimProofs.filter_none is_system t).
    2:{ eapply Forall_impl; [|exact Hns]. cbn. intros m Hm.
        now destruct (is_system m). }
    rewrite (TrimProofs.filter_none (fun m => negb (is_system m))
               (filter is_system l)).
    2:{ eapply Forall_impl; [|apply (TrimProofs.Forall_filter is_system)].
        cbn. intros m ->. reflexivity. }
    rewrite (TrimProofs.filter_all (fun m => negb (is_system m)) t Hns).
    rewrite app_nil_r. cbn [app]. f_equal. apply trimmed_part.
Qed.

End HistoryProofs.

(* ================================================================== *)
(** * The rounds of a chat and its failures *)
(* ================================================================== *)

Module ChatProofs.
Import Py Json database restaurant_service agent Spec Behaviour.

Lemma execute_function_call_returns (S : services) (d : db) (name : string)
    (arguments : json) :
  exists r, execute_function_call S d name arguments = Return r.
Proof.
  unfold execute_function_call, try_except.
  destruct (dispatch S d name arguments) as [r|e]; [now exists r|].
  unfold outer_handler. destruct e; eauto.
Qed.

Lemma run_tool_call_answers (R : runtime) (S : services) (d : db) (tc : tool_call) :
  exists m, run_tool_call R S d tc = Return m /\ answers tc m.
Proof.
  unfold run_tool_call.
  destruct (execute_function_call_returns S d (tc_name tc)
              match json_loads R (tc_arguments tc) with
              | Some a => a
              | None => JDict []
              end) as [r ->].
  cbn [bind]. eexists. split; [reflexivity|].
  unfold answers. cbn [role tool_call_id tool_calls content].
  split; [reflexivity|]. split; [reflexivity|]. split; [reflexivity|].
  eexists. split; [reflexivity|].
  unfold content_limit.
  destruct (String.eqb (tc_name tc) "list_restaurants");
    apply HistoryProofs.truncate_length.
Qed.

Lemma run_tool_calls_answers (R : runtime) (S : services) (d : db)
    (tcs : list tool_call) :
  forall msgs,
  exists tools,
    run_tool_calls R S d tcs msgs = Return (msgs ++ tools)%list
    /\ Forall2 answers tcs tools.
Proof.
  induction tcs as [|tc tcs IH]; intros msgs.
  - exists []. rewrite app_nil_r. split; [reflexivity|constructor].
  - cbn [run_tool_calls].
    destruct (run_tool_call_answers R S d tc) as (m & -> & Hm). cbn [bind].
    destruct (IH (msgs ++ [m])%list) as (tools & -> & Ht).
    exists (m :: tools). rewrite <- app_assoc. split; [reflexivity|].
    now constructor.
Qed.

(** X13.  The messages a run of the loop adds come in rounds: an assistant
    message is followed by exactly one tool message for each tool call it
    asks for, in the order of the calls, each with the identifier of its call
    and a content within the limit of the tool; nothing is removed from the
    messages the loop started with. *)
Theorem loop_adds_rounds (R : runtime) (S : services) (d : db) (remaining : nat) :
  forall (msgs : list message) (calls : nat) (st : loop_state),
  fst (chat_loop R S d remaining msgs calls) = Return st ->
  exists new, messages st = (msgs ++ new)%list /\ rounds new.
Proof.
  induction remaining as [|n IH]; intros msgs calls st H.
  - cbn in H. inversion H; subst. cbn. exists []. rewrite app_nil_r.
    split; [reflexivity|constructor].
  - cbn [chat_loop] in H.
    destruct (chat_completions_create R (map api_message msgs)) as [reply|e];
      [|discriminate].
    set (a := {| role := "assistant"; content := am_content reply;
                 tool_calls := am_tool_calls reply; tool_call_id := None |}) in *.
    destruct (am_tool_calls reply) as [|tc tcs] eqn:Etc.
    + cbn in H. inversion H; subst. cbn. exists [a]. split; [reflexivity|].
      apply (rounds_cons a [] []); try reflexivity; [|constructor].
      unfold a. cbn. constructor.
    + destruct (run_tool_calls_answers R S d (tc :: tcs) (msgs ++ [a])%list)
        as (tools & Hrun & Ht).
      rewrite Hrun in H. apply IH in H. destruct H as (new & -> & Hnew).
      exists (a :: tools ++ new)%list. split.
      * rewrite <- !app_assoc. reflexivity.
      * apply rounds_cons; try reflexivity; [|exact Hnew].
        unfold a. cbn. exact Ht.
Qed.

Lemma loop_adds_rounds_witness :
  exists st new,
    fst (chat_loop Examples.insistent_runtime Examples.failing_services
           Examples.flyer_db 2 [Examples.user_says "hello"] 0) = Return st
    /\ messages st = ([Examples.user_says "hello"] ++ new)%list
    /\ rounds new.
Proof.
  destruct (fst (chat_loop Examples.insistent_runtime Examples.failing_services
                   Examples.flyer_db 2 [Examples.user_says "hello"] 0))
    as [st|e] eqn:E; [|vm_compute in E; discriminate].
  destruct (loop_adds_rounds Examples.insistent_runtime Examples.failing_services
              Examples.flyer_db 2 [Examples.user_says "hello"] 0 st E)
    as (new & Hm & Hr).
  exists st, new. split; [reflexivity|]. split; [exact Hm|exact Hr].
Defined.




End ChatProofs.

(* ================================================================== *)
(** * The thread store and the system prompt *)
(* ================================================================== *)

Module ThreadProofs.
Import Py Json database restaurant_service agent Spec Behaviour.

Lemma lookup_set_same (k : string) (h : list message) (t : threads) :
  thread_lookup k (thread_set k h t) = Some h.
Proof.
  induction t as [|[k' h'] t IH]; cbn.
  - now rewrite String.eqb_refl.
  - destruct (String.eqb k' k) eqn:E; cbn.
    + now rewrite String.eqb_refl.
    + now rewrite E.
Qed.

Lemma lookup_set_other (k k0 : string) (h : list message) (t : threads) :
  k0 <> k -> thread_lookup k0 (thread_set k h t) = thread_lookup k0 t.
Proof.
  intros Hk. induction t as [|[k' h'] t IH]; cbn.
  - destruct (String.eqb k k0) eqn:E; [|reflexivity].
    apply String.eqb_eq in E. congruence.
  - destruct (String.eqb k' k) eqn:E; cbn.
    + apply String.eqb_eq in E. subst k'.
      destruct (String.eqb k k0) eqn:E0; [|reflexivity].
      apply String.eqb_eq in E0. congruence.
    + now rewrite IH.
Qed.

Lemma get_or_create_thread_spec (store : threads) (tid : string) :
  fst (get_or_create_thread store tid) = history_of store tid
  /\ forall k, k <> tid ->
       thread_lookup k (snd (get_or_create_thread store tid))
       = thread_lookup k store.
Proof.
  unfold get_or_create_thread, history_of.
  destruct (thread_lookup tid store); cbn; split; try reflexivity.
  intros k Hk. now apply lookup_set_other.
Qed.

Lemma trimmed_history_is_short (l : list message) :
  Forall (fun m => is_system m = false) l ->
  (List.length (trim_conversation_history l 20) <= 20)%nat
  /\ Forall (fun m => is_system m = false) (trim_conversation_history l 20).
Proof.
  intros Hl.
  destruct (HistoryProofs.trim_of_non_system l 20 Hl) as [-> | [-> Hle]].
  - split; [apply HistoryProofs.length_last_n; lia|].
    unfold last_n. now apply TrimProofs.Forall_skipn.
  - now split.
Qed.

Lemma non_system_filter (l : list message) :
  Forall (fun m => is_system m = false)
         (filter (fun msg => negb (is_system msg)) l).
Proof.
  eapply Forall_impl; [|apply TrimProofs.Forall_filter]. cbn.
  intros m Hm. now destruct (is_system m).
Qed.

(** X15.  What a chat leaves in the thread store.  Without the key the
    store is not touched.  With it, only the thread of the request changes;
    after an answer that thread holds at most 20 messages, none of them a
    system message, and the answer carries the identifier of that thread;
    after a failure of the provider the thread holds its trimmed history with
    the prompt of the failed request at its end. *)
Theorem chat_updates_one_thread (R : runtime) (S : services) (d : db)
    (store : threads) (request : AgentRequest) :
  let out := agent_chat R S d store request in
  let tid := thread_of R request in
  match get_openai_client R with
  | Raise e => out = (Raise e, store)
  | Return _ =>
      (forall k, k <> tid -> thread_lookup k (snd out) = thread_lookup k store)
      /\ match fst out with
         | Return resp =>
             response_thread_id resp = tid
             /\ exists h,
                  thread_lookup tid (snd out) = Some h
                  /\ (List.length h <= 20)%nat
                  /\ Forall (fun m => is_system m = false) h
         | Raise _ =>
             thread_lookup tid (snd out)
             = Some (trim_conversation_history (history_of store tid) 20
                     ++ [user_message (prompt request)])%list
         end
  end.
Proof.
  cbv zeta. unfold agent_chat. fold (thread_of R request).
  destruct (get_openai_client R) as [u|e]; [|reflexivity].
  destruct (get_or_create_thread_spec store (thread_of R request)) as [Hh Hk].
  destruct (get_or_create_thread store (thread_of R request)) as [h store1].
  cbn [fst snd] in Hh, Hk. subst h.
  fold (user_message (prompt request)).
  destruct (fst (chat_loop R S d max_iterations _ 0)) as [st|e] eqn:L.
  - cbn [fst snd]. split.
    + intros k Hne. rewrite !lookup_set_other by exact Hne. now apply Hk.
    + split; [reflexivity|]. eexists. split; [apply lookup_set_same|].
      apply trimmed_history_is_short, non_system_filter.
  - assert (Hs : forall o : result AgentResponse,
              (forall k, k <> thread_of R request ->
                 thread_lookup k
                   (snd (o, thread_set (thread_of R request)
                              (trim_conversation_history
                                 (history_of store (thread_of R request)) 20
                               ++ [user_message (prompt request)])%list store1))
                 = thread_lookup k store)
              /\ thread_lookup (thread_of R request)
                   (snd (o, thread_set (thread_of R request)
                              (trim_conversation_history
                                 (history_of store (thread_of R request)) 20
                               ++ [user_message (prompt request)])%list store1))
                 = Some (trim_conversation_history
                           (history_of store (thread_of R request)) 20
                         ++ [user_message (prompt request)])%list).
    { intros o. cbn [snd]. split; [|apply lookup_set_same].
      intros k Hne. rewrite lookup_set_other by exact Hne. now apply Hk. }
    destruct e; cbn [fst]; (split; [apply Hs|apply Hs]).
Qed.

Lemma is_system_api_message (m : message) :
  is_system (api_message m) = is_system m.
Proof.
  unfold api_message, is_system.
  destruct (String.eqb (role m) "tool") eqn:E.
  - apply String.eqb_eq in E. now rewrite E.
  - destruct (String.eqb (role m) "assistant" && _) eqn:E2; [|reflexivity].
    apply andb_prop in E2. destruct E2 as [E2 _].
    apply String.eqb_eq in E2. now rewrite E2.
Qed.

Lemma no_system_api_messages (msgs : list message) :
  Forall (fun m => is_system m = false) msgs ->
  no_system_message (map api_message msgs) = true.
Proof.
  unfold no_system_message. induction 1 as [|m msgs Hm _ IH]; [reflexivity|].
  cbn. now rewrite is_system_api_message, Hm, IH.
Qed.

Lemma answers_not_system (tcs : list tool_call) (tools : list message) :
  Forall2 answers tcs tools -> Forall (fun m => is_system m = false) tools.
Proof.
  induction 1 as [|tc m tcs tools Hm _ IH]; constructor; [|exact IH].
  destruct Hm as [Hr _]. unfold is_system. now rewrite Hr.
Qed.

Lemma run_tool_calls_refusing (ok : list message -> bool) (R : runtime)
    (S : services) (d : db) (tcs : list tool_call) :
  forall msgs,
  run_tool_calls (refusing ok R) S d tcs msgs = run_tool_calls R S d tcs msgs.
Proof.
  induction tcs as [|tc tcs IH]; intros msgs; [reflexivity|].
  cbn [run_tool_calls].
  change (run_tool_call (refusing ok R) S d tc) with (run_tool_call R S d tc).
  destruct (run_tool_call R S d tc); cbn [bind]; [apply IH|reflexivity].
Qed.

(** The loop does not notice a provider that refuses requests the loop would
    never send: [inv] holds of the messages of every request. *)
Lemma chat_loop_refusing (ok : list message -> bool)
    (inv : list message -> Prop) (R : runtime) (S : services) (d : db) :
  (forall msgs, inv msgs -> ok (map api_message msgs) = true) ->
  (forall msgs more, inv msgs -> Forall (fun m => is_system m = false) more ->
                     inv (msgs ++ more)%list) ->
  forall remaining msgs calls,
  inv msgs ->
  chat_loop (refusing ok R) S d remaining msgs calls
  = chat_loop R S d remaining msgs calls.
Proof.
  intros Hok Hext.
  induction remaining as [|n IH]; intros msgs calls Hinv; [reflexivity|].
  cbn [chat_loop].
  change (chat_completions_create (refusing ok R) (map api_message msgs))
    with (if ok (map api_message msgs)
          then chat_completions_create R (map api_message msgs)
          else Raise (OtherError "Refused" "the request is refused")).
  rewrite (Hok msgs Hinv).
  destruct (chat_completions_create R (map api_message msgs)) as [reply|e];
    [|reflexivity].
  destruct (am_tool_calls reply) as [|tc tcs] eqn:Etc; [reflexivity|].
  rewrite run_tool_calls_refusing.
  destruct (ChatProofs.run_tool_calls_answers R S d (tc :: tcs)
              (msgs ++ [ {| role := "assistant"; content := am_content reply;
                            tool_calls := tc :: tcs; tool_call_id := None |} ])%list)
    as (tools & Hrun & Ht).
  rewrite Hrun. apply IH. rewrite <- app_assoc. apply Hext; [exact Hinv|].
  constructor; [reflexivity|]. now apply answers_not_system in Ht.
Qed.

Lemma agent_chat_refusing (ok : list message -> bool) (R : runtime)
    (S : services) (d : db) (store : threads) (request : AgentRequest) :
  (forall history store1,
     get_or_create_thread store (thread_of R request) = (history, store1) ->
     let conversation_history :=
       (trim_conversation_history history 20
        ++ [user_message (prompt request)])%list in
     let msgs :=
       ((if Nat.eqb (List.length conversation_history) 1
         then [system_message] else []) ++ conversation_history)%list in
     chat_loop (refusing ok R) S d max_iterations msgs 0
     = chat_loop R S d max_iterations msgs 0) ->
  agent_chat (refusing ok R) S d store request = agent_chat R S d store request.
Proof.
  intros H. unfold agent_chat.
  change (get_openai_client (refusing ok R)) with (get_openai_client R).
  destruct (get_openai_client R); [|reflexivity].
  change (generate_thread_id (refusing ok R)) with (generate_thread_id R).
  fold (thread_of R request).
  destruct (get_or_create_thread store (thread_of R request)) as [h store1] eqn:G.
  specialize (H h store1 eq_refl). cbv zeta in H.
  unfold user_message in H. rewrite H.
  destruct (fst (chat_loop R S d max_iterations _ 0)); reflexivity.
Qed.

(** X16.  The system prompt goes to the model in the first chat of a thread
    only.  When the thread of the request is new or empty, every request of
    the chat to the provider opens with the system prompt, and a provider
    that refuses any other request gives the same outcome; when the thread
    has a history (without system messages, as every history this endpoint
    stores), no request of the chat has a system message in it, and a
    provider that refuses requests with one gives the same outcome. *)
Theorem system_prompt_opens_new_threads_only (R : runtime) (S : services)
    (d : db) (store : threads) (request : AgentRequest) :
  let history := history_of store (thread_of R request) in
  (history = [] ->
   agent_chat (refusing opens_with_system_prompt R) S d store request
   = agent_chat R S d store request)
  /\ (history <> [] ->
      Forall (fun m => is_system m = false) history ->
      agent_chat (refusing no_system_message R) S d store request
      = agent_chat R S d store request).
Proof.
  cbv zeta. split.
  - intros Hh. apply agent_chat_refusing. intros h store1 G. cbv zeta.
    pose proof (get_or_create_thread_spec store (thread_of R request)) as [Hf _].
    rewrite G in Hf. cbn in Hf. rewrite Hh in Hf. subst h. cbn [app].
    apply (chat_loop_refusing opens_with_system_prompt
             (fun msgs => exists rest,
                msgs = system_message :: rest
                /\ Forall (fun m => is_system m = false) rest)).
    + intros msgs (rest & -> & Hr). cbn [map opens_with_system_prompt].
      rewrite (no_system_api_messages rest Hr).
      change (api_message system_message) with system_message.
      unfold system_message at 1. unfold is_system. cbn [role].
      unfold system_message. cbn [content].
      now rewrite String.eqb_refl.
    + intros msgs more (rest & -> & Hr) Hm. exists (rest ++ more)%list.
      split; [reflexivity|]. apply Forall_app. now split.
    + exists [user_message (prompt request)]. split; [reflexivity|].
      now constructor.
  - intros Hne Hns. apply agent_chat_refusing. intros h store1 G. cbv zeta.
    pose proof (get_or_create_thread_spec store (thread_of R request)) as [Hf _].
    rewrite G in Hf. cbn in Hf. subst h.
    set (history := history_of store (thread_of R request)) in *.
    assert (Ht : trim_conversation_history history 20 <> []
                 /\ Forall (fun m => is_system m = false)
                           (trim_conversation_history history 20)).
    { split; [|now apply trimmed_history_is_short].
      destruct (HistoryProofs.trim_of_non_system history 20 Hns) as [-> | [-> _]];
        [|exact Hne].
      unfold last_n. intros Hnil.
      apply (f_equal (@List.length message)) in Hnil.
      rewrite length_skipn in Hnil. cbn [List.length] in Hnil.
      destruct history; [now apply Hne|]. cbn [List.length] in Hnil. lia. }
    destruct Ht as [Ht1 Ht2].
    destruct (trim_conversation_history history 20) as [|m0 t]; [easy|].
    replace (Nat.eqb (List.length ((m0 :: t) ++ [user_message (prompt request)])) 1)
      with false.
    2:{ cbn. rewrite length_app. cbn. symmetry. apply Nat.eqb_neq. lia. }
    cbn [app].
    apply (chat_loop_refusing no_system_message
             (fun msgs => Forall (fun m => is_system m = false) msgs)).
    + apply no_system_api_messages.
    + intros msgs more H1 H2. apply Forall_app. now split.
    + change (m0 :: t ++ [user_message (prompt request)])%list
        with ((m0 :: t) ++ [user_message (prompt request)])%list.
      apply Forall_app. split; [exact Ht2|]. now constructor.
Qed.

Lemma system_prompt_opens_new_threads_only_witness :
  agent_chat (refusing opens_with_system_prompt Examples.talkative_runtime)
    Examples.failing_services Examples.flyer_db [] Examples.hello
  = agent_chat Examples.talkative_runtime
      Examples.failing_services Examples.flyer_db [] Examples.hello
  /\ agent_chat (refusing no_system_message Examples.talkative_runtime)
       Examples.failing_services Examples.flyer_db one_thread more_please
     = agent_chat Examples.talkative_runtime
         Examples.failing_services Examples.flyer_db one_thread more_please.
Proof.
  split.
  - apply (system_prompt_opens_new_threads_only Examples.talkative_runtime
             Examples.failing_services Examples.flyer_db [] Examples.hello).
    reflexivity.
  - apply (system_prompt_opens_new_threads_only Examples.talkative_runtime
             Examples.failing_services Examples.flyer_db one_thread more_please).
    + discriminate.
    + repeat constructor.
Defined.

End ThreadProofs.

(* ================================================================== *)
(** * The budget of a chat and its response *)
(* ================================================================== *)

Module BudgetProofs.
Import Py Json database agent Spec Behaviour.






End BudgetProofs.

(* ================================================================== *)
(** * What the dispatcher does around the service calls *)
(* ================================================================== *)

Module ToolProofs.
Import Py Json database restaurant_service agent Spec Behaviour.

Lemma lookup_set_eq (k : string) (v : json) (d : dict) :
  lookup k (set k v d) = Some v.
Proof.
  induction d as [|[k' v'] d IH]; cbn.
  - now rewrite String.eqb_refl.
  - destruct (String.eqb k' k) eqn:E; cbn.
    + now rewrite String.eqb_refl.
    + now rewrite E.
Qed.

Lemma lookup_set_neq (k k0 : string) (v : json) (d : dict) :
  k0 <> k -> lookup k0 (set k v d) = lookup k0 d.
Proof.
  intros Hk. induction d as [|[k' v'] d IH]; cbn.
  - destruct (String.eqb k k0) eqn:E; [|reflexivity].
    apply String.eqb_eq in E. congruence.
  - destruct (String.eqb k' k) eqn:E; cbn.
    + apply String.eqb_eq in E. subst k'.
      destruct (String.eqb k k0) eqn:E0; [|reflexivity].
      apply String.eqb_eq in E0. congruence.
    + now rewrite IH.
Qed.

Lemma resolve_items_at_most_100 (S : services) (d : db) (name : json)
    (its : list json) :
  forall acc,
  resolve_items (at_most_100 S) d name its acc = resolve_items S d name its acc.
Proof.
  induction its as [|item its IH]; intros acc; [reflexivity|].
  cbn [resolve_items].
  destruct (get item "item_name" JNull) as [item_name|]; [|reflexivity].
  cbn [bind].
  destruct (get item "quantity" JNull) as [quantity|]; [|reflexivity].
  cbn [bind]. destruct (_ || _); [reflexivity|].
  change (resolve_item_name_to_id (at_most_100 S) d name item_name)
    with (resolve_item_name_to_id S d name item_name).
  destruct (resolve_item_name_to_id S d name item_name); [|reflexivity].
  cbn [bind]. apply IH.
Qed.

Lemma cart_tools_at_most_100 (S : services) (d : db) (arguments : json)
    (finish : string -> list json -> result json) :
  call_with_resolved_items (at_most_100 S) d arguments finish
  = call_with_resolved_items S d arguments finish.
Proof.
  unfold call_with_resolved_items.
  destruct (get arguments "restaurant_name" JNull) as [name|]; [|reflexivity].
  cbn [bind].
  destruct (get arguments "items" (JList [])) as [items|]; [|reflexivity].
  cbn [bind]. destruct (_ || _); [reflexivity|]. f_equal.
  destruct (resolve_restaurant_name_to_id d name); [|reflexivity].
  cbn [bind]. destruct (iterate items); [|reflexivity].
  cbn [bind]. now rewrite resolve_items_at_most_100.
Qed.

(** X17.  The dispatcher never asks the service layer for more than 100
    restaurants: an integer limit above 100 is replaced by 100 before the
    call, so a service layer that refuses larger limits gives the same
    result for every call of every tool. *)
Theorem listing_limit_is_capped (S : services) (d : db) (function_name : string)
    (arguments : json) :
  execute_function_call (at_most_100 S) d function_name arguments
  = execute_function_call S d function_name arguments.
Proof.
  unfold execute_function_call. f_equal. unfold dispatch.
  change (rs_build_cart (at_most_100 S)) with (rs_build_cart S).
  change (rs_compute_cost_estimate (at_most_100 S))
    with (rs_compute_cost_estimate S).
  change (rs_create_receipt (at_most_100 S)) with (rs_create_receipt S).
  rewrite !cart_tools_at_most_100.
  change (call_get_restaurant_menu (at_most_100 S) arguments)
    with (call_get_restaurant_menu S arguments).
  change (call_get_menu_item (at_most_100 S) d arguments)
    with (call_get_menu_item S d arguments).
  change (call_create_delivery (at_most_100 S) arguments)
    with (call_create_delivery S arguments).
  change (call_track_delivery (at_most_100 S) arguments)
    with (call_track_delivery S arguments).
  destruct (String.eqb function_name "list_restaurants"); [|reflexivity].
  unfold call_list_restaurants.
  destruct (get arguments "limit" (JInt 100)) as [limit0|e]; [|reflexivity].
  cbn [bind].
  destruct (min_with limit0 100) as [limit|e] eqn:M; [|reflexivity].
  cbn [bind].
  destruct (get arguments "skip" (JInt 0)) as [skip|e]; [|reflexivity].
  cbn [bind].
  replace (rs_list_restaurants (at_most_100 S) limit skip)
    with (rs_list_restaurants S limit skip); [reflexivity|].
  cbn [at_most_100 rs_list_restaurants].
  destruct limit as [| | n | | | |]; try reflexivity.
  replace (n <=? 100) with true; [reflexivity|].
  symmetry. apply Z.leb_le.
  unfold min_with, int_lt in M.
  destruct limit0 as [| b | m | f | | |]; try discriminate; cbn in M.
  - destruct (100 <? (if b then 1 else 0)); inversion M; lia.
  - destruct (100 <? m) eqn:E; inversion M; subst; [lia|].
    now apply Z.ltb_ge in E.
  - destruct (PrimFloat.ltb _ f); inversion M; lia.
Qed.

Lemma minimal_restaurants_reduced (rs : list json) :
  Forall is_dict rs ->
  exists ms,
    map_result minimal_restaurant rs = Return ms /\ Forall2 reduced rs ms.
Proof.
  induction 1 as [|r rs [fields ->] _ (ms & IH & Hms)].
  - exists []. split; [reflexivity|constructor].
  - eexists (_ :: ms). cbn [map_result].
    unfold minimal_restaurant at 1. cbn [get bind]. rewrite IH. cbn [bind].
    split; [reflexivity|]. constructor; [|exact Hms].
    exists fields. split; reflexivity.
Qed.

Lemma reduced_length (rs ms : list json) :
  Forall2 reduced rs ms -> List.length ms = List.length rs.
Proof. induction 1; cbn; [reflexivity|]. now f_equal. Qed.

(** X18.  What the dispatcher does to the answer of the restaurant list.
    An answer with at most 20 restaurants goes on as it is.  One with more
    keeps every restaurant, each reduced to its identifier, name,
    description and store code, is marked as truncated, gets a note with the
    number of restaurants, and keeps its other entries. *)
Theorem long_restaurant_list_is_reduced (S : services) (a rd : dict)
    (rs : list json) (limit : json) :
  min_with (match lookup "limit" a with Some v => v | None => JInt 100 end) 100
  = Return limit ->
  rs_list_restaurants S limit
    (match lookup "skip" a with Some v => v | None => JInt 0 end)
  = Return (JDict rd) ->
  lookup "restaurants" rd = Some (JList rs) ->
  Forall is_dict rs ->
  let outcome := call_list_restaurants S (JDict a) in
  ((List.length rs <= 20)%nat -> outcome = Return (JDict rd))
  /\ ((20 < List.length rs)%nat ->
      exists out ms,
        outcome = Return (JDict out)
        /\ lookup "restaurants" out = Some (JList ms)
        /\ Forall2 reduced rs ms
        /\ lookup "truncated" out = Some (JBool true)
        /\ lookup "note" out = Some (JStr (minimal_note (List.length rs)))
        /\ forall k, k <> "restaurants" -> k <> "truncated" -> k <> "note" ->
                     lookup k out = lookup k rd).
Proof.
  intros Hlimit Hcall Hrs Hd. cbv zeta.
  unfold call_list_restaurants. cbn [get bind].
  rewrite Hlimit. cbn [bind]. rewrite Hcall. cbn [bind].
  rewrite Hrs. cbn [len bind]. split.
  - intros Hle. now rewrite (proj2 (Nat.ltb_ge _ _) Hle).
  - intros Hlt. rewrite (proj2 (Nat.ltb_lt _ _) Hlt). cbn [iterate bind].
    destruct (minimal_restaurants_reduced rs Hd) as (ms & -> & Hms).
    cbn [bind]. eexists. exists ms. split; [reflexivity|].
    split.
    { rewrite !lookup_set_neq by discriminate. apply lookup_set_eq. }
    split; [exact Hms|]. split.
    { rewrite lookup_set_neq by discriminate. apply lookup_set_eq. }
    split.
    { rewrite lookup_set_eq. now rewrite (reduced_length rs ms Hms). }
    intros k H1 H2 H3.
    rewrite !lookup_set_neq by congruence. reflexivity.
Qed.

Lemma long_restaurant_list_is_reduced_witness :
  exists out ms,
    call_list_restaurants listing_services (JDict [("limit", JInt 500)])
    = Return (JDict out)
    /\ lookup "restaurants" out = Some (JList ms)
    /\ Forall2 reduced (repeat cafe 21) ms
    /\ lookup "truncated" out = Some (JBool true).
Proof.
  destruct (long_restaurant_list_is_reduced listing_services
              [("limit", JInt 500)] listing (repeat cafe 21) (JInt 100))
    as [_ H].
  - reflexivity.
  - reflexivity.
  - reflexivity.
  - repeat constructor; now eexists.
  - destruct H as (out & ms & H1 & H2 & H3 & H4 & _); [cbn; lia|].
    exists out, ms. repeat split; assumption.
Defined.

(** X19.  What the dispatcher does to a menu.  A menu with at most 20 items
    goes on as it is.  A longer one keeps its first 20 items, and its count
    of items, when it is an integer, becomes the smaller of that count and
    20, so it tells how many items are shown and no longer how many the
    restaurant has; the other entries stay. *)
Theorem long_menu_is_cut (S : services) (a rd : dict) (name : json)
    (its : list json) :
  lookup "restaurant_name" a = Some name ->
  truthy name = true ->
  rs_get_restaurant_menu_by_name S name = Return (JDict rd) ->
  lookup "items" rd = Some (JList its) ->
  let outcome := call_get_restaurant_menu S (JDict a) in
  ((List.length its <= 20)%nat -> outcome = Return (JDict rd))
  /\ ((20 < List.length its)%nat ->
      forall n, lookup "total_items" rd = Some (JInt n) ->
      exists out,
        outcome = Return (JDict out)
        /\ lookup "items" out = Some (JList (firstn 20 its))
        /\ lookup "total_items" out = Some (JInt (Z.min n 20))
        /\ forall k, k <> "items" -> k <> "total_items" ->
                     lookup k out = lookup k rd).
Proof.
  intros Hname Ht Hcall Hits. cbv zeta.
  unfold call_get_restaurant_menu. cbn [get bind]. rewrite Hname, Ht.
  cbn [negb]. rewrite Hcall. cbn [bind]. rewrite Hits. cbn [len bind]. split.
  - intros Hle. now rewrite (proj2 (Nat.ltb_ge _ _) Hle).
  - intros Hlt n Hn. rewrite (proj2 (Nat.ltb_lt _ _) Hlt).
    cbn [slice_to bind].
    rewrite lookup_set_neq by discriminate. rewrite Hn.
    unfold min_with, int_lt. cbn [bind].
    eexists. split; [reflexivity|]. split.
    { rewrite lookup_set_neq by discriminate. apply lookup_set_eq. }
    split.
    { rewrite lookup_set_eq. f_equal.
      destruct (20 <? n) eqn:E; f_equal.
      - apply Z.ltb_lt in E. lia.
      - apply Z.ltb_ge in E. lia. }
    intros k H1 H2. rewrite !lookup_set_neq by congruence. reflexivity.
Qed.

Lemma long_menu_is_cut_witness :
  exists out,
    call_get_restaurant_menu listing_services
      (JDict [("restaurant_name", JStr "cafe")]) = Return (JDict out)
    /\ lookup "items" out = Some (JList (repeat (JDict [("name", JStr "Tea")]) 20))
    /\ lookup "total_items" out = Some (JInt 20).
Proof.
  destruct (long_menu_is_cut listing_services [("restaurant_name", JStr "cafe")]
              long_menu (JStr "cafe") (repeat (JDict [("name", JStr "Tea")]) 25))
    as [_ H]; try reflexivity.
  destruct (H ltac:(cbn; lia) 25 eq_refl) as (out & H1 & H2 & H3 & _).
  exists out. repeat split; assumption.
Defined.

(** X20.  The arguments the [create_receipt] tool hands to the service: the
    restaurant and the items are the resolved ones, whatever the arguments
    of the call say under those keys; each optional field is handed over
    exactly as the call has it; and nothing else of the call is handed
    over. *)
Theorem receipt_arguments_are_resolved (arguments : json) (rid : string)
    (resolved : list json) :
  let args := receipt_args arguments rid resolved in
  lookup "restaurant_id" args = Some (JStr rid)
  /\ lookup "items" args = Some (JList resolved)
  /\ (forall k, In k receipt_optional_fields ->
        lookup k args = match arguments with
                        | JDict ad => lookup k ad
                        | _ => None
                        end)
  /\ (forall k v, lookup k args = Some v ->
        k = "restaurant_id" \/ k = "items" \/ In k receipt_optional_fields).
Proof.
  cbv zeta. unfold receipt_args, receipt_optional_fields. cbn [fold_left].
  assert (Hfin : forall (args0 : dict),
            (forall k v, lookup k args0 = Some v ->
               In k (map fst args0)) ) .
  { intros args0. induction args0 as [|[k0 v0] args0 IH]; cbn; [discriminate|].
    intros k v. destruct (String.eqb k0 k) eqn:E.
    - apply String.eqb_eq in E. now left.
    - intros H. right. now apply (IH k v). }
  destruct arguments as [| b0 | n0 | f0 | s0 | l0 | ad].
  1-6: (split; [reflexivity|]; split; [reflexivity|]; split;
        [ intros k Hk; cbn [In] in Hk;
          destruct Hk as [<- | [<- | [<- | [<- | [<- | []]]]]]; reflexivity
        | intros k v H; apply Hfin in H;
          match type of H with
          | In k (map fst ?A) =>
              let A' := eval vm_compute in (map fst A) in
              change (map fst A) with A' in H
          end;
          cbn [In] in H |- *;
          repeat (destruct H as [H|H]; [subst k; auto 10|]); contradiction ]).
  destruct (lookup "delivery_id" ad) as [v1|] eqn:L1;
  destruct (lookup "customer_name" ad) as [v2|] eqn:L2;
  destruct (lookup "customer_email" ad) as [v3|] eqn:L3;
  destruct (lookup "customer_phone" ad) as [v4|] eqn:L4;
  destruct (lookup "delivery_address" ad) as [v5|] eqn:L5;
  (split; [reflexivity|]); (split; [reflexivity|]);
  (split;
   [ intros k Hk; cbn [In] in Hk;
     destruct Hk as [<- | [<- | [<- | [<- | [<- | []]]]]];
     rewrite ?L1, ?L2, ?L3, ?L4, ?L5; reflexivity
   | intros k v H; apply Hfin in H;
     match type of H with
     | In k (map fst ?A) =>
         let A' := eval vm_compute in (map fst A) in
         change (map fst A) with A' in H
     end;
     cbn [In] in H |- *;
          repeat (destruct H as [H|H]; [subst k; auto 10|]); contradiction ]).
Qed.

End ToolProofs.

(* ================================================================== *)
(** * Deliveries *)
(* ================================================================== *)

Module DeliveryProofs.
Import Py Json Spec Behaviour doordash_service.

Lemma service_handler_http (E : outside) (doing : string) (e : exn) :
  fails_with_http (service_handler E doing e).
Proof.
  unfold service_handler.
  destruct e; cbn; eauto; destruct (is_RequestException E _); cbn; eauto.
Qed.

Lemma endpoint_handler_http (what : string) (e : exn) :
  fails_with_http (@routers.endpoint_handler json what e).
Proof. destruct e; cbn; eauto. Qed.

(** X21.  The delivery operations fail with an [HTTPException] only, in the
    service and at the endpoint, whatever the environment, the token
    library, the network and the validation of the answer do. *)
Theorem deliveries_fail_with_http (E : outside)
    (request : DoorDashCreateDeliveryRequest) (id : string) :
  fails_with_http (create_delivery E request)
  /\ fails_with_http (track_delivery E id)
  /\ fails_with_http (routers.doordash_create_delivery E request)
  /\ fails_with_http (routers.doordash_track_delivery_status E id).
Proof.
  assert (Hs : forall doing (m : result json),
            fails_with_http (try_except m (service_handler E doing))).
  { intros doing [r|e]; cbn; [exact I|apply service_handler_http]. }
  assert (Hr : forall what (m : result json),
            fails_with_http (try_except m (routers.endpoint_handler what))).
  { intros what [r|e]; [exact I|apply endpoint_handler_http]. }
  split; [apply Hs|]. split; [apply Hs|]. split; apply Hr.
Qed.

Lemma token_without_credentials (E : outside) :
  unset E "DOORDASH_DEVELOPER_ID" \/ unset E "DOORDASH_KEY_ID"
  \/ unset E "DOORDASH_SIGNING_SECRET" ->
  get_jwt_token E = Raise missing_credentials.
Proof.
  unfold get_jwt_token, unset.
  intros [[-> | ->] | [[H | H] | [H | H]]]; try reflexivity;
    destruct (getenv E "DOORDASH_DEVELOPER_ID") as [[|c1 s1]|]; try reflexivity;
    rewrite ?H; try reflexivity;
    destruct (getenv E "DOORDASH_KEY_ID") as [[|c2 s2]|]; try reflexivity;
    rewrite ?H; reflexivity.
Qed.

(** X22.  Without credentials nothing is sent.  When one of the three
    variables of the environment is not set or is empty, creating and
    tracking a delivery fail with the 500 that names the missing
    credentials, in the service and at the endpoint, whatever the network
    would have answered. *)
Theorem no_delivery_without_credentials (E : outside)
    (request : DoorDashCreateDeliveryRequest) (id : string) :
  unset E "DOORDASH_DEVELOPER_ID" \/ unset E "DOORDASH_KEY_ID"
  \/ unset E "DOORDASH_SIGNING_SECRET" ->
  create_delivery E request = Raise missing_credentials
  /\ track_delivery E id = Raise missing_credentials
  /\ routers.doordash_create_delivery E request = Raise missing_credentials
  /\ routers.doordash_track_delivery_status E id = Raise missing_credentials.
Proof.
  intros H. apply token_without_credentials in H.
  unfold routers.doordash_create_delivery, routers.doordash_track_delivery_status,
    create_delivery, track_delivery.
  rewrite H. repeat split.
Qed.

Lemma no_delivery_without_credentials_witness :
  create_delivery no_secret parcel = Raise missing_credentials
  /\ routers.doordash_track_delivery_status no_secret "D-12345"
     = Raise missing_credentials.
Proof.
  destruct (no_delivery_without_credentials no_secret parcel "D-12345")
    as (H1 & _ & _ & H4).
  - right. right. left. reflexivity.
  - split; [exact H1|exact H4].
Defined.

(** X23.  A refusal of the delivery provider reaches the client with the
    status of the provider.  When the token is made and the provider answers
    a creation with a status other than 200 and 201, the service and the
    endpoint fail with that status and the text of the answer; a tracking
    request answered with 404 fails with 404 and a detail that names the
    delivery, and one answered with another status than 200 fails with that
    status and the text of the answer. *)
Theorem provider_status_is_passed_on (E : outside)
    (request : DoorDashCreateDeliveryRequest) (id token : string)
    (created tracked : http_response) :
  get_jwt_token E = Return token ->
  requests_post E (DOORDASH_API_BASE_URL ++ "/deliveries")
    (request_body request) ("Bearer " ++ token) = Return created ->
  requests_get E (DOORDASH_API_BASE_URL ++ "/deliveries/" ++ id)
    ("Bearer " ++ token) = Return tracked ->
  status_code created <> 200 -> status_code created <> 201 ->
  status_code tracked <> 200 ->
  let refused :=
    HTTPException (status_code created)
      ("DoorDash API error: " ++ text created) in
  let lost :=
    if Z.eqb (status_code tracked) 404
    then HTTPException 404
           ("Delivery with external_delivery_id '" ++ id ++ "' not found")
    else HTTPException (status_code tracked)
           ("DoorDash API error: " ++ text tracked) in
  create_delivery E request = Raise refused
  /\ routers.doordash_create_delivery E request = Raise refused
  /\ track_delivery E id = Raise lost
  /\ routers.doordash_track_delivery_status E id = Raise lost.
Proof.
  intros Ht Hp Hg H200 H201 Hg200. cbv zeta.
  assert (Hc : create_delivery E request
               = Raise (HTTPException (status_code created)
                          ("DoorDash API error: " ++ text created))).
  { unfold create_delivery. rewrite Ht. cbn [bind]. rewrite Hp. cbn [bind].
    rewrite (proj2 (Z.eqb_neq _ _) H200), (proj2 (Z.eqb_neq _ _) H201).
    reflexivity. }
  assert (Hk : track_delivery E id
               = Raise (if Z.eqb (status_code tracked) 404
                        then HTTPException 404
                               ("Delivery with external_delivery_id '" ++ id
                                ++ "' not found")
                        else HTTPException (status_code tracked)
                               ("DoorDash API error: " ++ text tracked))).
  { unfold track_delivery. rewrite Ht. cbn [bind]. rewrite Hg. cbn [bind].
    rewrite (proj2 (Z.eqb_neq _ _) Hg200).
    now destruct (Z.eqb (status_code tracked) 404). }
  split; [exact Hc|]. split.
  { unfold routers.doordash_create_delivery. now rewrite Hc. }
  split; [exact Hk|].
  unfold routers.doordash_track_delivery_status. rewrite Hk.
  now destruct (Z.eqb (status_code tracked) 404).
Qed.

Lemma provider_status_is_passed_on_witness :
  routers.doordash_create_delivery strict_provider parcel
  = Raise (HTTPException 422 "DoorDash API error: duplicate delivery id")
  /\ routers.doordash_track_delivery_status strict_provider "D-12345"
     = Raise (HTTPException 404
                "Delivery with external_delivery_id 'D-12345' not found").
Proof.
  destruct (provider_status_is_passed_on strict_provider parcel "D-12345" "token"
              {| status_code := 422; text := "duplicate delivery id";
                 json_of := Return (JDict []) |}
              {| status_code := 404; text := "unknown delivery";
                 json_of := Return (JDict []) |})
    as (_ & H2 & _ & H4); try reflexivity; try discriminate.
  split; [exact H2|exact H4].
Defined.

Lemma body_text (k k0 : string) (v : option string) (body : dict) :
  lookup k0 (add_if_text k v body)
  = if String.eqb k k0
    then match text_in_body v with
         | Some j => Some j
         | None => lookup k0 body
         end
    else lookup k0 body.
Proof.
  unfold add_if_text, text_in_body.
  destruct (String.eqb k k0) eqn:E.
  - apply String.eqb_eq in E. subst k0.
    destruct v as [[|c s]|]; try reflexivity. apply ToolProofs.lookup_set_eq.
  - apply String.eqb_neq in E.
    destruct v as [[|c s]|]; try reflexivity.
    apply ToolProofs.lookup_set_neq. congruence.
Qed.

Lemma body_number (k k0 : string) (v : option Z) (body : dict) :
  lookup k0 (add_if_nonzero k v body)
  = if String.eqb k k0
    then match number_in_body v with
         | Some j => Some j
         | None => lookup k0 body
         end
    else lookup k0 body.
Proof.
  unfold add_if_nonzero, number_in_body.
  destruct (String.eqb k k0) eqn:E.
  - apply String.eqb_eq in E. subst k0.
    destruct v as [n|]; [|reflexivity].
    destruct (Z.eqb n 0); [reflexivity|]. apply ToolProofs.lookup_set_eq.
  - apply String.eqb_neq in E.
    destruct v as [n|]; [|reflexivity].
    destruct (Z.eqb n 0); [reflexivity|].
    apply ToolProofs.lookup_set_neq. congruence.
Qed.

(** X24.  The body of a delivery request sent to the provider has the six
    required fields of the request as they are, has an optional text field
    exactly when the request has a text that is not empty for it, and has
    the order value exactly when the request has one that is not zero. *)
Theorem delivery_body_fields (request : DoorDashCreateDeliveryRequest) :
  let body := request_body request in
  lookup "external_delivery_id" body = Some (JStr (external_delivery_id request))
  /\ lookup "pickup_address" body = Some (JStr (pickup_address request))
  /\ lookup "pickup_business_name" body
     = Some (JStr (pickup_business_name request))
  /\ lookup "pickup_phone_number" body
     = Some (JStr (pickup_phone_number request))
  /\ lookup "dropoff_address" body = Some (JStr (dropoff_address request))
  /\ lookup "dropoff_phone_number" body
     = Some (JStr (dropoff_phone_number request))
  /\ lookup "pickup_instructions" body
     = text_in_body (pickup_instructions request)
  /\ lookup "pickup_reference_tag" body
     = text_in_body (pickup_reference_tag request)
  /\ lookup "dropoff_business_name" body
     = text_in_body (dropoff_business_name request)
  /\ lookup "dropoff_instructions" body
     = text_in_body (dropoff_instructions request)
  /\ lookup "dropoff_contact_given_name" body
     = text_in_body (dropoff_contact_given_name request)
  /\ lookup "dropoff_contact_family_name" body
     = text_in_body (dropoff_contact_family_name request)
  /\ lookup "order_value" body = number_in_body (order_value request).
Proof.
  cbv zeta. unfold request_body.
  repeat split;
    rewrite body_number, ?body_text;
    cbn [String.eqb Ascii.eqb Bool.eqb andb lookup];
    repeat match goal with
           | |- context [text_in_body ?v] => destruct (text_in_body v)
           | |- context [number_in_body ?v] => destruct (number_in_body v)
           end;
    reflexivity.
Qed.

End DeliveryProofs.
